(** * LUNA testbench: log / registry ingestion pipeline

    A shallow embedding of the ingestion services of [luna_tb]
    ([services/ingest.py], [services/registry_import.py],
    [services/label_import.py], [storage/repositories.py]) together with the
    part of the Python run time they rely on, and the properties of the
    pipeline that are checked against it.

    Conventions.
    - A Python [str] is a [string]; only code points below 128 are modelled.
    - A Python [float] is a primitive binary64 [float]; [int] is [Z].
    - A raised exception is the left summand of [result]; the exception
      class is the constructor of [exn].
    - [None] is [None]. *)

From Stdlib Require Import ZArith List String Ascii Bool Lia Floats.
From Stdlib Require Import Sorting.Sorted Sorting.Permutation.
From Stdlib Require Import Numbers.DecimalString.
Import ListNotations.

Local Open Scope string_scope.
Local Open Scope Z_scope.

(* ================================================================== *)
(** * Exceptions and the error monad *)

Inductive exn : Type :=
| IngestError (msg : string)
| LabelImportError (msg : string)
| RegistryImportError (msg : string)
| ValueError (msg : string)
| OverflowError (msg : string)
| KeyError (msg : string)
| IntegrityError (msg : string)
| BadZipFile (msg : string).

Definition result (A : Type) : Type := (exn + A)%type.

Definition ret {A} (a : A) : result A := inr a.
Definition raise {A} (e : exn) : result A := inl e.

Definition bind {A B} (m : result A) (k : A -> result B) : result B :=
  match m with
  | inl e => inl e
  | inr a => k a
  end.

Declare Scope py_scope.
Delimit Scope py_scope with py.
Notation "x <- m ;; k" := (bind m (fun x => k))
  (at level 61, m at next level, right associativity) : py_scope.
Notation "m ;;; k" := (bind m (fun _ => k))
  (at level 61, right associativity) : py_scope.
Local Open Scope py_scope.

Definition is_ok {A} (r : result A) : bool :=
  match r with inr _ => true | inl _ => false end.

Definition is_IngestError (e : exn) : bool :=
  match e with IngestError _ => true | _ => false end.

Definition is_LabelImportError (e : exn) : bool :=
  match e with LabelImportError _ => true | _ => false end.

Definition is_RegistryImportError (e : exn) : bool :=
  match e with RegistryImportError _ => true | _ => false end.

(** [for x in xs: body] with an accumulator that the body appends to. *)
Fixpoint mapM {A B} (f : A -> result B) (xs : list A) : result (list B) :=
  match xs with
  | [] => ret []
  | x :: xs' => y <- f x ;; ys <- mapM f xs' ;; ret (y :: ys)
  end.

(* ================================================================== *)
(** * The part of [str] the services use *)

Module PyStr.

Definition code (c : ascii) : N := N_of_ascii c.

(** [str.isspace] on one character: TAB..CR, FS..US and SPACE. *)
Definition isspace (c : ascii) : bool :=
  let n := code c in
  ((9 <=? n) && (n <=? 13) || (28 <=? n) && (n <=? 32))%N.

Definition isdigit (c : ascii) : bool :=
  let n := code c in ((48 <=? n) && (n <=? 57))%N.

Definition digit_val (c : ascii) : Z := Z.of_N (code c) - 48.

Definition isupper (c : ascii) : bool :=
  let n := code c in ((65 <=? n) && (n <=? 90))%N.

Definition to_lower (c : ascii) : ascii :=
  if isupper c then ascii_of_N (code c + 32) else c.

Fixpoint lower (s : string) : string :=
  match s with
  | EmptyString => EmptyString
  | String c s' => String (to_lower c) (lower s')
  end.

Fixpoint lstrip_with (p : ascii -> bool) (s : string) : string :=
  match s with
  | EmptyString => EmptyString
  | String c s' => if p c then lstrip_with p s' else s
  end.

(** Drops the trailing characters satisfying [p]. *)
Fixpoint rstrip_with (p : ascii -> bool) (s : string) : string :=
  match s with
  | EmptyString => EmptyString
  | String c s' =>
      match rstrip_with p s' with
      | EmptyString => if p c then EmptyString else String c EmptyString
      | r => String c r
      end
  end.

Definition strip_with (p : ascii -> bool) (s : string) : string :=
  rstrip_with p (lstrip_with p s).

(** [s.strip()] *)
Definition strip (s : string) : string := strip_with isspace s.

Definition is_empty (s : string) : bool :=
  match s with EmptyString => true | _ => false end.

Fixpoint rev_acc (s acc : string) : string :=
  match s with
  | EmptyString => acc
  | String c s' => rev_acc s' (String c acc)
  end.

Definition rev (s : string) : string := rev_acc s EmptyString.

(** [s.endswith(p)] *)
Definition endswith (s p : string) : bool := String.prefix (rev p) (rev s).

(** [s.replace(old, new)] for a one-character [old]. *)
Fixpoint replace_char (old : ascii) (new : string) (s : string) : string :=
  match s with
  | EmptyString => EmptyString
  | String c s' =>
      if Ascii.eqb c old then new ++ replace_char old new s'
      else String c (replace_char old new s')
  end.

(** [re.sub(r"\s+", " ", s)]: every maximal run of white space becomes one
    space. [in_run] tells that the previous character was white space. *)
Fixpoint collapse_ws (in_run : bool) (s : string) : string :=
  match s with
  | EmptyString => EmptyString
  | String c s' =>
      if isspace c then
        if in_run then collapse_ws true s'
        else String " " (collapse_ws true s')
      else String c (collapse_ws false s')
  end.

(** [str(n)] for an [int]. *)
Definition of_Z (z : Z) : string := NilZero.string_of_int (Z.to_int z).

(** ["%0<w>d" % n] for [0 <= n]. *)
Definition pad0 (w : nat) (z : Z) : string :=
  let s := of_Z z in
  let fix zeros (k : nat) : string :=
    match k with O => EmptyString | S k' => String "0" (zeros k') end in
  zeros (Nat.sub w (String.length s)) ++ s.

(** [repr(s)] for a string without quotes or escapes. *)
Definition repr (s : string) : string := "'" ++ s ++ "'".

Fixpoint join (sep : string) (xs : list string) : string :=
  match xs with
  | [] => EmptyString
  | [x] => x
  | x :: xs' => x ++ sep ++ join sep xs'
  end.

(** [repr] of a list of strings, as an f-string prints it. *)
Definition repr_list (xs : list string) : string :=
  "[" ++ join ", " (map repr xs) ++ "]".

End PyStr.

(* ================================================================== *)
(** * [int(...)] and [float(...)] on strings *)

Module PyNum.
Import PyStr.

(** [digitpart ::= digit (["_"] digit)*].  Reads the longest digit part at
    the head of [s]; returns its value, its number of digits and the rest. *)
Fixpoint digitpart_rest (acc : Z) (n : nat) (s : string) : Z * nat * string :=
  match s with
  | String c s' =>
      if isdigit c then digitpart_rest (10 * acc + digit_val c) (S n) s'
      else if Ascii.eqb c "_" then
        match s' with
        | String d s'' =>
            if isdigit d
            then digitpart_rest (10 * acc + digit_val d) (S n) s''
            else (acc, n, s)
        | EmptyString => (acc, n, s)
        end
      else (acc, n, s)
  | EmptyString => (acc, n, s)
  end.

Definition digitpart (s : string) : option (Z * nat * string) :=
  match s with
  | String c _ => if isdigit c then Some (digitpart_rest 0 0 s) else None
  | EmptyString => None
  end.

Definition sign_rest (s : string) : bool * string :=
  match s with
  | String "-" s' => (true, s')
  | String "+" s' => (false, s')
  | _ => (false, s)
  end.

(** [sys.int_info.default_max_str_digits] *)
Definition max_str_digits : nat := 4300.

(** [int(s)]: [None] stands for [ValueError]. *)
Definition int (s : string) : option Z :=
  let '(neg, body) := sign_rest (strip s) in
  match digitpart body with
  | Some (v, n, EmptyString) =>
      if Nat.leb n max_str_digits
      then Some (if neg then - v else v) else None
  | _ => None
  end.

(** The binary64 nearest to the integer [z] (ties to even). *)
Definition float_of_Z_rounded (z : Z) : float :=
  SF2Prim (binary_normalize prec emax z 0 false).

(** The binary64 nearest to [m / d] for [0 < m] and [0 < d]. *)
Definition float_of_ratio (m d : positive) : float :=
  SF2Prim (SFdiv prec emax (S754_finite false m 0) (S754_finite false d 0)).

(** The binary64 nearest to [m * 10 ^ e10]. *)
Definition float_of_decimal (m : Z) (e10 : Z) : float :=
  match m with
  | Z0 => 0%float
  | Zpos p =>
      if 0 <=? e10 then float_of_Z_rounded (m * 10 ^ e10)
      else float_of_ratio p (Z.to_pos (10 ^ (- e10)))
  | Zneg _ => nan
  end.

(** [exponent ::= ("e" | "E") ["+" | "-"] digitpart] at the end of [s]. *)
Definition exponent (s : string) : option Z :=
  match s with
  | EmptyString => Some 0
  | String c s' =>
      if Ascii.eqb (to_lower c) "e" then
        let '(neg, body) := sign_rest s' in
        match digitpart body with
        | Some (v, _, EmptyString) => Some (if neg then - v else v)
        | _ => None
        end
      else None
  end.

(** The unsigned [floatnumber] of the grammar of [float()]. *)
Definition float_magnitude (s : string) : option float :=
  match digitpart s with
  | Some (ip, _, rest) =>
      match rest with
      | String "." rest' =>
          match digitpart rest' with
          | Some (fp, k, rest'') =>
              match exponent rest'' with
              | Some e =>
                  Some (float_of_decimal
                          (ip * 10 ^ Z.of_nat k + fp) (e - Z.of_nat k))
              | None => None
              end
          | None =>
              match exponent rest' with
              | Some e => Some (float_of_decimal ip e)
              | None => None
              end
          end
      | _ =>
          match exponent rest with
          | Some e => Some (float_of_decimal ip e)
          | None => None
          end
      end
  | None =>
      match s with
      | String "." rest' =>
          match digitpart rest' with
          | Some (fp, k, rest'') =>
              match exponent rest'' with
              | Some e => Some (float_of_decimal fp (e - Z.of_nat k))
              | None => None
              end
          | None => None
          end
      | _ => None
      end
  end.

(** [float(s)]: [None] stands for [ValueError]. *)
Definition float (s : string) : option PrimFloat.float :=
  let '(neg, body) := sign_rest (strip s) in
  let low := lower body in
  let signed (f : PrimFloat.float) := if neg then (- f)%float else f in
  if String.eqb low "inf" || String.eqb low "infinity"
  then Some (signed infinity)
  else if String.eqb low "nan" then Some nan
  else option_map signed (float_magnitude body).

(** [float(z)] for an [int] below [2 ^ 63] in magnitude (the conversion of
    the operand of a true division, of [total_seconds], ...). *)
Definition float_of_int (z : Z) : PrimFloat.float :=
  if z <? 0 then (- of_uint63 (Uint63.of_Z (- z)))%float
  else of_uint63 (Uint63.of_Z z).

End PyNum.

(* ================================================================== *)
(** * [domain/models.py] *)

(** The frozen dataclasses, field by field.  A field name that two classes
    share is written with a prefix in the later one: [label_notes] is
    [LabelEvent.notes], [reg_external_run_id] and [reg_diaper_type] are
    [RunRegistryEntry.external_run_id] and [RunRegistryEntry.diaper_type]. *)

Record RunMetadata : Type := {
  device_id : string;
  diaper_type : string;
  sensor_layout : string;
  external_run_id : option string;
  file_name : option string;
  notes : option string;
  start_ts : option string;
  end_ts : option string;
  sampling_interval_s : option float
}.

Record ReadingSample : Type := {
  t_elapsed_s : float;
  temp_c : option float;
  rh_pct : option float;
  timestamp : option string;
  sensor_id : option string
}.

Record LabelEvent : Type := {
  event_type : string;
  event_time_s : float;
  run_id : Z;
  event_ts : option string;
  volume_ml : option float;
  location_label : option string;
  distance_cm : option float;
  water_temp_c : option float;
  confidence : option float;
  source : option string;
  label_notes : option string
}.

Record RunRegistryEntry : Type := {
  reg_external_run_id : string;
  source_file : string;
  source_row_number : Z;
  status : option string;
  planned_or_recorded_ts : option string;
  test_device : option string;
  sensor_cap : option string;
  reg_diaper_type : option string;
  test_protocol : option string;
  findings_comments : option string;
  test_result_ref : option string;
  log_file_ref : option string
}.

(* ================================================================== *)
(** * Lists and dictionaries of the run time *)

Module PyList.

(** Stable insertion of [x] in front of the first element that is not
    smaller than it. *)
Fixpoint insert_by {A} (lt : A -> A -> bool) (x : A) (l : list A) : list A :=
  match l with
  | [] => [x]
  | y :: l' => if lt y x then y :: insert_by lt x l' else x :: l
  end.

(** [l.sort(key=key)] for float keys.  The run time promises a stable sort
    that compares keys with [<] only; stable insertion is the model, and it
    is the only stable arrangement whenever no key is a NaN.  With a NaN
    among the keys the comparisons are not an order, and what [list.sort]
    leaves then depends on its merge strategy: for four items and more it
    need not be what the insertion leaves.  Every statement about the order
    of a sorted list is made for keys without a NaN, or at a list of at
    most three items. *)
Definition sort_key {A} (key : A -> float) (l : list A) : list A :=
  fold_right (insert_by (fun a b => (key a <? key b)%float)) [] l.

(** [sum(xs)] for floats: the items are added from left to right, and the
    start value is the integer [0]. (From Python 3.12 on the run time
    carries a compensation term along; for one or two items the result is
    the same.) *)
Definition sum (xs : list float) : float :=
  fold_left PrimFloat.add xs (PyNum.float_of_int 0).

(** [l[-1]] of a non-empty list, [l[0]]. *)
Definition last_opt {A} (l : list A) : option A :=
  match rev l with [] => None | x :: _ => Some x end.

Definition first_opt {A} (l : list A) : option A :=
  match l with [] => None | x :: _ => Some x end.

(** A [dict] with string keys, as the list of its items in insertion
    order; a later item for the same key replaces an earlier one. *)
Definition dict (V : Type) : Type := list (string * V).

Fixpoint get {V} (d : dict V) (k : string) : option V :=
  match d with
  | [] => None
  | (k', v) :: d' =>
      match get d' k with
      | Some v' => Some v'
      | None => if String.eqb k k' then Some v else None
      end
  end.

Definition contains {V} (d : dict V) (k : string) : bool :=
  match get d k with Some _ => true | None => false end.

(** Membership in a [set] or [list] of strings. *)
Definition mem (k : string) (xs : list string) : bool :=
  existsb (String.eqb k) xs.

End PyList.

(* ================================================================== *)
(** * [csv.DictReader] *)

Module PyCsv.

(** One row of a [DictReader]: [dict(zip(fieldnames, row))], with [restval]
    ([None]) for the fields a short row lacks. The surplus of a long row
    sits under the key [None] and is never read. *)
Fixpoint zip_row (fieldnames row : list string)
  : PyList.dict (option string) :=
  match fieldnames, row with
  | [], _ => []
  | f :: fs, [] => (f, None) :: zip_row fs []
  | f :: fs, v :: vs => (f, Some v) :: zip_row fs vs
  end.

(** [row.get(key)] *)
Definition row_get (row : PyList.dict (option string)) (key : string)
  : option string :=
  match PyList.get row key with
  | Some v => v
  | None => None
  end.

Definition is_blank_record (r : list string) : bool :=
  match r with [] => true | _ => false end.

(** The reader over the records [csv.reader] yields: [fieldnames] is the
    first record ([None] for an empty file) and the rows are the later
    records that are not blank lines. *)
Definition fieldnames (records : list (list string)) : option (list string) :=
  match records with
  | [] => None
  | h :: _ => Some h
  end.

Definition rows (records : list (list string))
  : list (PyList.dict (option string)) :=
  match records with
  | [] => []
  | h :: rest =>
      map (zip_row h) (filter (fun r => negb (is_blank_record r)) rest)
  end.

End PyCsv.

(* ================================================================== *)
(** * The patterns of [re] the services use

    Every pattern of [ingest.py] is a sequence of character classes with a
    repetition range, with groups around some of them. *)

Module PyRe.

Inductive tok : Type :=
| Cls (p : ascii -> bool) (lo : nat) (hi : option nat)
| Open
| Close.

Definition allows (hi : option nat) : bool :=
  match hi with Some O => false | _ => true end.

(** Greedy repetition with backtracking: take one more character when
    allowed and the rest of the pattern then matches, else stop here when
    at least [lo] characters were taken. The result lists what each token
    consumed. *)
Fixpoint greedy (p : ascii -> bool) (k : string -> option (list string))
  (lo : nat) (hi : option nat) (s : string) {struct s}
  : option (list string) :=
  let stop :=
    match lo with
    | O => option_map (cons EmptyString) (k s)
    | S _ => None
    end in
  match s with
  | String c s' =>
      if p c && allows hi then
        match greedy p k (Nat.pred lo) (option_map Nat.pred hi) s' with
        | Some (seg :: segs) => Some (String c seg :: segs)
        | _ => stop
        end
      else stop
  | EmptyString => stop
  end.

(** [pattern.match(s)]: the tokens against a prefix of [s]. *)
Fixpoint match_toks (toks : list tok) (s : string) : option (list string) :=
  match toks with
  | [] => Some []
  | Cls p lo hi :: ts => greedy p (match_toks ts) lo hi s
  | Open :: ts => option_map (cons EmptyString) (match_toks ts s)
  | Close :: ts => option_map (cons EmptyString) (match_toks ts s)
  end.

(** [match.groups()] from what each token consumed. *)
Fixpoint groups_of (toks : list tok) (segs : list string)
  (cur : option string) : list string :=
  match toks, segs with
  | Open :: ts, _ :: ss => groups_of ts ss (Some EmptyString)
  | Close :: ts, _ :: ss =>
      match cur with
      | Some g => g :: groups_of ts ss None
      | None => groups_of ts ss None
      end
  | Cls _ _ _ :: ts, seg :: ss =>
      groups_of ts ss (option_map (fun g => g ++ seg) cur)
  | _, _ => []
  end.

(** [pattern.search(s)]: the first position at which the pattern
    matches; the value is [match.groups()]. *)
Fixpoint search (toks : list tok) (s : string) : option (list string) :=
  match match_toks toks s with
  | Some segs => Some (groups_of toks segs None)
  | None =>
      match s with
      | String _ s' => search toks s'
      | EmptyString => None
      end
  end.

Definition chr (c : ascii) : tok := Cls (Ascii.eqb c) 1 (Some 1%nat).

Fixpoint lit (s : string) : list tok :=
  match s with
  | EmptyString => []
  | String c s' => chr c :: lit s'
  end.

Definition star (p : ascii -> bool) : tok := Cls p 0 None.
Definition plus (p : ascii -> bool) : tok := Cls p 1 None.
Definition opt (p : ascii -> bool) : tok := Cls p 0 (Some 1%nat).
Definition rep (p : ascii -> bool) (lo hi : nat) : tok := Cls p lo (Some hi).
Definition group (ts : list tok) : list tok := Open :: ts ++ [Close].

Definition d : ascii -> bool := PyStr.isdigit.
Definition s : ascii -> bool := PyStr.isspace.
Definition digit_or_dot (c : ascii) : bool :=
  PyStr.isdigit c || Ascii.eqb c ".".
Definition plus_or_minus (c : ascii) : bool :=
  Ascii.eqb c "+" || Ascii.eqb c "-".

End PyRe.

(* ================================================================== *)
(** * [datetime]: dates, time deltas and time zones *)

Module PyDatetime.

(** The fields of a [datetime] without its [tzinfo]. *)
Record naive : Type := {
  year : Z; month : Z; day : Z;
  hour : Z; minute : Z; second : Z; microsecond : Z
}.

(** A [tzinfo] is what [utcoffset(dt)] answers, in seconds, for the wall
    clock fields of [dt]. *)
Record tzinfo : Type := { utcoffset : naive -> Z }.

Record datetime : Type := {
  fields : naive;
  tz : option tzinfo
}.

Definition is_leap (y : Z) : bool :=
  (y mod 4 =? 0) && (negb (y mod 100 =? 0) || (y mod 400 =? 0)).

Definition days_in_month (y m : Z) : Z :=
  if m =? 2 then (if is_leap y then 29 else 28)
  else if (m =? 4) || (m =? 6) || (m =? 9) || (m =? 11) then 30
  else 31.

Definition days_before_year (y : Z) : Z :=
  let p := y - 1 in p * 365 + p / 4 - p / 100 + p / 400.

Definition days_before_month_common (m : Z) : Z :=
  nth (Z.to_nat m) [0; 0; 31; 59; 90; 120; 151; 181; 212; 243; 273; 304; 334] 0.

Definition days_before_month (y m : Z) : Z :=
  days_before_month_common m + (if (2 <? m) && is_leap y then 1 else 0).

(** [date.toordinal]: 1 is 0001-01-01. *)
Definition ymd2ord (y m d : Z) : Z :=
  days_before_year y + days_before_month y m + d.

Definition MAXORDINAL : Z := 3652059.

(** [date.fromordinal] *)
Definition ord2ymd (ordinal : Z) : Z * Z * Z :=
  let n := ordinal - 1 in
  let n400 := n / 146097 in let n := n mod 146097 in
  let n100 := n / 36524 in let n := n mod 36524 in
  let n4 := n / 1461 in let n := n mod 1461 in
  let n1 := n / 365 in let n := n mod 365 in
  let y := n400 * 400 + 1 + n100 * 100 + n4 * 4 + n1 in
  if (n1 =? 4) || (n100 =? 4) then (y - 1, 12, 31)
  else
    let leapyear := (n1 =? 3) && (negb (n4 =? 24) || (n100 =? 3)) in
    let m := Z.shiftr (n + 50) 5 in
    let preceding :=
      days_before_month_common m + (if (2 <? m) && leapyear then 1 else 0) in
    if n <? preceding then
      let m' := m - 1 in
      let dim := if m' =? 2 then (if leapyear then 29 else 28)
                 else days_in_month 1 m' in
      (y, m', n - (preceding - dim) + 1)
    else (y, m, n - preceding + 1).

(** [datetime(year, month, day, hour, minute, second, tzinfo=tzinfo)] *)
Definition make (y mo d h mi s : Z) (tzi : option tzinfo) : result datetime :=
  if negb ((1 <=? y) && (y <=? 9999)) then
    raise (ValueError "year is out of range")
  else if negb ((1 <=? mo) && (mo <=? 12)) then
    raise (ValueError "month must be in 1..12")
  else if negb ((1 <=? d) && (d <=? days_in_month y mo)) then
    raise (ValueError "day is out of range for month")
  else if negb ((0 <=? h) && (h <=? 23)) then
    raise (ValueError "hour must be in 0..23")
  else if negb ((0 <=? mi) && (mi <=? 59)) then
    raise (ValueError "minute must be in 0..59")
  else if negb ((0 <=? s) && (s <=? 59)) then
    raise (ValueError "second must be in 0..59")
  else
    ret {| fields := {| year := y; month := mo; day := d;
                        hour := h; minute := mi; second := s;
                        microsecond := 0 |};
           tz := tzi |}.

(** [dt.replace(tzinfo=tzi)] *)
Definition replace_tzinfo (dt : datetime) (tzi : tzinfo) : datetime :=
  {| fields := fields dt; tz := Some tzi |}.

Definition us_per_second : Z := 1000000.
Definition us_per_day : Z := 86400000000.

(** Microseconds of the wall clock fields since the start of day 0. *)
Definition wall_us (n : naive) : Z :=
  ymd2ord (year n) (month n) (day n) * us_per_day
  + ((hour n * 3600 + minute n * 60 + second n) * us_per_second
     + microsecond n).

(** A [timedelta], as its total number of microseconds. *)
Definition timedelta : Type := Z.

(** [a - b] for two datetimes that carry the same [tzinfo] object: the
    offsets are left out and the wall clock fields are subtracted. *)
Definition sub_same_tzinfo (a b : datetime) : timedelta :=
  wall_us (fields a) - wall_us (fields b).

(** [delta.total_seconds()]: [microseconds / 10 ** 6] as a true division
    of integers. *)
Definition total_seconds (delta : timedelta) : float :=
  if delta mod us_per_second =? 0
  then PyNum.float_of_int (delta / us_per_second)
  else if delta <? 0
  then (- PyNum.float_of_ratio (Z.to_pos (- delta)) (Z.to_pos us_per_second))%float
  else PyNum.float_of_ratio (Z.to_pos delta) (Z.to_pos us_per_second).

(** [math.modf] on a finite float: the fractional and the integral part;
    [None] for an infinity or a NaN. *)
Definition modf (x : float) : option (float * Z) :=
  match Prim2SF x with
  | S754_zero _ => Some (x, 0)
  | S754_finite sg m e =>
      let mag := if 0 <=? e then Zpos m * 2 ^ e else Zpos m / 2 ^ (- e) in
      let i := if sg then - mag else mag in
      Some ((x - PyNum.float_of_Z_rounded i)%float, i)
  | _ => None
  end.

(** The whole number of microseconds nearest to [x + f] for an integer [x]
    and a left-over [f] with [|f| < 1]; ties go to the even one. *)
Definition round_leftover (x : Z) (f : float) : Z :=
  if (abs f =? 0.5)%float then
    (if Z.odd x then (if (f <? 0)%float then -1 else 1) else 0)
  else if (0.5 <? f)%float then 1
  else if (f <? -0.5)%float then -1
  else 0.

Definition MAX_DELTA_DAYS : Z := 999999999.

(** [timedelta(days=x)] for a float [x]. *)
Definition timedelta_of_days (x : float) : result timedelta :=
  if is_nan x then raise (ValueError "cannot convert float NaN to integer")
  else
    match modf x with
    | None => raise (OverflowError "cannot convert float infinity to integer")
    | Some (fracpart, intpart) =>
        let whole := intpart * us_per_day in
        let us :=
          if (fracpart =? 0)%float then whole
          else
            match modf (PyNum.float_of_int us_per_day * fracpart)%float with
            | Some (leftover, i2) =>
                whole + i2 + round_leftover (whole + i2) leftover
            | None => whole
            end in
        if Z.abs (us / us_per_day) <=? MAX_DELTA_DAYS then ret us
        else raise (OverflowError ("days=" ++ PyStr.of_Z (us / us_per_day)
                                   ++ "; must have magnitude <= 999999999"))
    end.

(** [dt + delta] *)
Definition add (dt : datetime) (delta : timedelta) : result datetime :=
  let total := wall_us (fields dt) + delta in
  let ordinal := total / us_per_day in
  let rest := total mod us_per_day in
  if (1 <=? ordinal) && (ordinal <=? MAXORDINAL) then
    let '(y, mo, d) := ord2ymd ordinal in
    let secs := rest / us_per_second in
    ret {| fields := {| year := y; month := mo; day := d;
                        hour := secs / 3600;
                        minute := (secs mod 3600) / 60;
                        second := secs mod 60;
                        microsecond := rest mod us_per_second |};
           tz := tz dt |}
  else raise (OverflowError "date value out of range").

Definition format_offset (off : Z) : string :=
  let sign := if off <? 0 then "-" else "+" in
  let a := Z.abs off in
  let hh := a / 3600 in
  let mm := (a mod 3600) / 60 in
  let ss := a mod 60 in
  sign ++ PyStr.pad0 2 hh ++ ":" ++ PyStr.pad0 2 mm
  ++ (if ss =? 0 then "" else ":" ++ PyStr.pad0 2 ss).

(** [dt.isoformat()] *)
Definition isoformat (dt : datetime) : string :=
  let n := fields dt in
  PyStr.pad0 4 (year n) ++ "-" ++ PyStr.pad0 2 (month n) ++ "-"
  ++ PyStr.pad0 2 (day n) ++ "T" ++ PyStr.pad0 2 (hour n) ++ ":"
  ++ PyStr.pad0 2 (minute n) ++ ":" ++ PyStr.pad0 2 (second n)
  ++ (if microsecond n =? 0 then "" else "." ++ PyStr.pad0 6 (microsecond n))
  ++ match tz dt with
     | Some tzi => format_offset (utcoffset tzi n)
     | None => ""
     end.

(** [dt.timedelta(minutes=m)] for an integer [m]. *)
Definition timedelta_of_minutes (m : Z) : result timedelta :=
  let us := m * 60 * us_per_second in
  if Z.abs (us / us_per_day) <=? MAX_DELTA_DAYS then ret us
  else raise (OverflowError ("days=" ++ PyStr.of_Z (us / us_per_day)
                             ++ "; must have magnitude <= 999999999")).

(** [dt.timezone(offset)]: a fixed offset strictly between minus and plus
    one day. *)
Definition timezone (offset : timedelta) : result tzinfo :=
  if (- us_per_day <? offset) && (offset <? us_per_day)
  then ret {| utcoffset := fun _ => offset / us_per_second |}
  else raise (ValueError "offset must be a timedelta strictly between -timedelta(hours=24) and timedelta(hours=24)").

(** The instant of an aware datetime, in microseconds of UTC. *)
Definition instant_us (dt : datetime) : Z :=
  wall_us (fields dt)
  - match tz dt with
    | Some tzi => utcoffset tzi (fields dt) * us_per_second
    | None => 0
    end.

End PyDatetime.

(* ================================================================== *)
(** * What the services take from their environment *)

(** The functions of the run time whose behaviour depends on the
    interpreter version or on the time zone database of the machine.
    [None] stands for the exception the call raises. *)
Class Runtime : Type := {
  (** [dt.datetime.fromisoformat(s)]; [None] is [ValueError]. *)
  fromisoformat : string -> option PyDatetime.datetime;
  (** [dt.datetime.strptime(s, fmt)]; [None] is [ValueError]. *)
  strptime : string -> string -> option PyDatetime.datetime;
  (** [zoneinfo.ZoneInfo(name)]; [None] is any exception. *)
  ZoneInfo : string -> option PyDatetime.tzinfo
}.

(** One [<c>] element of a worksheet: its [r] attribute and the text that
    [_xlsx_cell_value] reads from it. *)
Record cell : Type := {
  cell_ref : option string;
  cell_value : string
}.

(** One sheet of a workbook: its name and the cells of its rows. *)
Record sheet : Type := {
  sheet_name : string;
  sheet_rows : list (list cell)
}.

(** A file, as the readers of the services see it. *)
Record file : Type := {
  (** the records that [csv.reader] yields for the file *)
  csv_records : list (list string);
  (** [read_text(encoding="utf-8", errors="ignore").splitlines()] *)
  text_lines : list string;
  (** the sheets of the workbook, in the order of [xl/workbook.xml];
      [None] when the file is not a readable package *)
  workbook : option (list sheet)
}.

(** The files by path; [None] when [path.exists()] is false. *)
Definition filesystem : Type := string -> option file.

(** The part of [pathlib.Path] the services use, on POSIX paths. *)
Module PyPath.

(** The text after the last ["/"]. *)
Fixpoint name_acc (s cur : string) : string :=
  match s with
  | EmptyString => cur
  | String c s' =>
      if Ascii.eqb c "/" then name_acc s' EmptyString
      else name_acc s' (cur ++ String c EmptyString)
  end.

(** [Path(p).name], for a path that does not end in ["/"]. *)
Definition name (p : string) : string := name_acc p EmptyString.

(** The last ["."] of [s] and what follows it. *)
Fixpoint last_dot (s : string) : option string :=
  match s with
  | EmptyString => None
  | String c s' =>
      match last_dot s' with
      | Some r => Some r
      | None => if Ascii.eqb c "." then Some s else None
      end
  end.

(** [Path(p).suffix]: the last dotted part of the name, empty when the
    only dot leads the name or ends it. *)
Definition suffix (p : string) : string :=
  let n := name p in
  match n with
  | EmptyString => EmptyString
  | String c rest =>
      match last_dot rest with
      | Some (String _ EmptyString) => EmptyString
      | Some r => r
      | None => EmptyString
      end
  end.

End PyPath.

(* ================================================================== *)
(** * [storage/db.py] and [storage/repositories.py] *)

Module Storage.

Record run_row : Type := {
  run_row_id : Z;
  run_row_metadata : RunMetadata
}.

(** One row of [readings]: the columns of the [INSERT] of
    [insert_readings], in its order.  A [REAL] column holds a float that
    is not a NaN, or NULL. *)
Record reading_row : Type := {
  reading_run_id : Z;
  reading_timestamp : option string;
  reading_t_elapsed_s : option float;
  reading_sensor_id : option string;
  reading_temp_c : option float;
  reading_rh_pct : option float
}.

(** One row of [labels]: the columns of the [INSERT] of [insert_labels],
    in its order. *)
Record label_row : Type := {
  label_run_id : Z;
  label_event_type : string;
  label_event_time_s : option float;
  label_event_ts : option string;
  label_volume_ml : option float;
  label_location_label : option string;
  label_distance_cm : option float;
  label_water_temp_c : option float;
  label_confidence : option float;
  label_source : option string;
  label_row_notes : option string
}.

Record registry_row : Type := {
  registry_id : Z;
  registry_entry : RunRegistryEntry;
  registry_run_id : option Z
}.

(** Modelled from the spec: the schema scripts under [storage/migrations]
    are not part of the sources. The tables are the lists of their rows in
    row id order; [run_id] and [registry_id] are integer primary keys that
    the engine allots as one more than the largest in use;
    [run_registry.external_run_id] is unique; [labels.run_id] refers to
    [runs]. No other column constraint is modelled: every other column
    takes NULL. *)
Record database : Type := {
  runs : list run_row;
  readings : list reading_row;
  run_registry : list registry_row;
  labels : list label_row
}.

(** How [sqlite3] binds a [float] parameter: the engine stores a NaN as
    NULL. *)
Definition bind_real (x : float) : option float :=
  if is_nan x then None else Some x.

Definition bind_real_opt (x : option float) : option float :=
  match x with
  | Some v => bind_real v
  | None => None
  end.

(** How [sqlite3] binds an [int] parameter: as a 64-bit integer; an [int]
    outside of that range raises [OverflowError]. *)
Definition fits_int64 (z : Z) : bool := (- 2 ^ 63 <=? z) && (z <? 2 ^ 63).

(** The columns of a run that come from the metadata, as they are stored;
    the baseline columns of the row are NULL. *)
Definition stored_metadata (m : RunMetadata) : RunMetadata :=
  {| device_id := device_id m;
     diaper_type := diaper_type m;
     sensor_layout := sensor_layout m;
     external_run_id := external_run_id m;
     file_name := file_name m;
     notes := notes m;
     start_ts := start_ts m;
     end_ts := end_ts m;
     sampling_interval_s := bind_real_opt (sampling_interval_s m) |}.

(** The tuple of [rows] that [insert_readings] makes of a reading, as it
    is stored. *)
Definition reading_row_of (rid : Z) (r : ReadingSample) : reading_row :=
  {| reading_run_id := rid;
     reading_timestamp := timestamp r;
     reading_t_elapsed_s := bind_real (t_elapsed_s r);
     reading_sensor_id := sensor_id r;
     reading_temp_c := bind_real_opt (temp_c r);
     reading_rh_pct := bind_real_opt (rh_pct r) |}.

(** The tuple of [rows] that [insert_labels] makes of a label, as it is
    stored. *)
Definition label_row_of (l : LabelEvent) : label_row :=
  {| label_run_id := run_id l;
     label_event_type := event_type l;
     label_event_time_s := bind_real (event_time_s l);
     label_event_ts := event_ts l;
     label_volume_ml := bind_real_opt (volume_ml l);
     label_location_label := location_label l;
     label_distance_cm := bind_real_opt (distance_cm l);
     label_water_temp_c := bind_real_opt (water_temp_c l);
     label_confidence := bind_real_opt (confidence l);
     label_source := source l;
     label_row_notes := label_notes l |}.

Definition next_id (ids : list Z) : Z := fold_right Z.max 0 ids + 1.

(** A connection: the committed state of the file and the state that the
    statements of the open transaction have produced. *)
Record connection : Type := {
  committed : database;
  current : database
}.

(** A block of code that runs on a connection and may raise. *)
Definition cmd (A : Type) : Type := connection -> result A * connection.

Definition cret {A} (a : A) : cmd A := fun c => (inr a, c).
Definition craise {A} (e : exn) : cmd A := fun c => (inl e, c).
Definition clift {A} (r : result A) : cmd A := fun c => (r, c).

Definition cbind {A B} (m : cmd A) (k : A -> cmd B) : cmd B :=
  fun c =>
    match m c with
    | (inl e, c') => (inl e, c')
    | (inr a, c') => k a c'
    end.

Definition query {A} (f : database -> A) : cmd A :=
  fun c => (inr (f (current c)), c).

Definition update (f : database -> database) : cmd unit :=
  fun c => (inr tt, {| committed := committed c; current := f (current c) |}).

(** [conn.commit()] *)
Definition commit : cmd unit :=
  fun c => (inr tt, {| committed := current c; current := current c |}).

(** [with get_connection(db_path) as conn: body]: leaving the block
    commits, and rolls back when the block raised. The value is what the
    block returned and the state of the file afterwards. *)
Definition with_connection {A} (db : database) (body : cmd A)
  : result A * database :=
  match body {| committed := db; current := db |} with
  | (inl e, c) => (inl e, committed c)
  | (inr a, c) => (inr a, current c)
  end.

(** [RunRepository.create_run] *)
Definition create_run (metadata : RunMetadata) : cmd Z :=
  fun c =>
    let db := current c in
    let rid := next_id (map run_row_id (runs db)) in
    (inr rid,
     {| committed := committed c;
        current :=
          {| runs := runs db ++ [{| run_row_id := rid;
                                    run_row_metadata :=
                                      stored_metadata metadata |}];
             readings := readings db;
             run_registry := run_registry db;
             labels := labels db |} |}).

(** [ReadingRepository.insert_readings] *)
Definition insert_readings (rid : Z) (rs : list ReadingSample) : cmd unit :=
  update (fun db =>
    {| runs := runs db;
       readings := readings db ++ map (reading_row_of rid) rs;
       run_registry := run_registry db;
       labels := labels db |}).

Definition run_exists (db : database) (rid : Z) : bool :=
  existsb (fun r => run_row_id r =? rid) (runs db).

(** The [INSERT] of [insert_labels] for one row: the parameters are bound,
    the foreign key is checked, and the row is added to the open
    transaction. *)
Definition insert_label (l : LabelEvent) : cmd unit :=
  fun c =>
    let db := current c in
    if negb (fits_int64 (run_id l)) then
      (inl (OverflowError "Python int too large to convert to SQLite INTEGER"),
       c)
    else if run_exists db (run_id l) then
      (inr tt,
       {| committed := committed c;
          current := {| runs := runs db;
                        readings := readings db;
                        run_registry := run_registry db;
                        labels := labels db ++ [label_row_of l] |} |})
    else (inl (IntegrityError "FOREIGN KEY constraint failed"), c).

(** [LabelRepository.insert_labels]: [executemany] runs the statement row
    by row; the rows in front of the one that fails stay in the open
    transaction. *)
Fixpoint insert_labels (ls : list LabelEvent) : cmd unit :=
  match ls with
  | [] => cret tt
  | l :: ls' => cbind (insert_label l) (fun _ => insert_labels ls')
  end.

(** One row of [upsert_entries]: a row with the same [external_run_id]
    takes the new columns and keeps its [registry_id] and [run_id]; else a
    new unlinked row is added. *)
Fixpoint upsert_row (e : RunRegistryEntry) (rows : list registry_row)
  (fresh : Z) : list registry_row :=
  match rows with
  | [] => [{| registry_id := fresh; registry_entry := e;
              registry_run_id := None |}]
  | r :: rows' =>
      if String.eqb (reg_external_run_id (registry_entry r))
                    (reg_external_run_id e)
      then {| registry_id := registry_id r; registry_entry := e;
              registry_run_id := registry_run_id r |} :: rows'
      else r :: upsert_row e rows' fresh
  end.

Definition upsert_one (rows : list registry_row) (e : RunRegistryEntry)
  : list registry_row :=
  upsert_row e rows (next_id (map registry_id rows)).

(** [RunRegistryRepository.upsert_entries] *)
Definition upsert_entries (entries : list RunRegistryEntry) : cmd Z :=
  cbind
    (update (fun db =>
       {| runs := runs db;
          readings := readings db;
          run_registry := fold_left upsert_one entries (run_registry db);
          labels := labels db |}))
    (fun _ => cret (Z.of_nat (List.length entries))).

(** [TRIM(x)] of the engine: spaces only. *)
Definition sql_trim (s : string) : string :=
  PyStr.strip_with (Ascii.eqb " ") s.

Definition matches_log_file (log_file_name : string) (r : registry_row)
  : bool :=
  match log_file_ref (registry_entry r) with
  | Some ref => String.eqb (sql_trim ref) log_file_name
  | None => false
  end.

(** [RunRegistryRepository.find_by_log_file_ref]: [fetchone] of the rows
    with [TRIM(log_file_ref) = ?]. *)
Definition find_by_log_file_ref (log_file_name : string)
  : cmd (option registry_row) :=
  query (fun db => find (matches_log_file log_file_name) (run_registry db)).

(** [RunRegistryRepository.attach_run] *)
Definition attach_run (reg_id : Z) (rid : Z) : cmd unit :=
  update (fun db =>
    {| runs := runs db;
       readings := readings db;
       run_registry :=
         map (fun r =>
                if registry_id r =? reg_id
                then {| registry_id := registry_id r;
                        registry_entry := registry_entry r;
                        registry_run_id := Some rid |}
                else r)
             (run_registry db);
       labels := labels db |}).

End Storage.

Declare Scope cmd_scope.
Delimit Scope cmd_scope with cmd.
Notation "x <~ m ;; k" := (Storage.cbind m (fun x => k))
  (at level 61, m at next level, right associativity) : cmd_scope.
Notation "m ;;~ k" := (Storage.cbind m (fun _ => k))
  (at level 61, right associativity) : cmd_scope.

(* ================================================================== *)
(** * [services/ingest.py] *)

Module Ingest.
Import PyRe PyDatetime Storage.
Local Open Scope list_scope.

Definition dquote : ascii := ascii_of_N 34.

Definition _TEMP_HUMID_PATTERN : list tok :=
  lit "temp_humid_sample:" ++ [star s]
  ++ group [rep d 4 4] ++ lit "-" ++ group [rep d 1 2] ++ lit "-"
  ++ group [rep d 1 2] ++ [plus s]
  ++ group [rep d 1 2] ++ lit ":" ++ group [rep d 1 2] ++ lit ":"
  ++ group [rep d 1 2] ++ lit "," ++ [star s]
  ++ lit "temp:" ++ [star s] ++ group [plus digit_or_dot] ++ lit ","
  ++ [star s] ++ lit "humid:" ++ [star s] ++ group [plus digit_or_dot]
  ++ lit "%".

Definition _TZ_PAREN_PATTERN : list tok :=
  lit "tz(" ++ group [opt plus_or_minus; plus d] ++ lit ")".

Definition _TZ_CCLK_PATTERN : list tok :=
  lit "+CCLK:" ++ [star s] ++ [chr dquote]
  ++ [rep d 2 2] ++ lit "/" ++ [rep d 2 2] ++ lit "/" ++ [rep d 2 2]
  ++ lit "," ++ [rep d 2 2] ++ lit ":" ++ [rep d 2 2] ++ lit ":"
  ++ [rep d 2 2] ++ group [rep plus_or_minus 1 1; rep d 2 2]
  ++ [chr dquote].

Local Open Scope string_scope.

(** [int(s)] where [ValueError] propagates. *)
Definition int_of (s : string) : result Z :=
  match PyNum.int s with
  | Some z => ret z
  | None =>
      raise (ValueError ("invalid literal for int() with base 10: "
                         ++ PyStr.repr s))
  end.

(** [float(s)] where [ValueError] propagates. *)
Definition float_of (s : string) : result float :=
  match PyNum.float s with
  | Some f => ret f
  | None =>
      raise (ValueError ("could not convert string to float: "
                         ++ PyStr.repr s))
  end.

Definition _empty_to_none (value : option string) : option string :=
  match value with
  | None => None
  | Some v =>
      let stripped := PyStr.strip v in
      if PyStr.is_empty stripped then None else Some stripped
  end.

Definition _to_float (value : option string) (field : string)
  (path : string) (allow_empty : bool) : result (option float) :=
  match value with
  | None =>
      if allow_empty then ret None
      else raise (IngestError ("Missing " ++ field ++ " value in " ++ path))
  | Some v =>
      let stripped := PyStr.strip v in
      if PyStr.is_empty stripped then
        if allow_empty then ret None
        else raise (IngestError ("Empty " ++ field ++ " value in " ++ path))
      else
        match PyNum.float stripped with
        | Some f => ret (Some f)
        | None =>
            raise (IngestError ("Invalid " ++ field ++ " value '" ++ v
                                ++ "' in " ++ path))
        end
  end.

(** [_to_float] without [allow_empty]: the value is a float. *)
Definition _to_float_required (value : option string) (field : string)
  (path : string) : result float :=
  r <- _to_float value field path false ;;
  match r with
  | Some f => ret f
  | None => raise (IngestError ("Missing " ++ field ++ " value in " ++ path))
  end.

Definition _tz_from_quarters (value : Z) : result tzinfo :=
  delta <- timedelta_of_minutes (value * 15) ;;
  timezone delta.

(** The list [deltas] of [_estimate_sampling_interval]. *)
Fixpoint _estimate_deltas (readings : list ReadingSample) : list float :=
  match readings with
  | a :: (b :: _) as tl =>
      if (t_elapsed_s a <=? t_elapsed_s b)%float
      then (t_elapsed_s b - t_elapsed_s a)%float :: _estimate_deltas tl
      else _estimate_deltas tl
  | _ => []
  end.

Definition _estimate_sampling_interval (readings : list ReadingSample)
  : option float :=
  if Nat.ltb (List.length readings) 2 then None
  else
    let deltas := _estimate_deltas readings in
    match deltas with
    | [] => None
    | _ :: _ =>
        Some (PyList.sum deltas
              / PyNum.float_of_int (Z.of_nat (List.length deltas)))%float
    end.

Section WithEnvironment.
Context {RT : Runtime}.
Variable fs : filesystem.

Definition _tz_from_name (name : string) : result tzinfo :=
  match ZoneInfo name with
  | Some tzi => ret tzi
  | None => raise (IngestError ("Unknown timezone: " ++ name))
  end.

(** The string that [_normalize_timestamp] hands to [fromisoformat]. *)
Definition iso_input (value : string) : string :=
  if PyStr.endswith value "Z"
  then PyStr.replace_char "Z" "+00:00" value
  else value.

Definition _normalize_timestamp (value : option string)
  (default_tz : string) (path : string) : result (option string) :=
  match value with
  | None => ret None
  | Some v =>
      match fromisoformat (iso_input v) with
      | None =>
          raise (IngestError ("Invalid timestamp '" ++ v ++ "' in " ++ path))
      | Some dt_value =>
          dt_value' <-
            match tz dt_value with
            | None =>
                tzi <- _tz_from_name default_tz ;;
                ret (replace_tzinfo dt_value tzi)
            | Some _ => ret dt_value
            end ;;
          ret (Some (isoformat dt_value'))
      end
  end.

Fixpoint _detect_tzinfo (lines : list string) (default_tz : string)
  : result tzinfo :=
  match lines with
  | [] => _tz_from_name default_tz
  | line :: rest =>
      match search _TZ_PAREN_PATTERN line with
      | Some (g :: _) => v <- int_of g ;; _tz_from_quarters v
      | _ =>
          match search _TZ_CCLK_PATTERN line with
          | Some (g :: _) => v <- int_of g ;; _tz_from_quarters v
          | _ => _detect_tzinfo rest default_tz
          end
      end
  end.

(** One row of the loop of [_parse_csv_log]. *)
Definition csv_row_reading (default_tz path : string)
  (row : PyList.dict (option string)) : result ReadingSample :=
  ts <- _normalize_timestamp
          (_empty_to_none (PyCsv.row_get row "timestamp"))
          default_tz path ;;
  t <- _to_float_required (PyCsv.row_get row "t_elapsed_s")
         "t_elapsed_s" path ;;
  temp <- _to_float (PyCsv.row_get row "temp_c") "temp_c" path true ;;
  rh <- _to_float (PyCsv.row_get row "rh_pct") "rh_pct" path true ;;
  ret {| t_elapsed_s := t; temp_c := temp; rh_pct := rh;
         timestamp := ts;
         sensor_id := _empty_to_none (PyCsv.row_get row "sensor_id") |}.

Definition required_columns : list string :=
  ["rh_pct"; "t_elapsed_s"; "temp_c"].

(** The list [readings] of [_parse_csv_log] before it is sorted. *)
Definition csv_readings (path : string) (default_tz : string)
  : result (list ReadingSample) :=
  match fs path with
  | None => raise (IngestError ("Log path does not exist: " ++ path))
  | Some f =>
      match PyCsv.fieldnames (csv_records f) with
      | None => raise (IngestError ("Missing header row in " ++ path))
      | Some names =>
          let present := map PyStr.strip names in
          let missing :=
            filter (fun c => negb (PyList.mem c present)) required_columns in
          match missing with
          | _ :: _ =>
              raise (IngestError ("Missing required columns "
                                  ++ PyStr.repr_list missing
                                  ++ " in " ++ path))
          | [] =>
              mapM (csv_row_reading default_tz path)
                (PyCsv.rows (csv_records f))
          end
      end
  end.

Definition _parse_csv_log (path : string) (default_tz : string)
  : result (list ReadingSample) :=
  readings <- csv_readings path default_tz ;;
  ret (PyList.sort_key t_elapsed_s readings).

(** The sample of one matching line: its datetime and its reading, given
    the datetime of the first matching line when there was one. *)
Definition device_sample (tzi : tzinfo) (base_dt : option datetime)
  (groups : list string) : result (datetime * ReadingSample) :=
  match groups with
  | [year; month; day; hour; minute; second; temp; humid] =>
      y <- int_of year ;; mo <- int_of month ;; dd <- int_of day ;;
      h <- int_of hour ;; mi <- int_of minute ;; sec <- int_of second ;;
      sample_dt <- make y mo dd h mi sec (Some tzi) ;;
      let base := match base_dt with
                  | None => sample_dt
                  | Some b => b
                  end in
      temp_v <- float_of temp ;;
      humid_v <- float_of humid ;;
      ret (base,
           {| t_elapsed_s := total_seconds (sub_same_tzinfo sample_dt base);
              temp_c := Some temp_v;
              rh_pct := Some humid_v;
              timestamp := Some (isoformat sample_dt);
              sensor_id := None |})
  | _ => raise (ValueError "not enough values to unpack")
  end.

(** The loop of [_parse_device_log] over the lines; [base_dt] is the
    variable of that name. *)
Fixpoint device_readings (tzi : tzinfo) (lines : list string)
  (base_dt : option datetime) : result (list ReadingSample) :=
  match lines with
  | [] => ret []
  | line :: rest =>
      match search _TEMP_HUMID_PATTERN line with
      | None => device_readings tzi rest base_dt
      | Some groups =>
          sample <- device_sample tzi base_dt groups ;;
          readings <- device_readings tzi rest (Some (fst sample)) ;;
          ret (snd sample :: readings)
      end
  end.

(** The list [readings] of [_parse_device_log] before it is sorted. *)
Definition device_log_readings (path : string) (default_tz : string)
  : result (list ReadingSample) :=
  match fs path with
  | None => raise (IngestError ("Log path does not exist: " ++ path))
  | Some f =>
      let lines := text_lines f in
      tzi <- _detect_tzinfo lines default_tz ;;
      device_readings tzi lines None
  end.

Definition _parse_device_log (path : string) (default_tz : string)
  : result (list ReadingSample) :=
  readings <- device_log_readings path default_tz ;;
  ret (PyList.sort_key t_elapsed_s readings).

Definition _parse_log_file (path : string) (default_tz : string)
  : result (list ReadingSample) :=
  let suffix := PyStr.lower (PyPath.suffix path) in
  if String.eqb suffix ".csv" then _parse_csv_log path default_tz
  else if String.eqb suffix ".log" then _parse_device_log path default_tz
  else raise (IngestError ("Unsupported log format: " ++ PyPath.suffix path)).

Local Open Scope cmd_scope.

(** The body of the loop of [ingest_logs] for one path; the value is the
    id of the run it created. *)
Definition ingest_file (log_path : string)
  (device_id diaper_type sensor_layout : string)
  (run_notes : option string) (default_tz : string) : cmd Z :=
  let name := PyPath.name log_path in
  found <~ find_by_log_file_ref name ;;
  match found with
  | None =>
      craise (IngestError ("No run_registry entry matches log file '"
                           ++ name
                           ++ "'. Import/update the registry source first."))
  | Some entry =>
      match registry_run_id entry with
      | Some linked =>
          craise (IngestError ("run_registry entry for '" ++ name
                               ++ "' is already linked to run_id="
                               ++ PyStr.of_Z linked))
      | None =>
          readings <~ clift (_parse_log_file log_path default_tz) ;;
          match PyList.first_opt readings, PyList.last_opt readings with
          | Some first, Some last =>
              let metadata :=
                {| device_id := device_id;
                   diaper_type := diaper_type;
                   sensor_layout := sensor_layout;
                   external_run_id :=
                     Some (reg_external_run_id (registry_entry entry));
                   file_name := Some name;
                   notes := run_notes;
                   start_ts := timestamp first;
                   end_ts := timestamp last;
                   sampling_interval_s :=
                     _estimate_sampling_interval readings |} in
              rid <~ create_run metadata ;;
              insert_readings rid readings ;;~
              attach_run (registry_id entry) rid ;;~
              commit ;;~
              cret rid
          | _, _ =>
              craise (IngestError ("No readings parsed from " ++ log_path))
          end
      end
  end.

Fixpoint ingest_loop (log_paths : list string) (run_ids : list Z)
  (device_id diaper_type sensor_layout : string)
  (run_notes : option string) (default_tz : string) : cmd (list Z) :=
  match log_paths with
  | [] => cret run_ids
  | log_path :: rest =>
      rid <~ ingest_file log_path device_id diaper_type sensor_layout
               run_notes default_tz ;;
      ingest_loop rest (run_ids ++ [rid]) device_id diaper_type
        sensor_layout run_notes default_tz
  end.

(** [ingest_logs]: the value (or the exception) and the database file
    after the call. *)
Definition ingest_logs (db : database) (log_paths : list string)
  (device_id diaper_type sensor_layout : string)
  (run_notes : option string) (default_tz : string)
  : result (list Z) * database :=
  with_connection db
    (ingest_loop log_paths [] device_id diaper_type sensor_layout
       run_notes default_tz).

End WithEnvironment.

End Ingest.

(* ================================================================== *)
(** * [services/registry_import.py] *)

Module RegistryImport.
Import PyDatetime Storage.

(** [_COLUMN_MAP], in the order of its items. *)
Definition _COLUMN_MAP : list (string * string) :=
  [("runid", "external_run_id");
   ("test status", "status");
   ("timestamp", "planned_or_recorded_ts");
   ("test device", "test_device");
   ("sensor cap", "sensor_cap");
   ("diaper type", "diaper_type");
   ("findings / comments", "findings_comments");
   ("test protocol", "test_protocol");
   ("test result", "test_result_ref");
   ("log file", "log_file_ref")].

Definition _normalize_header (value : string) : string :=
  PyStr.collapse_ws false (PyStr.lower (PyStr.strip value)).

Definition _normalize_sheet_name (value : string) : string :=
  _normalize_header (PyStr.replace_char "_" " " value).

Definition _clean_str (value : option string) : option string :=
  match value with
  | None => None
  | Some v =>
      let text := PyStr.strip v in
      if PyStr.is_empty text then None else Some text
  end.

Definition required_headers : list string :=
  ["runid"; "test status"; "log file"].

Definition _validate_required_headers
  (normalized_headers : PyList.dict string) : result unit :=
  let missing :=
    filter (fun h => negb (PyList.contains normalized_headers h))
      required_headers in
  match missing with
  | [] => ret tt
  | _ :: _ =>
      raise (RegistryImportError ("Missing required headers: "
                                  ++ PyStr.repr_list missing))
  end.

Definition isalpha (c : ascii) : bool :=
  PyStr.isupper c || PyStr.isupper (ascii_of_N (PyStr.code c - 32)).

Definition to_upper (c : ascii) : ascii :=
  if isalpha c && negb (PyStr.isupper c)
  then ascii_of_N (PyStr.code c - 32) else c.

(** [_column_index]: the letters of a cell reference in base 26, "A" = 1. *)
Definition _column_index (cell_ref : string) : Z :=
  (fix go (s : string) (idx : Z) : Z :=
     match s with
     | EmptyString => idx
     | String ch s' =>
         if isalpha ch
         then go s' (idx * 26 + (Z.of_N (PyStr.code (to_upper ch)) - 65 + 1))
         else go s' idx
     end) cell_ref 0.

(** The serial date of a spread sheet: the day 0 is 1899-12-30. *)
Definition serial_base : datetime :=
  {| fields := {| year := 1899; month := 12; day := 30;
                  hour := 0; minute := 0; second := 0; microsecond := 0 |};
     tz := None |}.

Definition strptime_formats : list string :=
  ["%Y-%m-%d %H:%M:%S"; "%Y-%m-%d %H:%M"; "%Y-%m-%d"].

Section WithEnvironment.
Context {RT : Runtime}.
Variable fs : filesystem.

Definition _tz_from_name (name : string) : result tzinfo :=
  match ZoneInfo name with
  | Some tzi => ret tzi
  | None => raise (RegistryImportError ("Unknown timezone: " ++ name))
  end.

(** The first [try] block of [_normalize_timestamp]: [Some] text when
    the block returns, [None] when it ends or [float] raises
    [ValueError]. *)
Definition serial_attempt (value : string) (tzi : tzinfo)
  : result (option string) :=
  match PyNum.float value with
  | None => ret None
  | Some numeric =>
      if (1000 <? numeric)%float then
        delta <- timedelta_of_days numeric ;;
        dt_value <- add serial_base delta ;;
        ret (Some (isoformat (replace_tzinfo dt_value tzi)))
      else ret None
  end.

(** The loop over the formats: the first one that [strptime] accepts. *)
Fixpoint strptime_attempt (value : string) (tzi : tzinfo)
  (fmts : list string) : option string :=
  match fmts with
  | [] => None
  | fmt :: rest =>
      match strptime value fmt with
      | Some dt_value => Some (isoformat (replace_tzinfo dt_value tzi))
      | None => strptime_attempt value tzi rest
      end
  end.

(** The last [try] block: the text, or the value itself when
    [fromisoformat] raises [ValueError]. *)
Definition iso_attempt (value : string) (tzi : tzinfo) : string :=
  match fromisoformat value with
  | Some dt_value =>
      match tz dt_value with
      | None => isoformat (replace_tzinfo dt_value tzi)
      | Some _ => isoformat dt_value
      end
  | None => value
  end.

Definition _normalize_timestamp (value : option string)
  (default_tz : string) : result (option string) :=
  match value with
  | None => ret None
  | Some v =>
      tzi <- _tz_from_name default_tz ;;
      serial <- serial_attempt v tzi ;;
      match serial with
      | Some text => ret (Some text)
      | None =>
          match strptime_attempt v tzi strptime_formats with
          | Some text => ret (Some text)
          | None => ret (Some (iso_attempt v tzi))
          end
      end
  end.

(** [normalized_headers[key]] *)
Definition header_item (normalized_headers : PyList.dict string)
  (key : string) : result string :=
  match PyList.get normalized_headers key with
  | Some h => ret h
  | None => raise (KeyError (PyStr.repr key))
  end.

(** The dictionary [mapped] that the loop of [_map_row] fills: one item for
    each target name of [_COLUMN_MAP]. *)
Definition mapped_items (row : PyList.dict (option string))
  (normalized_headers : PyList.dict string) : PyList.dict (option string) :=
  map (fun item =>
         (snd item,
          match PyList.get normalized_headers (fst item) with
          | Some header => _clean_str (PyCsv.row_get row header)
          | None => _clean_str None
          end))
      _COLUMN_MAP.

(** [mapped.get(target_name)] *)
Definition mapped_get (mapped : PyList.dict (option string))
  (target_name : string) : option string :=
  match PyList.get mapped target_name with
  | Some v => v
  | None => None
  end.

Definition _map_row (row : PyList.dict (option string))
  (normalized_headers : PyList.dict string) (source_file : string)
  (source_row_number : Z) (default_tz : string)
  : result (option RunRegistryEntry) :=
  external_header <- header_item normalized_headers "runid" ;;
  match _clean_str (PyCsv.row_get row external_header) with
  | None => ret None
  | Some external_run_id =>
      let mapped := mapped_items row normalized_headers in
      ts <- _normalize_timestamp (mapped_get mapped "planned_or_recorded_ts")
              default_tz ;;
      ret (Some
             {| reg_external_run_id := external_run_id;
                source_file := PyPath.name source_file;
                source_row_number := source_row_number;
                status := mapped_get mapped "status";
                planned_or_recorded_ts := ts;
                test_device := mapped_get mapped "test_device";
                sensor_cap := mapped_get mapped "sensor_cap";
                reg_diaper_type := mapped_get mapped "diaper_type";
                test_protocol := mapped_get mapped "test_protocol";
                findings_comments := mapped_get mapped "findings_comments";
                test_result_ref := mapped_get mapped "test_result_ref";
                log_file_ref := mapped_get mapped "log_file_ref" |})
  end.

(** The loop over the rows, numbered from [idx]: the rows that
    [_map_row] maps to [None] are left out. *)
Fixpoint map_rows (rows : list (PyList.dict (option string)))
  (normalized_headers : PyList.dict string) (path : string) (idx : Z)
  (default_tz : string) : result (list RunRegistryEntry) :=
  match rows with
  | [] => ret []
  | row :: rest =>
      mapped <- _map_row row normalized_headers path idx default_tz ;;
      entries <- map_rows rest normalized_headers path (idx + 1)
                   default_tz ;;
      ret match mapped with
          | Some e => e :: entries
          | None => entries
          end
  end.

Definition _parse_registry_csv (path : string) (default_tz : string)
  : result (list RunRegistryEntry) :=
  match fs path with
  | None =>
      raise (RegistryImportError ("Registry file does not exist: " ++ path))
  | Some f =>
      match PyCsv.fieldnames (csv_records f) with
      | None => raise (RegistryImportError ("Missing header row in " ++ path))
      | Some names =>
          let normalized := map (fun h => (_normalize_header h, h)) names in
          _validate_required_headers normalized ;;;
          map_rows (PyCsv.rows (csv_records f)) normalized path 2 default_tz
      end
  end.

(** The cells of one [<row>] as the list [values]: the cell of column
    [i] at index [i - 1], the empty string where there is none. *)
Definition row_values_of (cells : list cell) : list string :=
  let indexed :=
    flat_map (fun c =>
                match cell_ref c with
                | Some (String a r) =>
                    [(_column_index (String a r), cell_value c)]
                | _ => []
                end) cells in
  let max_col := fold_left (fun m p => Z.max m (fst p)) indexed 0 in
  map (fun i =>
         match find (fun p => fst p =? Z.of_nat i) (rev indexed) with
         | Some p => snd p
         | None => EmptyString
         end)
      (seq 1 (Z.to_nat max_col)).

(** [{h: i for i, h in enumerate(headers)}], as a list of items. *)
Definition header_positions (headers : list string)
  : PyList.dict nat :=
  combine headers (seq 0 (List.length headers)).

(** The dictionary [row_dict] of one row of a sheet. *)
Definition row_dict_of (headers : list string) (values : list string)
  : PyList.dict (option string) :=
  map (fun hp => (fst hp, Some (nth (snd hp) values EmptyString)))
      (header_positions headers).

Definition _parse_registry_xlsx (path : string) (sheet_name_arg : string)
  (default_tz : string) : result (list RunRegistryEntry) :=
  match fs path with
  | None =>
      raise (RegistryImportError ("Registry file does not exist: " ++ path))
  | Some f =>
      match workbook f with
      | None => raise (BadZipFile "File is not a zip file")
      | Some sheets =>
          let normalized_target := _normalize_sheet_name sheet_name_arg in
          match find (fun sh =>
                        String.eqb (_normalize_sheet_name (sheet_name sh))
                                   normalized_target) sheets with
          | None =>
              raise (RegistryImportError
                       ("Sheet '" ++ sheet_name_arg ++ "' not found in "
                        ++ path))
          | Some sh =>
              match map row_values_of (sheet_rows sh) with
              | [] => ret []
              | headers :: body =>
                  let normalized :=
                    map (fun h => (_normalize_header h, h))
                        (filter (fun h => negb (PyStr.is_empty h)) headers) in
                  _validate_required_headers normalized ;;;
                  map_rows (map (row_dict_of headers) body) normalized
                    path 2 default_tz
              end
          end
      end
  end.

(** The branch on the suffix at the head of [import_run_registry]: the
    list [entries]. *)
Definition parse_registry_file (file_path : string)
  (sheet_name_arg : string) (default_tz : string)
  : result (list RunRegistryEntry) :=
  let suffix := PyStr.lower (PyPath.suffix file_path) in
  if String.eqb suffix ".csv" then _parse_registry_csv file_path default_tz
  else if String.eqb suffix ".xlsx"
  then _parse_registry_xlsx file_path sheet_name_arg default_tz
  else raise (RegistryImportError ("Unsupported registry format: "
                                   ++ PyPath.suffix file_path)).

Local Open Scope cmd_scope.

(** [import_run_registry]: the value (or the exception) and the database
    file after the call. *)
Definition import_run_registry (db : database) (file_path : string)
  (sheet_name_arg : string) (default_tz : string)
  : result Z * database :=
  match parse_registry_file file_path sheet_name_arg default_tz with
  | inl e => (inl e, db)
  | inr [] =>
      (inl (RegistryImportError ("No registry rows found in " ++ file_path)),
       db)
  | inr entries =>
      with_connection db
        (count <~ upsert_entries entries ;;
         commit ;;~
         cret count)
  end.

End WithEnvironment.

End RegistryImport.

(* ================================================================== *)
(** * [services/label_import.py] *)

Module LabelImport.
Import Storage.

Definition _required_str (value : option string) (field path : string)
  : result string :=
  match value with
  | None =>
      raise (LabelImportError ("Missing " ++ field ++ " value in " ++ path))
  | Some v =>
      let stripped := PyStr.strip v in
      if PyStr.is_empty stripped
      then raise (LabelImportError ("Empty " ++ field ++ " value in " ++ path))
      else ret stripped
  end.

Definition _empty_to_none (value : option string) : option string :=
  match value with
  | None => None
  | Some v =>
      let stripped := PyStr.strip v in
      if PyStr.is_empty stripped then None else Some stripped
  end.

Definition _to_float (value : option string) (field path : string)
  (allow_empty : bool) : result (option float) :=
  match value with
  | None =>
      if allow_empty then ret None
      else raise (LabelImportError ("Missing " ++ field ++ " value in " ++ path))
  | Some v =>
      let stripped := PyStr.strip v in
      if PyStr.is_empty stripped then
        if allow_empty then ret None
        else raise (LabelImportError ("Empty " ++ field ++ " value in " ++ path))
      else
        match PyNum.float stripped with
        | Some f => ret (Some f)
        | None =>
            raise (LabelImportError ("Invalid " ++ field ++ " value '" ++ v
                                     ++ "' in " ++ path))
        end
  end.

(** [_to_float] without [allow_empty]: the value is a float. *)
Definition _to_float_required (value : option string) (field path : string)
  : result float :=
  r <- _to_float value field path false ;;
  match r with
  | Some f => ret f
  | None =>
      raise (LabelImportError ("Missing " ++ field ++ " value in " ++ path))
  end.

Definition _to_int (value : option string) : result (option Z) :=
  match value with
  | None => ret None
  | Some v =>
      let stripped := PyStr.strip v in
      if PyStr.is_empty stripped then ret None
      else
        match PyNum.int stripped with
        | Some z => ret (Some z)
        | None =>
            raise (LabelImportError ("Invalid run_id value '" ++ v ++ "'"))
        end
  end.

(** One row of the loop of [_parse_labels_csv]; [fieldnames] is the set of
    the stripped header names. *)
Definition label_of_row (fieldnames : list string) (path : string)
  (run_id_arg : option Z) (row : PyList.dict (option string))
  : result LabelEvent :=
  row_run_id <-
    (if PyList.mem "run_id" fieldnames
     then _to_int (PyCsv.row_get row "run_id")
     else ret None) ;;
  let effective_run_id :=
    match row_run_id with
    | Some r => Some r
    | None => run_id_arg
    end in
  match effective_run_id with
  | None =>
      raise (LabelImportError
               "run_id missing: supply --run-id or include run_id column")
  | Some rid =>
      ev_type <- _required_str (PyCsv.row_get row "event_type")
                   "event_type" path ;;
      ev_time <- _to_float_required (PyCsv.row_get row "event_time_s")
                   "event_time_s" path ;;
      vol <- _to_float (PyCsv.row_get row "volume_ml") "volume_ml" path true ;;
      dist <- _to_float (PyCsv.row_get row "distance_cm") "distance_cm"
                path true ;;
      wtemp <- _to_float (PyCsv.row_get row "water_temp_c") "water_temp_c"
                 path true ;;
      conf <- _to_float (PyCsv.row_get row "confidence") "confidence"
                path true ;;
      ret {| event_type := ev_type;
             event_time_s := ev_time;
             run_id := rid;
             event_ts := _empty_to_none (PyCsv.row_get row "event_ts");
             volume_ml := vol;
             location_label :=
               _empty_to_none (PyCsv.row_get row "location_label");
             distance_cm := dist;
             water_temp_c := wtemp;
             confidence := conf;
             source := _empty_to_none (PyCsv.row_get row "source");
             label_notes := _empty_to_none (PyCsv.row_get row "notes") |}
  end.

Section WithEnvironment.
Variable fs : filesystem.

Definition _parse_labels_csv (path : string) (run_id_arg : option Z)
  : result (list LabelEvent) :=
  match fs path with
  | None => raise (LabelImportError ("Label path does not exist: " ++ path))
  | Some f =>
      match PyCsv.fieldnames (csv_records f) with
      | None => raise (LabelImportError ("Missing header row in " ++ path))
      | Some names =>
          let fieldnames := map PyStr.strip names in
          if negb (PyList.mem "event_type" fieldnames)
             || negb (PyList.mem "event_time_s" fieldnames)
          then raise (LabelImportError
                        "CSV requires event_type and event_time_s columns")
          else mapM (label_of_row fieldnames path run_id_arg)
                    (PyCsv.rows (csv_records f))
      end
  end.

Local Open Scope cmd_scope.

(** [import_labels_csv]: the value (or the exception) and the database
    file after the call. *)
Definition import_labels_csv (db : database) (label_path : string)
  (run_id_arg : option Z) : result Z * database :=
  match _parse_labels_csv label_path run_id_arg with
  | inl e => (inl e, db)
  | inr [] =>
      (inl (LabelImportError ("No labels parsed from " ++ label_path)), db)
  | inr labels =>
      match with_connection db (insert_labels labels ;;~ commit) with
      | (inl e, db') => (inl e, db')
      | (inr _, db') => (inr (Z.of_nat (List.length labels)), db')
      end
  end.

End WithEnvironment.

End LabelImport.

(* ================================================================== *)
(** * Vocabulary of the properties *)

Module FloatOrder.

(** A rank for the floats that are not NaN: comparing ranks
    lexicographically is comparing floats. *)
Definition rank (f : spec_float) : option (Z * Z * Z) :=
  match f with
  | S754_nan => None
  | S754_zero _ => Some (0, 0, 0)
  | S754_infinity true => Some (-2, 0, 0)
  | S754_infinity false => Some (2, 0, 0)
  | S754_finite true m e => Some (-1, - e, Zneg m)
  | S754_finite false m e => Some (1, e, Zpos m)
  end.

Definition lex (a b : Z * Z * Z) : comparison :=
  let '(a1, a2, a3) := a in
  let '(b1, b2, b3) := b in
  match a1 ?= b1 with
  | Eq => match a2 ?= b2 with
          | Eq => a3 ?= b3
          | c => c
          end
  | c => c
  end.

Definition rk (x : float) : option (Z * Z * Z) := rank (Prim2SF x).

(** The float is a NaN, a zero, or above zero. *)
Definition not_negative (f : spec_float) : bool :=
  match f with
  | S754_infinity true => false
  | S754_finite true _ _ => false
  | _ => true
  end.

(** The float is a NaN or has the sign bit clear. *)
Definition unsigned (f : spec_float) : bool :=
  match f with
  | S754_zero s => negb s
  | S754_infinity s => negb s
  | S754_finite s _ _ => negb s
  | S754_nan => true
  end.

(** The float is a zero or above zero: [0 <= x]. *)
Definition at_least_zero (f : spec_float) : bool :=
  match f with
  | S754_zero _ => true
  | S754_infinity false => true
  | S754_finite false _ _ => true
  | _ => false
  end.

(** The float is an infinity. *)
Definition infinite (f : spec_float) : bool :=
  match f with
  | S754_infinity _ => true
  | _ => false
  end.

(** The two floats are the same infinity. *)
Definition same_infinity (a b : spec_float) : bool :=
  match a, b with
  | S754_infinity sa, S754_infinity sb => Bool.eqb sa sb
  | _, _ => false
  end.

End FloatOrder.

Module Vocabulary.


(** [a] is not after [b]: [a.t_elapsed_s <= b.t_elapsed_s]. *)
Definition elapsed_le (a b : ReadingSample) : Prop :=
  (t_elapsed_s a <=? t_elapsed_s b)%float = true.

(** Sorted non-decreasing by [t_elapsed_s]: every reading is not after the
    ones that follow it. *)
Definition sorted_by_elapsed (rs : list ReadingSample) : Prop :=
  StronglySorted elapsed_le rs.

(** The reading has the elapsed time [k]. *)
Definition has_elapsed (k : float) (r : ReadingSample) : bool :=
  (t_elapsed_s r =? k)%float.

(** The readings with equal [t_elapsed_s] come in [output] in the order
    they have in [input]. *)
Definition keeps_order_of_equals (input output : list ReadingSample) : Prop :=
  forall k, filter (has_elapsed k) output = filter (has_elapsed k) input.




(** The pairs of neighbours of a list, in order. *)
Fixpoint consecutive {A} (l : list A) : list (A * A) :=
  match l with
  | a :: (b :: _) as tl => (a, b) :: consecutive tl
  | _ => []
  end.

(** The difference of each reading to the one before it. *)
Definition all_deltas (rs : list ReadingSample) : list float :=
  map (fun p => (snd p - fst p)%float) (consecutive (map t_elapsed_s rs)).

(** The differences of the neighbours of which the second is not before
    the first: the pairs that the filter of [_estimate_sampling_interval]
    keeps. *)
Definition deltas_in_order (rs : list ReadingSample) : list float :=
  map (fun p => (snd p - fst p)%float)
    (filter (fun p => (fst p <=? snd p)%float)
       (consecutive (map t_elapsed_s rs))).

(** The consecutive deltas that are not negative: the differences of
    neighbours that are zero or above. *)
Definition non_negative_deltas (rs : list ReadingSample) : list float :=
  filter (fun d => (0 <=? d)%float) (all_deltas rs).

(** No two neighbours have the same infinity as [t_elapsed_s]: there is
    no pair [inf, inf] and no pair [-inf, -inf]. *)
Definition no_repeated_infinity (rs : list ReadingSample) : Prop :=
  Forall (fun p => (is_infinity (fst p) && (fst p =? snd p)%float) = false)
    (consecutive (map t_elapsed_s rs)).

(** [sys.maxsize]: a list of the run time has at most that many items. *)
Definition maxsize : Z := 2 ^ 63 - 1.

(** The average as the code takes it: [sum(xs) / len(xs)]. *)
Definition mean (xs : list float) : float :=
  (PyList.sum xs / PyNum.float_of_int (Z.of_nat (List.length xs)))%float.

(** [(last.t_elapsed_s - first.t_elapsed_s) / (n - 1)] *)
Definition endpoint_slope (rs : list ReadingSample) : option float :=
  match PyList.first_opt rs, PyList.last_opt rs with
  | Some first, Some last =>
      Some ((t_elapsed_s last - t_elapsed_s first)
            / PyNum.float_of_int (Z.of_nat (List.length rs) - 1))%float
  | _, _ => None
  end.

(** A row of the registry sheet whose run id, read under the header [h],
    is missing or blank. *)
Definition blank_run_id (h : string) (row : PyList.dict (option string))
  : Prop :=
  RegistryImport._clean_str (PyCsv.row_get row h) = None.

(** The registry row [r] with the run [rid] linked to it. *)
Definition linked_to (r : Storage.registry_row) (rid : Z)
  : Storage.registry_row :=
  {| Storage.registry_id := Storage.registry_id r;
     Storage.registry_entry := Storage.registry_entry r;
     Storage.registry_run_id := Some rid |}.

(** The trimmed [log_file_ref] of the row equals [name]. *)
Definition refers_to (r : Storage.registry_row) (name : string) : Prop :=
  exists ref,
    log_file_ref (Storage.registry_entry r) = Some ref
    /\ Storage.sql_trim ref = name.

(** [registry_id] is the primary key of [run_registry]. *)
Definition registry_keyed (db : Storage.database) : Prop :=
  NoDup (map Storage.registry_id (Storage.run_registry db)).

(** The database after a run with the readings [rs] was stored and linked
    to the registry row [e]. *)
Definition with_run (db : Storage.database) (e : Storage.registry_row)
  (metadata : RunMetadata) (rs : list ReadingSample) : Storage.database :=
  let rid := Storage.next_id (map Storage.run_row_id (Storage.runs db)) in
  {| Storage.runs :=
       Storage.runs db ++ [{| Storage.run_row_id := rid;
                              Storage.run_row_metadata :=
                                Storage.stored_metadata metadata |}];
     Storage.readings :=
       Storage.readings db ++ map (Storage.reading_row_of rid) rs;
     Storage.run_registry :=
       map (fun r => if Storage.registry_id r =? Storage.registry_id e
                     then linked_to r rid else r)
           (Storage.run_registry db);
     Storage.labels := Storage.labels db |}.

(** The metadata of the run that [ingest_logs] stores for the file [name],
    the registry row [e] and the readings [rs]. *)
Definition run_metadata (dev dia lay : string) (run_notes : option string)
  (name : string) (e : Storage.registry_row) (rs : list ReadingSample)
  : RunMetadata :=
  {| device_id := dev;
     diaper_type := dia;
     sensor_layout := lay;
     external_run_id :=
       Some (reg_external_run_id (Storage.registry_entry e));
     file_name := Some name;
     notes := run_notes;
     start_ts := match PyList.first_opt rs with
                 | Some r => timestamp r
                 | None => None
                 end;
     end_ts := match PyList.last_opt rs with
               | Some r => timestamp r
               | None => None
               end;
     sampling_interval_s := Ingest._estimate_sampling_interval rs |}.

(** The connection on which nothing is pending. *)
Definition clean (db : Storage.database) : Storage.connection :=
  {| Storage.committed := db; Storage.current := db |}.

End Vocabulary.

(* ================================================================== *)
(** * Sample inputs *)

Module Samples.

Definition empty_db : Storage.database :=
  {| Storage.runs := []; Storage.readings := [];
     Storage.run_registry := []; Storage.labels := [] |}.



(** A run time without [fromisoformat] and [strptime], whose time zone
    database knows the fixed zone ["Etc/GMT-1"], one hour east of UTC. *)
Definition rt_utc_plus_1 : Runtime :=
  {| fromisoformat := fun _ => None;
     strptime := fun _ _ => None;
     ZoneInfo := fun name =>
       if String.eqb name "Etc/GMT-1"
       then Some {| PyDatetime.utcoffset := fun _ => 3600 |}
       else None |}.

(** A run time with the zone ["Etc/GMT-1"] whose [fromisoformat] reads two
    texts as the interpreter 3.11 does: ["2025-01-09+00:00"] as midnight of
    that day without a zone (the character behind the date, whatever it is,
    is taken for the separator, and ["00:00"] for the time of day), and
    ["20250109"] as that day. It rejects every other text, as the
    interpreter rejects ["2025-01-09Z"] (nothing follows the separator) and
    ["45678.5"]; its [strptime] rejects every text, as the interpreter
    rejects these under the three formats of the registry. *)
Definition midnight_9_january_2025 : PyDatetime.datetime :=
  {| PyDatetime.fields :=
       {| PyDatetime.year := 2025; PyDatetime.month := 1;
          PyDatetime.day := 9; PyDatetime.hour := 0;
          PyDatetime.minute := 0; PyDatetime.second := 0;
          PyDatetime.microsecond := 0 |};
     PyDatetime.tz := None |}.

Definition rt_iso : Runtime :=
  {| fromisoformat := fun s =>
       if String.eqb s "2025-01-09+00:00" || String.eqb s "20250109"
       then Some midnight_9_january_2025 else None;
     strptime := fun _ _ => None;
     ZoneInfo := fun name =>
       if String.eqb name "Etc/GMT-1"
       then Some {| PyDatetime.utcoffset := fun _ => 3600 |}
       else None |}.

(** A registry sheet that has its header row only. *)
Definition registry_header_only : file :=
  {| csv_records := [["runID"; "test status"; "timestamp"; "log file"]];
     text_lines := [];
     workbook := None |}.

Definition fs_registry : filesystem :=
  fun p => if String.eqb p "registry.csv" then Some registry_header_only
           else None.

Definition registry_entry_for (xid : string) (log_file : string)
  : RunRegistryEntry :=
  {| reg_external_run_id := xid;
     source_file := "registry.csv";
     source_row_number := 2;
     status := Some "Done";
     planned_or_recorded_ts := None;
     test_device := None;
     sensor_cap := None;
     reg_diaper_type := None;
     test_protocol := None;
     findings_comments := None;
     test_result_ref := None;
     log_file_ref := Some log_file |}.

Definition old_run : RunMetadata :=
  {| device_id := "LUNA-001"; diaper_type := "infant";
     sensor_layout := "front"; external_run_id := Some "T1";
     file_name := Some "run1.csv"; notes := None; start_ts := None;
     end_ts := None; sampling_interval_s := None |}.

(** A database with the run 5, linked to the registry row of ["run1.csv"],
    and a registry row for ["run2.csv"] that no run is linked to. *)
Definition db_one_linked : Storage.database :=
  {| Storage.runs :=
       [{| Storage.run_row_id := 5; Storage.run_row_metadata := old_run |}];
     Storage.readings := [];
     Storage.run_registry :=
       [{| Storage.registry_id := 1;
           Storage.registry_entry := registry_entry_for "T1" " run1.csv ";
           Storage.registry_run_id := Some 5 |};
        {| Storage.registry_id := 2;
           Storage.registry_entry := registry_entry_for "T2" "run2.csv";
           Storage.registry_run_id := None |}];
     Storage.labels := [] |}.

(** The structured log of the scenario: readings at 0 s and at 10 s. *)
Definition log_two_rows : file :=
  {| csv_records := [["t_elapsed_s"; "temp_c"; "rh_pct"];
                     ["0"; "25.0"; "50.0"];
                     ["10"; "25.5"; "51.0"]];
     text_lines := [];
     workbook := None |}.

Definition fs_logs : filesystem :=
  fun p => if String.eqb p "logs/run1.csv" then Some log_two_rows
           else if String.eqb p "logs/run2.csv" then Some log_two_rows
           else if String.eqb p "logs/run3.csv" then Some log_two_rows
           else None.

(** ["Europe/Berlin"] of the time zone database for the wall clock times of
    the year 2026: summer time, two hours east of UTC, from 29 March 03:00
    until 25 October 03:00, and one hour east of UTC otherwise. *)
Definition berlin_2026 : PyDatetime.tzinfo :=
  {| PyDatetime.utcoffset := fun n =>
       let w := PyDatetime.wall_us n in
       let at_3 (mo dd : Z) :=
         PyDatetime.ymd2ord 2026 mo dd * PyDatetime.us_per_day
         + 3 * 3600 * PyDatetime.us_per_second in
       if (at_3 3 29 <=? w) && (w <? at_3 10 25) then 7200 else 3600 |}.

Definition rt_berlin : Runtime :=
  {| fromisoformat := fun _ => None;
     strptime := fun _ _ => None;
     ZoneInfo := fun name =>
       if String.eqb name "Europe/Berlin" then Some berlin_2026 else None |}.

(** A device log without a time zone hint, with one sample a second before
    and one sample at the start of summer time. *)
Definition log_over_dst : file :=
  {| csv_records := [];
     text_lines :=
       ["boot ok";
        "temp_humid_sample: 2026-3-29 1:59:59, temp: 21.5, humid: 40.0%";
        "temp_humid_sample: 2026-3-29 3:00:00, temp: 21.5, humid: 40.0%"];
     workbook := None |}.

Definition fs_dst : filesystem :=
  fun p => if String.eqb p "dst.log" then Some log_over_dst else None.



(** A structured log with the elapsed times 0, 0.2 and 0.9. *)
Definition log_tenths : file :=
  {| csv_records := [["t_elapsed_s"; "temp_c"; "rh_pct"];
                     ["0"; "25.0"; "50.0"];
                     ["0.2"; "25.0"; "50.0"];
                     ["0.9"; "25.0"; "50.0"]];
     text_lines := [];
     workbook := None |}.

Definition fs_tenths : filesystem :=
  fun p => if String.eqb p "tenths.csv" then Some log_tenths else None.

(** A structured log whose two rows have the elapsed time ["inf"]. *)
Definition log_inf : file :=
  {| csv_records := [["t_elapsed_s"; "temp_c"; "rh_pct"];
                     ["inf"; "25.0"; "50.0"];
                     ["inf"; "25.5"; "51.0"]];
     text_lines := [];
     workbook := None |}.

Definition fs_inf : filesystem :=
  fun p => if String.eqb p "inf.csv" then Some log_inf else None.

Definition reading (t temp rh : float) : ReadingSample :=
  {| t_elapsed_s := t; temp_c := Some temp; rh_pct := Some rh;
     timestamp := None; sensor_id := None |}.

End Samples.

(* ================================================================== *)
(** * The cells of a workbook: [_load_shared_strings], [_xlsx_cell_value] *)

Module Xlsx.

(** An element of [xml.etree.ElementTree]: its tag with the name space
    written out, its attributes, its text and its children. *)
#[local] Unset Elimination Schemes.
Inductive element : Type :=
| Element (tag : string) (attrib : PyList.dict string)
    (text : option string) (children : list element).
#[local] Set Elimination Schemes.

Definition tag (e : element) : string :=
  match e with Element t _ _ _ => t end.

Definition attrib (e : element) : PyList.dict string :=
  match e with Element _ a _ _ => a end.

Definition text (e : element) : option string :=
  match e with Element _ _ t _ => t end.

Definition children (e : element) : list element :=
  match e with Element _ _ _ cs => cs end.

(** The name space ["main"] of the dictionary [ns]. *)
Definition main_ns : string :=
  "http://schemas.openxmlformats.org/spreadsheetml/2006/main".

(** The tag that ["main:" ++ name] stands for. *)
Definition main (name : string) : string := "{" ++ main_ns ++ "}" ++ name.

(** [e.findall("main:" ++ name, ns)]: the children with that tag. *)
Definition findall (e : element) (name : string) : list element :=
  filter (fun c => String.eqb (tag c) (main name)) (children e).

(** [e.findall("main:a/main:b", ns)] *)
Definition findall2 (e : element) (a b : string) : list element :=
  flat_map (fun c => findall c b) (findall e a).

(** [e.iter()]: the element and all that is below it, in document
    order. *)
Fixpoint iter (e : element) : list element :=
  match e with
  | Element _ _ _ cs => e :: flat_map iter cs
  end.

(** [e.findall(".//main:" ++ name, ns)]: the elements below [e] with that
    tag, in document order. *)
Definition findall_below (e : element) (name : string) : list element :=
  filter (fun c => String.eqb (tag c) (main name))
    (flat_map iter (children e)).

(** [node.text or ""] *)
Definition text_or_empty (e : element) : string :=
  match text e with
  | Some t => t
  | None => EmptyString
  end.

(** [l[i]] for a list and an integer: a negative index counts from the
    end; [None] is [IndexError]. *)
Definition item {A} (l : list A) (i : Z) : option A :=
  let n := Z.of_nat (List.length l) in
  if (0 <=? i) && (i <? n) then nth_error l (Z.to_nat i)
  else if (- n <=? i) && (i <? 0) then nth_error l (Z.to_nat (n + i))
  else None.

(** [_load_shared_strings]; [shared] is the root of
    ["xl/sharedStrings.xml"], [None] when the package has no such
    member. *)
Definition _load_shared_strings (shared : option element) : list string :=
  match shared with
  | None => []
  | Some root =>
      map (fun si => String.concat "" (map text_or_empty (findall_below si "t")))
          (findall root "si")
  end.

Definition _xlsx_cell_value (cell : element) (shared_strings : list string)
  : string :=
  let cell_type := PyList.get (attrib cell) "t" in
  match findall cell "v" with
  | [] =>
      match findall2 cell "is" "t" with
      | inline :: _ => text_or_empty inline
      | [] => EmptyString
      end
  | value_node :: _ =>
      let raw := text_or_empty value_node in
      match cell_type with
      | Some "s" =>
          match PyNum.int raw with
          | Some i =>
              match item shared_strings i with
              | Some s => s
              | None => raw
              end
          | None => raw
          end
      | _ => raw
      end
  end.

(** The cells of one [<row>] as the loop of [_parse_registry_xlsx] reads
    them: the attribute [r] and the value of every [<c>]. *)
Definition cells_of_row (row : element) (shared_strings : list string)
  : list cell :=
  map (fun c => {| cell_ref := PyList.get (attrib c) "r";
                   cell_value := _xlsx_cell_value c shared_strings |})
      (findall row "c").

(** The rows of a worksheet: [ws.findall("main:sheetData/main:row", ns)]. *)
Definition rows_of_sheet (ws : element) (shared_strings : list string)
  : list (list cell) :=
  map (fun row => cells_of_row row shared_strings)
      (findall2 ws "sheetData" "row").

End Xlsx.

(* ================================================================== *)
(** * [storage/db.py]: [init_db] and [apply_migrations] *)

Module Migrations.

(** The exceptions that go through [apply_migrations]:
    [sqlite3.DatabaseError] with its subclasses, which the function turns
    into [MigrationError], and every other exception. *)
Inductive error : Type :=
| MigrationError (msg : string)
| DatabaseError (msg : string)
| OtherError (msg : string).

(** One entry of the migrations directory: its name, whether it is a
    file, and its text when read as UTF-8. *)
Record dir_entry : Type := {
  entry_name : string;
  entry_is_file : bool;
  entry_text : string
}.

(** [Path(name).stem]: the name without its suffix. *)
Definition stem (name : string) : string :=
  String.substring 0
    (Nat.sub (String.length name) (String.length (PyPath.suffix name))) name.

(** [sorted(paths)] for the paths of one directory on a POSIX system: by
    their names, in the order of [str]. *)
Definition sorted_by_name (entries : list dir_entry) : list dir_entry :=
  fold_right
    (PyList.insert_by
       (fun a b => String.ltb (entry_name a) (entry_name b))) [] entries.

(** [p.is_file() and p.suffix == ".sql"] *)
Definition is_migration (m : dir_entry) : bool :=
  entry_is_file m && String.eqb (PyPath.suffix (entry_name m)) ".sql".

Section WithEngine.

(** What the database holds apart from the table [schema_migrations]. *)
Context {tables : Type}.

(** The content of a database: the rows [(version, applied_at)] of
    [schema_migrations] in the order they were inserted, [None] when the
    table does not exist, and the rest. *)
Record content : Type := {
  schema_migrations : option (list (string * string));
  tables_of : tables
}.

(** A connection: the content that is committed, the content that the
    statements so far have made, and whether a transaction is open. *)
Record connection : Type := {
  committed : content;
  current : content;
  in_transaction : bool
}.

(** The engine's run of a script on a connection without an open
    transaction, and the clock of [_utc_now]. *)
Variable engine : string -> connection -> (error + unit) * connection.
Variable _utc_now : connection -> string.

(** [get_connection] on a database file. *)
Definition get_connection (db : content) : connection :=
  {| committed := db; current := db; in_transaction := false |}.

(** [conn.commit()] *)
Definition commit (c : connection) : connection :=
  if in_transaction c
  then {| committed := current c; current := current c;
          in_transaction := false |}
  else c.

(** [conn.rollback()] *)
Definition rollback (c : connection) : connection :=
  if in_transaction c
  then {| committed := committed c; current := committed c;
          in_transaction := false |}
  else c.

(** [CREATE TABLE IF NOT EXISTS schema_migrations ...]: a statement that
    opens no transaction; outside of one it is committed at once. *)
Definition create_table (c : connection) : connection :=
  let made (ct : content) : content :=
    match schema_migrations ct with
    | Some _ => ct
    | None => {| schema_migrations := Some []; tables_of := tables_of ct |}
    end in
  if in_transaction c
  then {| committed := committed c; current := made (current c);
          in_transaction := true |}
  else {| committed := made (current c); current := made (current c);
          in_transaction := false |}.

(** [{row[0] for row in conn.execute("SELECT version ...").fetchall()}] *)
Definition applied_versions (c : connection) : list string :=
  match schema_migrations (current c) with
  | Some rows => map fst rows
  | None => []
  end.

(** [conn.executescript(sql)]: a pending transaction is committed first. *)
Definition executescript (sql : string) (c : connection)
  : (error + unit) * connection :=
  engine sql (commit c).

(** [INSERT INTO schema_migrations (version, applied_at) VALUES (?, ?)]:
    the statement opens a transaction; [version] is the primary key. *)
Definition insert_version (version now : string) (c : connection)
  : (error + unit) * connection :=
  let opened (ct : content) : connection :=
    {| committed := committed c; current := ct; in_transaction := true |} in
  match schema_migrations (current c) with
  | None =>
      (inl (DatabaseError "no such table: schema_migrations"),
       opened (current c))
  | Some rows =>
      if PyList.mem version (map fst rows)
      then (inl (DatabaseError
                   "UNIQUE constraint failed: schema_migrations.version"),
            opened (current c))
      else (inr tt,
            opened {| schema_migrations :=
                        Some (rows ++ [(version, now)])%list;
                      tables_of := tables_of (current c) |})
  end.

(** The loop of [apply_migrations] over the sorted files; [applied] is the
    set of that name, read before the loop. *)
Fixpoint apply_loop (files : list dir_entry) (applied : list string)
  (c : connection) : (error + unit) * connection :=
  match files with
  | [] => (inr tt, c)
  | migration :: rest =>
      let version := stem (entry_name migration) in
      if PyList.mem version applied then apply_loop rest applied c
      else
        let failed (exc : string) (c' : connection) :=
          (inl (MigrationError ("Failed migration " ++ entry_name migration
                                ++ ": " ++ exc)),
           rollback c') in
        match executescript (entry_text migration) c with
        | (inl (DatabaseError exc), c1) => failed exc c1
        | (inl e, c1) => (inl e, c1)
        | (inr _, c1) =>
            match insert_version version (_utc_now c1) c1 with
            | (inl (DatabaseError exc), c2) => failed exc c2
            | (inl e, c2) => (inl e, c2)
            | (inr _, c2) => apply_loop rest applied (commit c2)
            end
        end
  end.

(** [apply_migrations]; [listing] is what [iterdir()] yields, [None] when
    the path does not exist.  A path that exists is taken to be a
    directory, and its files to be readable as UTF-8. *)
Definition apply_migrations (c : connection) (migrations_dir : string)
  (listing : option (list dir_entry)) : (error + unit) * connection :=
  match listing with
  | None =>
      (inl (MigrationError ("Missing migrations dir: " ++ migrations_dir)), c)
  | Some entries =>
      let c0 := create_table c in
      let applied := applied_versions c0 in
      let migration_files := sorted_by_name (filter is_migration entries) in
      apply_loop migration_files applied c0
  end.

(** [init_db]: the value (or the exception) and the database file after
    the call; leaving the [with] block commits, or rolls back when the
    block raised.  The directory of the database file, which the function
    makes when it is missing, is not part of the state. *)
Definition init_db (db : content) (migrations_dir : string)
  (listing : option (list dir_entry)) : (error + unit) * content :=
  match apply_migrations (get_connection db) migrations_dir listing with
  | (inr v, c) => (inr v, committed (commit c))
  | (inl e, c) => (inl e, committed (rollback c))
  end.

(** The scripts leave the table [schema_migrations] as it is. *)
Definition scripts_keep_versions : Prop :=
  forall sql c,
    schema_migrations (current (snd (engine sql c)))
    = schema_migrations (current c).

(** The versions that the database has on record. *)
Definition versions_of (db : content) : list string :=
  match schema_migrations db with
  | Some rows => map fst rows
  | None => []
  end.

End WithEngine.

End Migrations.

(* ================================================================== *)
(** * Further vocabulary of the properties *)

Module Terms.

Definition is_ValueError (e : exn) : bool :=
  match e with ValueError _ => true | _ => false end.

Definition is_OverflowError (e : exn) : bool :=
  match e with OverflowError _ => true | _ => false end.

Definition is_IntegrityError (e : exn) : bool :=
  match e with IntegrityError _ => true | _ => false end.

Definition is_BadZipFile (e : exn) : bool :=
  match e with BadZipFile _ => true | _ => false end.

(** The data rows of a file as its [DictReader] yields them. *)
Definition data_rows (f : file) : list (PyList.dict (option string)) :=
  PyCsv.rows (csv_records f).

(** The data row of the number [n], where the first data row has the
    number 2. *)
Definition row_numbered (f : file) (n : Z)
  : option (PyList.dict (option string)) :=
  if n <? 2 then None else nth_error (data_rows f) (Z.to_nat (n - 2)).

(** The dictionary [normalized] that [_parse_registry_csv] makes of the
    header row. *)
Definition normalized_headers (f : file) : PyList.dict string :=
  match PyCsv.fieldnames (csv_records f) with
  | Some names => map (fun h => (RegistryImport._normalize_header h, h)) names
  | None => []
  end.

(** No header of the file is exactly [name] (a header that is [name] with
    white space around it is not). *)
Definition no_exact_header (f : file) (name : string) : Prop :=
  exists names,
    PyCsv.fieldnames (csv_records f) = Some names
    /\ PyList.mem name names = false.

(** The line holds a sample: [_TEMP_HUMID_PATTERN.search(line)] finds a
    match. *)
Definition holds_sample (line : string) : bool :=
  match PyRe.search Ingest._TEMP_HUMID_PATTERN line with
  | Some _ => true
  | None => false
  end.

(** The date and time of the sample that the line holds, in the zone
    [tzi]: the datetime that [_parse_device_log] makes of the groups of the
    match; [None] when the line holds no sample or the datetime raises. *)
Definition sample_time (tzi : PyDatetime.tzinfo) (line : string)
  : option PyDatetime.datetime :=
  match PyRe.search Ingest._TEMP_HUMID_PATTERN line with
  | Some [year; month; day; hour; minute; second; _; _] =>
      match PyNum.int year, PyNum.int month, PyNum.int day,
            PyNum.int hour, PyNum.int minute, PyNum.int second with
      | Some y, Some mo, Some d, Some h, Some mi, Some s =>
          match PyDatetime.make y mo d h mi s (Some tzi) with
          | inr dt => Some dt
          | inl _ => None
          end
      | _, _, _, _, _, _ => None
      end
  | _ => None
  end.

(** The line holds no hint of the zone: neither pattern finds a match. *)
Definition no_zone_hint (line : string) : Prop :=
  PyRe.search Ingest._TZ_PAREN_PATTERN line = None
  /\ PyRe.search Ingest._TZ_CCLK_PATTERN line = None.

(** The hint of the zone that the line holds: the group of [tz(...)], or
    the one of [+CCLK: ...] when the line has no [tz(...)]. *)
Definition zone_hint (line g : string) : Prop :=
  (exists gs, PyRe.search Ingest._TZ_PAREN_PATTERN line = Some (g :: gs))
  \/ (PyRe.search Ingest._TZ_PAREN_PATTERN line = None
      /\ exists gs, PyRe.search Ingest._TZ_CCLK_PATTERN line = Some (g :: gs)).

(** The zone is the fixed offset of [seconds] seconds east of UTC. *)
Definition fixed_offset (tzi : PyDatetime.tzinfo) (seconds : Z) : Prop :=
  forall n, PyDatetime.utcoffset tzi n = seconds.

(** The key of a registry row and the run it is linked to. *)
Definition id_and_link (r : Storage.registry_row) : Z * option Z :=
  (Storage.registry_id r, Storage.registry_run_id r).

(** The row is the one of the external run id [k]. *)
Definition has_ext_id (k : string) (r : Storage.registry_row) : bool :=
  String.eqb (reg_external_run_id (Storage.registry_entry r)) k.

(** The last entry of the list that has the external run id [k]. *)
Definition last_with_id (k : string) (entries : list RunRegistryEntry)
  : option RunRegistryEntry :=
  find (fun e => String.eqb (reg_external_run_id e) k) (rev entries).

(** The row [r] with the columns of the entry [e]: what the [DO UPDATE]
    of the upsert makes of a row, which keeps its key and its link. *)
Definition set_entry (e : RunRegistryEntry) (r : Storage.registry_row)
  : Storage.registry_row :=
  {| Storage.registry_id := Storage.registry_id r;
     Storage.registry_entry := e;
     Storage.registry_run_id := Storage.registry_run_id r |}.

(** One upsert on the rows [rows] of a table whose rows in front of them
    have the keys [ids0]. *)
Definition upsert_from (ids0 : list Z) (rows : list Storage.registry_row)
  (e : RunRegistryEntry) : list Storage.registry_row :=
  Storage.upsert_row e rows
    (Storage.next_id (ids0 ++ map Storage.registry_id rows)).

(** The database [db'] is [db] with the runs [ids] behind its runs, in
    that order, of which the one at the place [i] is the run of the file
    name at the place [i] of [names]: the
    runs and readings of [db] stand unchanged in front of the new ones,
    every new reading belongs to one of the new runs, the labels and the
    keys and columns of the registry rows are the same, and the new ids go
    up strictly from above every id that was in use. *)
Definition grown_by (db db' : Storage.database) (ids : list Z)
  (names : list string) : Prop :=
  (exists new_runs,
      Storage.runs db' = (Storage.runs db ++ new_runs)%list
      /\ map Storage.run_row_id new_runs = ids
      /\ map (fun r => file_name (Storage.run_row_metadata r)) new_runs
         = map Some names)
  /\ (exists new_readings,
        Storage.readings db' = (Storage.readings db ++ new_readings)%list
        /\ Forall (fun r => In (Storage.reading_run_id r) ids) new_readings)
  /\ Storage.labels db' = Storage.labels db
  /\ map Storage.registry_id (Storage.run_registry db')
     = map Storage.registry_id (Storage.run_registry db)
  /\ map Storage.registry_entry (Storage.run_registry db')
     = map Storage.registry_entry (Storage.run_registry db)
  /\ Forall (fun rid =>
               Forall (fun r => Storage.run_row_id r < rid) (Storage.runs db))
       ids
  /\ StronglySorted Z.lt ids.

(** The rows [rows'] are the rows [rows] with the same columns, and those
    that were linked to a run are linked still. *)
Definition links_kept (rows rows' : list Storage.registry_row) : Prop :=
  Forall2 (fun r r' =>
             Storage.registry_entry r' = Storage.registry_entry r
             /\ (Storage.registry_run_id r <> None ->
                 Storage.registry_run_id r' <> None))
          rows rows'.

(** The row that the lookup finds for the file name is linked to a run. *)
Definition blocked (db : Storage.database) (name : string) : Prop :=
  exists r,
    find (Storage.matches_log_file name) (Storage.run_registry db) = Some r
    /\ Storage.registry_run_id r <> None.

(** The letters of a cell reference, in upper case. *)
Fixpoint upper_letters (s : string) : string :=
  match s with
  | EmptyString => EmptyString
  | String c s' =>
      if RegistryImport.isalpha c
      then String (RegistryImport.to_upper c) (upper_letters s')
      else upper_letters s'
  end.

(** ["A"] is 1, ..., ["Z"] is 26. *)
Definition letter_value (c : ascii) : Z := Z.of_N (PyStr.code c) - 65 + 1.

(** The number that a list of letters writes in the base 26 without a
    zero. *)
Definition base26 (letters : list ascii) : Z :=
  fold_left (fun idx c => idx * 26 + letter_value c) letters 0.

(** The text is not empty and has no white space at either end. *)
Definition clean_text (t : string) : Prop :=
  t <> EmptyString /\ PyStr.strip t = t.

(** The columns of an entry that hold free text. *)
Definition text_columns (e : RunRegistryEntry) : list (option string) :=
  [status e; test_device e; sensor_cap e; reg_diaper_type e;
   test_protocol e; findings_comments e; test_result_ref e; log_file_ref e].

(** The text does not start with a character of the class [p]. *)
Definition starts_clean (p : ascii -> bool) (s : string) : Prop :=
  match s with
  | EmptyString => True
  | String c _ => p c = false
  end.

(** The character [c] does not occur in the text. *)
Fixpoint free_of (c : ascii) (s : string) : bool :=
  match s with
  | EmptyString => true
  | String a s' => negb (Ascii.eqb a c) && free_of c s'
  end.

(** The whole seconds from the wall clock time of [b] to the one of [a],
    as a float. *)
Definition wall_seconds_between (a b : PyDatetime.datetime) : float :=
  PyNum.float_of_int
    (PyDatetime.sub_same_tzinfo a b / PyDatetime.us_per_second).

(** The entry [e] as read from the file of the base name [name]. *)
Definition from_file (name : string) (e : RunRegistryEntry)
  : RunRegistryEntry :=
  {| reg_external_run_id := reg_external_run_id e;
     source_file := name;
     source_row_number := source_row_number e;
     status := status e;
     planned_or_recorded_ts := planned_or_recorded_ts e;
     test_device := test_device e;
     sensor_cap := sensor_cap e;
     reg_diaper_type := reg_diaper_type e;
     test_protocol := test_protocol e;
     findings_comments := findings_comments e;
     test_result_ref := test_result_ref e;
     log_file_ref := log_file_ref e |}.

(** The sheet that [_parse_registry_xlsx] reads: the first one of the
    workbook whose normalised name is the normalised [name]. *)
Definition picked_sheet (sheets : list sheet) (name : string)
  : option sheet :=
  find (fun sh =>
          String.eqb (RegistryImport._normalize_sheet_name (sheet_name sh))
                     (RegistryImport._normalize_sheet_name name)) sheets.

(** The list [row_values] of a sheet. *)
Definition row_values (sh : sheet) : list (list string) :=
  map RegistryImport.row_values_of (sheet_rows sh).

End Terms.

(* ================================================================== *)
(** * Further sample inputs *)

Module Examples.

(** A label file whose [run_id] header has a blank in front of it. *)
Definition labels_padded_run_id : file :=
  {| csv_records := [["event_type"; "event_time_s"; " run_id"];
                     ["ADDITION"; "1.0"; "3"]];
     text_lines := [];
     workbook := None |}.

Definition fs_labels_padded : filesystem :=
  fun p => if String.eqb p "labels.csv" then Some labels_padded_run_id
           else None.

(** A label file with two labels for the run 5. *)
Definition labels_two : file :=
  {| csv_records := [["event_type"; "event_time_s"; "run_id"];
                     ["ADDITION"; "1.0"; "5"];
                     [];
                     ["REMOVAL"; "2.5"; " 5 "]];
     text_lines := [];
     workbook := None |}.

Definition fs_labels_two : filesystem :=
  fun p => if String.eqb p "labels.csv" then Some labels_two else None.

(** A label file with a label for the run 5 and, behind it, one for the
    run 9; and the labels it is parsed to. *)
Definition labels_second_unknown : file :=
  {| csv_records := [["event_type"; "event_time_s"; "run_id"];
                     ["ADDITION"; "1.0"; "5"];
                     ["REMOVAL"; "2.5"; "9"]];
     text_lines := [];
     workbook := None |}.

Definition fs_labels_second_unknown : filesystem :=
  fun p => if String.eqb p "labels.csv" then Some labels_second_unknown
           else None.

Definition label_at (ev : string) (t : float) (rid : Z) : LabelEvent :=
  {| event_type := ev; event_time_s := t; run_id := rid;
     event_ts := None; volume_ml := None; location_label := None;
     distance_cm := None; water_temp_c := None; confidence := None;
     source := None; label_notes := None |}.

Definition two_labels_second_unknown : list LabelEvent :=
  [label_at "ADDITION" 1 5; label_at "REMOVAL" 2.5 9].

(** A label file with a label for the run 2 ^ 63. *)
Definition labels_run_2_63 : file :=
  {| csv_records := [["event_type"; "event_time_s"; "run_id"];
                     ["ADDITION"; "1.0"; "9223372036854775808"]];
     text_lines := [];
     workbook := None |}.

Definition fs_labels_run_2_63 : filesystem :=
  fun p => if String.eqb p "labels.csv" then Some labels_run_2_63 else None.

(** A structured log whose header has a blank in front of every name but
    the first. *)
Definition log_padded_header : file :=
  {| csv_records := [["t_elapsed_s"; " temp_c"; " rh_pct"];
                     ["0"; "25.0"; "50.0"];
                     ["10"; "25.5"; "51.0"]];
     text_lines := [];
     workbook := None |}.

Definition fs_padded : filesystem :=
  fun p => if String.eqb p "padded.csv" then Some log_padded_header else None.

(** A device log with a sample in the 13th month. *)
Definition log_month_13 : file :=
  {| csv_records := [];
     text_lines :=
       ["tz(4)";
        "temp_humid_sample: 2026-13-01 10:00:00, temp: 21.5, humid: 40.0%"];
     workbook := None |}.

(** A device log without a sample. *)
Definition log_no_sample : file :=
  {| csv_records := [];
     text_lines := ["boot ok"; "tz(4)"; "shutdown"];
     workbook := None |}.

Definition fs_device : filesystem :=
  fun p => if String.eqb p "month13.log" then Some log_month_13
           else if String.eqb p "logs/run2.log" then Some log_no_sample
           else None.

(** A registry sheet with two rows for the run ["T1"], a row without a run
    id between them, and a blank line. *)
Definition registry_three_rows : file :=
  {| csv_records := [["RunID"; "Test  Status"; "Timestamp"; "Log File"];
                     ["T1"; "planned"; ""; " run1.csv "];
                     [];
                     [""; "note"; ""; ""];
                     ["T3"; "done"; "1e999"; "run3.csv"];
                     ["T1"; "done"; ""; "run1.csv"]];
     text_lines := [];
     workbook := None |}.

(** The same sheet without the serial date that leaves the calendar. *)
Definition registry_good_rows : file :=
  {| csv_records := [["RunID"; "Test  Status"; "Timestamp"; "Log File"];
                     ["T1"; "planned"; ""; " run1.csv "];
                     [];
                     [""; "note"; ""; ""];
                     ["T3"; "done"; ""; "run3.csv"];
                     ["T1"; "done"; ""; "run1.csv"]];
     text_lines := [];
     workbook := None |}.

Definition fs_registries : filesystem :=
  fun p => if String.eqb p "in/overflow.csv" then Some registry_three_rows
           else if String.eqb p "in/registry.csv" then Some registry_good_rows
           else None.

Definition entry_of (xid : string) (n : Z) (st log_file : string)
  : RunRegistryEntry :=
  {| reg_external_run_id := xid;
     source_file := "registry.csv";
     source_row_number := n;
     status := Some st;
     planned_or_recorded_ts := None;
     test_device := None;
     sensor_cap := None;
     reg_diaper_type := None;
     test_protocol := None;
     findings_comments := None;
     test_result_ref := None;
     log_file_ref := Some log_file |}.

(** The entries of [registry_good_rows]. *)
Definition registry_good_entries : list RunRegistryEntry :=
  [entry_of "T1" 2 "planned" "run1.csv";
   entry_of "T3" 4 "done" "run3.csv";
   entry_of "T1" 5 "done" "run1.csv"].

(** [Samples.db_one_linked] after the import of [registry_good_rows]. *)
Definition db_after_import : Storage.database :=
  {| Storage.runs := Storage.runs Samples.db_one_linked;
     Storage.readings := [];
     Storage.run_registry :=
       [{| Storage.registry_id := 1;
           Storage.registry_entry := entry_of "T1" 5 "done" "run1.csv";
           Storage.registry_run_id := Some 5 |};
        {| Storage.registry_id := 2;
           Storage.registry_entry := Samples.registry_entry_for "T2" "run2.csv";
           Storage.registry_run_id := None |};
        {| Storage.registry_id := 3;
           Storage.registry_entry := entry_of "T3" 4 "done" "run3.csv";
           Storage.registry_run_id := None |}];
     Storage.labels := [] |}.

(** A registry with a row for the device log ["run2.log"] and a row for
    the structured log ["run2.csv"], both without a run. *)
Definition db_two_unlinked : Storage.database :=
  {| Storage.runs :=
       [{| Storage.run_row_id := 5;
           Storage.run_row_metadata := Samples.old_run |}];
     Storage.readings := [];
     Storage.run_registry :=
       [{| Storage.registry_id := 1;
           Storage.registry_entry := Samples.registry_entry_for "T1" "run2.log";
           Storage.registry_run_id := None |};
        {| Storage.registry_id := 2;
           Storage.registry_entry := Samples.registry_entry_for "T2" "run2.csv";
           Storage.registry_run_id := None |}];
     Storage.labels := [] |}.

(** A device log with a hint of the zone and two samples, and a file
    system with it and the structured log of [Samples.log_two_rows]. *)
Definition log_two_samples : file :=
  {| csv_records := [];
     text_lines :=
       ["tz(4)";
        "temp_humid_sample: 2026-1-5 10:00:00, temp: 21.5, humid: 40.0%";
        "temp_humid_sample: 2026-1-5 10:00:10, temp: 21.6, humid: 40.5%"];
     workbook := None |}.

Definition fs_two_logs : filesystem :=
  fun p => if String.eqb p "device/run2.log" then Some log_two_samples
           else if String.eqb p "logs/run2.csv" then Some Samples.log_two_rows
           else None.

(** The structured log of [Samples.log_two_rows] under two directories. *)
Definition fs_two_dirs : filesystem :=
  fun p => if String.eqb p "a/run2.csv" then Some Samples.log_two_rows
           else if String.eqb p "b/run2.csv" then Some Samples.log_two_rows
           else None.

(** A cell of the type ["s"] with the index -1, and a table of two shared
    strings. *)
Definition cell_minus_one : Xlsx.element :=
  Xlsx.Element (Xlsx.main "c") [("r", "A1"); ("t", "s")] None
    [Xlsx.Element (Xlsx.main "v") [] (Some "-1") []].

Definition two_shared_strings : list string := ["alpha"; "beta"].

(** A label file whose [event_type] header has a blank behind it. *)
Definition labels_padded_event_type : file :=
  {| csv_records := [["event_type "; "event_time_s"; "run_id"];
                     ["ADDITION"; "1.0"; "5"]];
     text_lines := [];
     workbook := None |}.

Definition fs_labels_padded_type : filesystem :=
  fun p => if String.eqb p "labels.csv" then Some labels_padded_event_type
           else None.

(** The readings of [Samples.log_over_dst]. *)
Definition dst_readings : list ReadingSample :=
  [ {| t_elapsed_s := 0; temp_c := Some 21.5%float;
       rh_pct := Some 40%float;
       timestamp := Some "2026-03-29T01:59:59+01:00";
       sensor_id := None |};
    {| t_elapsed_s := 3601; temp_c := Some 21.5%float;
       rh_pct := Some 40%float;
       timestamp := Some "2026-03-29T03:00:00+02:00";
       sensor_id := None |} ].

(** A small workbook: the table of shared strings, with one string in
    two runs of rich text, and a sheet with a header row and one data row
    whose cells are out of order. *)
Definition node (name : string) (attrs : PyList.dict string)
  (txt : option string) (cs : list Xlsx.element) : Xlsx.element :=
  Xlsx.Element (Xlsx.main name) attrs txt cs.

Definition shared_strings_xml : Xlsx.element :=
  node "sst" [] None
    [node "si" [] None [node "t" [] (Some "RunID") []];
     node "si" [] None
       [node "r" [] None [node "t" [] (Some "Test ") []];
        node "r" [] None [node "t" [] (Some "Status") []]];
     node "si" [] None [node "t" [] (Some "Log File") []];
     node "si" [] None [node "t" [] (Some "T9") []];
     node "si" [] None [node "t" [] (Some "done") []]].

Definition shared_cell (ref index : string) : Xlsx.element :=
  node "c" [("r", ref); ("t", "s")] None [node "v" [] (Some index) []].

Definition inline_cell (ref txt : string) : Xlsx.element :=
  node "c" [("r", ref); ("t", "inlineStr")] None
    [node "is" [] None [node "t" [] (Some txt) []]].

Definition worksheet_xml : Xlsx.element :=
  node "worksheet" [] None
    [node "sheetData" [] None
       [node "row" [("r", "1")] None
          [shared_cell "A1" "0"; shared_cell "B1" "1"; shared_cell "C1" "2"];
        node "row" [("r", "2")] None
          [shared_cell "A2" "3"; inline_cell "C2" " run9.csv";
           shared_cell "B2" "4"]]].

Definition workbook_file : file :=
  {| csv_records := [];
     text_lines := [];
     workbook :=
       Some [{| sheet_name := "Test_Runs";
                sheet_rows :=
                  Xlsx.rows_of_sheet worksheet_xml
                    (Xlsx._load_shared_strings (Some shared_strings_xml)) |}]
  |}.

Definition fs_workbook : filesystem :=
  fun p => if String.eqb p "in/reg.xlsx" then Some workbook_file else None.

(** An engine that keeps the list of the scripts it has run, and a clock
    that has stopped. *)
Definition engine_log (sql : string)
  (c : @Migrations.connection (list string))
  : (Migrations.error + unit) * @Migrations.connection (list string) :=
  let ran :=
    {| Migrations.schema_migrations :=
         Migrations.schema_migrations (Migrations.current c);
       Migrations.tables_of :=
         (Migrations.tables_of (Migrations.current c) ++ [sql])%list |} in
  (inr tt,
   {| Migrations.committed := ran; Migrations.current := ran;
      Migrations.in_transaction := false |}).

Definition clock_stopped (c : @Migrations.connection (list string)) : string :=
  "2026-01-01T00:00:00+00:00".

Definition migrations_listing : list Migrations.dir_entry :=
  [{| Migrations.entry_name := "002_labels.sql";
      Migrations.entry_is_file := true;
      Migrations.entry_text := "CREATE TABLE labels (...);" |};
   {| Migrations.entry_name := "README.md";
      Migrations.entry_is_file := true;
      Migrations.entry_text := "notes" |};
   {| Migrations.entry_name := "001_init.sql";
      Migrations.entry_is_file := true;
      Migrations.entry_text := "CREATE TABLE runs (...);" |};
   {| Migrations.entry_name := "old.sql";
      Migrations.entry_is_file := false;
      Migrations.entry_text := "" |}].

Definition new_file : @Migrations.content (list string) :=
  {| Migrations.schema_migrations := None; Migrations.tables_of := [] |}.

Definition migrated_file : @Migrations.content (list string) :=
  {| Migrations.schema_migrations :=
       Some [("001_init", "2026-01-01T00:00:00+00:00");
             ("002_labels", "2026-01-01T00:00:00+00:00")];
     Migrations.tables_of :=
       ["CREATE TABLE runs (...);"; "CREATE TABLE labels (...);"] |}.

(** The sheet of [workbook_file] as a CSV export, and both files side by
    side. *)
Definition workbook_export : file :=
  {| csv_records := [["RunID"; "Test Status"; "Log File"];
                     ["T9"; "done"; " run9.csv"]];
     text_lines := [];
     workbook := None |}.

Definition fs_workbook_and_export : filesystem :=
  fun p => if String.eqb p "in/reg.xlsx" then Some workbook_file
           else if String.eqb p "in/reg.csv" then Some workbook_export
           else None.

(** A sheet with an empty row between the header and the data, and the
    CSV file with a blank line there. *)
Definition text_cell (ref value : string) : cell :=
  {| cell_ref := Some ref; cell_value := value |}.

Definition book_with_empty_row : file :=
  {| csv_records := [];
     text_lines := [];
     workbook :=
       Some [{| sheet_name := "test runs";
                sheet_rows :=
                  [[text_cell "A1" "RunID"; text_cell "B1" "Test Status";
                    text_cell "C1" "Log File"];
                   [];
                   [text_cell "A3" "T1"; text_cell "B3" "done";
                    text_cell "C3" "run1.csv"]] |}] |}.

Definition export_with_blank_line : file :=
  {| csv_records := [["RunID"; "Test Status"; "Log File"];
                     [];
                     ["T1"; "done"; "run1.csv"]];
     text_lines := [];
     workbook := None |}.

Definition fs_empty_row : filesystem :=
  fun p => if String.eqb p "in/reg.xlsx" then Some book_with_empty_row
           else if String.eqb p "in/reg.csv" then Some export_with_blank_line
           else None.

End Examples.

(* ================================================================== *)
(** * Properties *)

(** ** The order of binary64 *)

Module FloatFacts.
Import FloatOrder.

Ltac lex_cases a1 b1 a2 b2 :=
  unfold lex;
  destruct (Z.compare_spec a1 b1);
  [ destruct (Z.compare_spec a2 b2) | | ].


Lemma lex_Eq a b : lex a b = Eq <-> a = b.
Proof.
  destruct a as [[a1 a2] a3], b as [[b1 b2] b3].
  lex_cases a1 b1 a2 b2; rewrite ?Z.compare_eq_iff;
    (split; intros HH;
     first [ discriminate HH | subst; reflexivity
           | inversion HH; subst; first [reflexivity | lia | exfalso; lia] ]).
Qed.

Lemma lex_Gt a b : lex a b = Gt <-> lex b a = Lt.
Proof.
  destruct a as [[a1 a2] a3], b as [[b1 b2] b3]; unfold lex.
  rewrite (Z.compare_antisym a1 b1), (Z.compare_antisym a2 b2),
    (Z.compare_antisym a3 b3).
  destruct (a1 ?= b1); simpl; try (split; congruence).
  destruct (a2 ?= b2); simpl; try (split; congruence).
  destruct (a3 ?= b3); simpl; split; congruence.
Qed.

Lemma SFcompare_rank f g :
  SFcompare f g =
  match rank f, rank g with
  | Some a, Some b => Some (lex a b)
  | _, _ => None
  end.
Proof.
  destruct f as [[|]|[|]| |[|] m e], g as [[|]|[|]| |[|] m' e'];
    try reflexivity; simpl.
  rewrite Z.compare_opp, (Z.compare_antisym e e').
  destruct (e ?= e'); reflexivity.
Qed.

Lemma ltb_rk x y :
  (x <? y)%float = true <->
  exists a b, rk x = Some a /\ rk y = Some b /\ lex a b = Lt.
Proof.
  rewrite ltb_spec. unfold SFltb, rk. rewrite SFcompare_rank.
  destruct (rank (Prim2SF x)) as [a|], (rank (Prim2SF y)) as [b|];
    try (split; [discriminate | intros (a' & b' & Ha & Hb & H); congruence]).
  destruct (lex a b) eqn:E; split; intros H; try discriminate H;
    try (destruct H as (a' & b' & Ha & Hb & H); congruence);
    exists a, b; auto.
Qed.

Lemma leb_rk x y :
  (x <=? y)%float = true <->
  exists a b, rk x = Some a /\ rk y = Some b /\ lex a b <> Gt.
Proof.
  rewrite leb_spec. unfold SFleb, rk. rewrite SFcompare_rank.
  destruct (rank (Prim2SF x)) as [a|], (rank (Prim2SF y)) as [b|];
    try (split; [discriminate | intros (a' & b' & Ha & Hb & H); congruence]).
  destruct (lex a b) eqn:E; split; intros H; try discriminate H;
    try (destruct H as (a' & b' & Ha & Hb & H); congruence);
    try reflexivity;
    exists a, b; repeat split; congruence.
Qed.

Lemma eqb_rk x y :
  (x =? y)%float = true <->
  exists a, rk x = Some a /\ rk y = Some a.
Proof.
  rewrite eqb_spec. unfold SFeqb, rk. rewrite SFcompare_rank.
  destruct (rank (Prim2SF x)) as [a|], (rank (Prim2SF y)) as [b|];
    try (split; [discriminate | intros (a' & Ha & Hb); congruence]).
  destruct (lex a b) eqn:E; split; intros H; try discriminate H;
    try reflexivity.
  - apply lex_Eq in E. subst. eauto.
  - destruct H as (a' & Ha & Hb).
    assert (a = b) by congruence. subst.
    assert (lex b b = Eq) by (apply lex_Eq; reflexivity). congruence.
  - destruct H as (a' & Ha & Hb).
    assert (a = b) by congruence. subst.
    assert (lex b b = Eq) by (apply lex_Eq; reflexivity). congruence.
Qed.

Lemma is_nan_rk x : is_nan x = false <-> exists a, rk x = Some a.
Proof.
  unfold is_nan. rewrite Bool.negb_false_iff, eqb_rk.
  split; intros (a & H); [destruct H|]; eauto.
Qed.








(** *** Rounding never makes a NaN *)

Lemma shr_1_nonneg mrs : 0 <= shr_m mrs -> 0 <= shr_m (shr_1 mrs).
Proof.
  destruct mrs as [m r s]. simpl.
  destruct m as [|[p|p|]|p]; simpl; intros H; lia.
Qed.

Lemma iter_pos_shr_1_nonneg p mrs :
  0 <= shr_m mrs -> 0 <= shr_m (iter_pos shr_1 p mrs).
Proof.
  revert mrs. induction p as [p IH|p IH|]; intros mrs H; simpl.
  - apply IH, IH, shr_1_nonneg, H.
  - apply IH, IH, H.
  - apply shr_1_nonneg, H.
Qed.

Lemma shr_fexp_nonneg pr em m e l :
  0 <= m -> 0 <= shr_m (fst (shr_fexp pr em m e l)).
Proof.
  intros H. unfold shr_fexp, shr.
  assert (H0 : 0 <= shr_m (shr_record_of_loc m l))
    by (destruct l as [|[| |]]; exact H).
  destruct (fexp pr em (Zdigits2 m + e) - e); simpl; trivial.
  apply iter_pos_shr_1_nonneg, H0.
Qed.

Lemma round_nearest_even_nonneg m l : 0 <= m -> 0 <= round_nearest_even m l.
Proof.
  intros H. destruct l as [|[| |]]; simpl; try lia.
  destruct (Z.even m); lia.
Qed.

Lemma binary_round_aux_not_nan pr em sx mx ex lx :
  0 <= mx -> binary_round_aux pr em sx mx ex lx <> S754_nan.
Proof.
  intros H. unfold binary_round_aux.
  pose proof (shr_fexp_nonneg pr em mx ex lx H) as H1.
  destruct (shr_fexp pr em mx ex lx) as [mrs' e']. simpl in H1.
  pose proof (shr_fexp_nonneg pr em
                (round_nearest_even (shr_m mrs') (loc_of_shr_record mrs'))
                e' loc_Exact (round_nearest_even_nonneg _ _ H1)) as H2.
  destruct (shr_fexp pr em
              (round_nearest_even (shr_m mrs') (loc_of_shr_record mrs'))
              e' loc_Exact) as [mrs'' e'']. simpl in H2.
  destruct (shr_m mrs'') as [|m|m]; try discriminate; [|lia].
  destruct (e'' <=? em - pr); discriminate.
Qed.

Lemma binary_normalize_not_nan pr em m e sz :
  binary_normalize pr em m e sz <> S754_nan.
Proof.
  unfold binary_normalize, binary_round.
  destruct m as [|p|p]; [discriminate| |].
  - destruct (shl_align p e (fexp pr em (Z.pos (digits2_pos p) + e))).
    apply binary_round_aux_not_nan. lia.
  - destruct (shl_align p e (fexp pr em (Z.pos (digits2_pos p) + e))).
    apply binary_round_aux_not_nan. lia.
Qed.





(** *** Differences, sums and quotients that are not negative *)

Lemma binary_round_aux_unsigned pr em mx ex lx :
  0 <= mx -> unsigned (binary_round_aux pr em false mx ex lx) = true.
Proof.
  intros H. unfold binary_round_aux.
  destruct (shr_fexp pr em mx ex lx) as [mrs' e'].
  destruct (shr_fexp pr em
              (round_nearest_even (shr_m mrs') (loc_of_shr_record mrs'))
              e' loc_Exact) as [mrs'' e''].
  destruct (shr_m mrs'') as [|m|m]; try reflexivity.
  destruct (e'' <=? em - pr); reflexivity.
Qed.

Lemma binary_round_unsigned pr em p e :
  unsigned (binary_round pr em false p e) = true.
Proof.
  unfold binary_round.
  destruct (shl_align p e (fexp pr em (Z.pos (digits2_pos p) + e))).
  apply binary_round_aux_unsigned. lia.
Qed.

Lemma binary_normalize_unsigned pr em m e :
  0 <= m -> unsigned (binary_normalize pr em m e false) = true.
Proof.
  intros H. unfold binary_normalize.
  destruct m as [|p|p]; [reflexivity|apply binary_round_unsigned|lia].
Qed.

Lemma unsigned_not_negative f : unsigned f = true -> not_negative f = true.
Proof. destruct f as [[|]|[|]| |[|] m e]; simpl; congruence. Qed.

Lemma not_negative_ltb_0 x :
  not_negative (Prim2SF x) = true -> (x <? 0)%float = false.
Proof.
  rewrite ltb_spec. change (Prim2SF 0) with (S754_zero false).
  destruct (Prim2SF x) as [[|]|[|]| |[|] m e]; simpl; intros H;
    try discriminate H; reflexivity.
Qed.

Lemma SFadd_not_negative pr em x y :
  not_negative x = true -> not_negative y = true ->
  not_negative (SFadd pr em x y) = true.
Proof.
  destruct x as [[|]|[|]| |[|] mx ex], y as [[|]|[|]| |[|] my ey];
    simpl; try congruence; intros _ _.
  apply unsigned_not_negative, binary_round_unsigned.
Qed.

Lemma div_eucl_nonneg a b : 0 <= a -> 0 < b -> 0 <= fst (Z.div_eucl a b).
Proof.
  intros Ha Hb. change (fst (Z.div_eucl a b)) with (a / b).
  apply Z.div_pos; assumption.
Qed.

Lemma SFdiv_not_negative pr em x n :
  not_negative x = true -> unsigned n = true ->
  not_negative (SFdiv pr em x n) = true.
Proof.
  destruct x as [[|]|[|]| |[|] mx ex], n as [[|]|[|]| |[|] mn en];
    simpl; try congruence; intros _ _.
  unfold SFdiv_core_binary.
  set (s := ex - en - _).
  set (m' := match s with Z.pos _ => Z.shiftl (Z.pos mx) s
                        | 0 => Z.pos mx | Z.neg _ => 0 end).
  assert (Hm : 0 <= m').
  { subst m'. destruct s; try lia. apply Z.shiftl_nonneg. lia. }
  pose proof (div_eucl_nonneg m' (Z.pos mn) Hm eq_refl) as Hq.
  destruct (Z.div_eucl m' (Z.pos mn)) as [q r]. simpl in Hq.
  apply unsigned_not_negative, binary_round_aux_unsigned. exact Hq.
Qed.

Lemma digits2_pos_bounds m :
  2 ^ (Z.pos (digits2_pos m) - 1) <= Z.pos m < 2 ^ Z.pos (digits2_pos m).
Proof.
  induction m as [m IH|m IH|]; simpl digits2_pos.
  - rewrite Pos2Z.inj_succ. change (Z.pos m~1) with (2 * Z.pos m + 1).
    replace (Z.succ (Z.pos (digits2_pos m)) - 1)
      with (Z.succ (Z.pos (digits2_pos m) - 1)) by lia.
    rewrite !Z.pow_succ_r by lia. lia.
  - rewrite Pos2Z.inj_succ. change (Z.pos m~0) with (2 * Z.pos m).
    replace (Z.succ (Z.pos (digits2_pos m)) - 1)
      with (Z.succ (Z.pos (digits2_pos m) - 1)) by lia.
    rewrite !Z.pow_succ_r by lia. lia.
  - cbv. split; [discriminate | reflexivity].
Qed.

Lemma iter_xO_value m d : Z.pos (Pos.iter xO m d) = Z.pos m * 2 ^ Z.pos d.
Proof.
  induction d as [|d IH] using Pos.peano_ind.
  - simpl. lia.
  - rewrite Pos.iter_succ.
    change (Z.pos (Pos.iter xO m d)~0) with (2 * Z.pos (Pos.iter xO m d)).
    rewrite IH, Pos2Z.inj_succ, Z.pow_succ_r by lia. lia.
Qed.

Lemma shl_align_value m e ez :
  ez <= e -> Z.pos (fst (shl_align m e ez)) = Z.pos m * 2 ^ (e - ez).
Proof.
  intros H. unfold shl_align. destruct (ez - e) as [|d|d] eqn:E; simpl fst.
  - replace (e - ez) with 0 by lia. simpl. lia.
  - lia.
  - replace (e - ez) with (Z.pos d) by lia. apply iter_xO_value.
Qed.

(** The mantissa of a float has at most [prec] digits, and exactly [prec]
    of them above the least exponent. *)
Lemma bounded_inv m e :
  bounded prec emax m e = true ->
  Z.pos (digits2_pos m) <= prec
  /\ emin <= e
  /\ (emin < e -> Z.pos (digits2_pos m) = prec).
Proof.
  unfold bounded, canonical_mantissa, fexp. intros H.
  apply andb_prop in H. destruct H as (H & _). apply Z.eqb_eq in H.
  unfold prec, emax, SpecFloat.emin in *. lia.
Qed.

(** Of two floats of one sign, the one with the larger exponent, or with
    the same exponent and the larger mantissa, is the larger in magnitude
    once both are brought to the smaller exponent. *)
Lemma aligned_le m1 e1 m2 e2 :
  bounded prec emax m1 e1 = true -> bounded prec emax m2 e2 = true ->
  e1 < e2 \/ (e1 = e2 /\ Z.pos m1 <= Z.pos m2) ->
  Z.pos (fst (shl_align m1 e1 (Z.min e1 e2)))
  <= Z.pos (fst (shl_align m2 e2 (Z.min e1 e2))).
Proof.
  intros B1 B2 H.
  rewrite !shl_align_value by lia.
  destruct H as [Hlt | (-> & Hm)].
  - replace (Z.min e1 e2) with e1 by lia.
    replace (e1 - e1) with 0 by lia. rewrite Z.pow_0_r, Z.mul_1_r.
    apply bounded_inv in B1, B2.
    destruct B1 as (D1 & E1 & _), B2 as (_ & _ & D2).
    specialize (D2 ltac:(lia)).
    pose proof (digits2_pos_bounds m1) as (_ & U1).
    pose proof (digits2_pos_bounds m2) as (L2 & _).
    rewrite D2 in L2.
    assert (U1' : Z.pos m1 < 2 ^ prec).
    { eapply Z.lt_le_trans; [exact U1|]. apply Z.pow_le_mono_r; lia. }
    assert (P : 2 ^ 1 <= 2 ^ (e2 - e1)) by (apply Z.pow_le_mono_r; lia).
    unfold prec in *. simpl in L2, U1', P.
    nia.
  - replace (Z.min e2 e2) with e2 by lia.
    replace (e2 - e2) with 0 by lia. rewrite Z.pow_0_r. lia.
Qed.

(** The difference of a float and one that is not above it is a NaN, a
    zero, or above zero. *)
Lemma SFsub_not_negative a b :
  valid_binary a = true -> valid_binary b = true ->
  SFleb a b = true ->
  not_negative (SFsub prec emax b a) = true.
Proof.
  destruct a as [[|]|[|]| |[|] ma ea], b as [[|]|[|]| |[|] mb eb];
    simpl SpecFloat.valid_binary; intros Va Vb; try (intros H; discriminate H);
    try (intros _; reflexivity); unfold SFleb, SFcompare.
  - (* both below zero *)
    intros H. unfold SFsub. apply unsigned_not_negative, binary_normalize_unsigned.
    unfold cond_Zopp. rewrite (Z.min_comm eb ea).
    assert (Hord : eb < ea \/ (eb = ea /\ Z.pos mb <= Z.pos ma)).
    { destruct (Z.compare_spec ea eb) as [E|E|E]; try discriminate H; [|lia].
      right. split; [auto|].
      change (Pos.compare_cont Eq ma mb) with (Pos.compare ma mb) in H.
      destruct (Pos.compare_spec ma mb) as [P|P|P]; try discriminate H; lia. }
    pose proof (aligned_le mb eb ma ea Vb Va Hord) as A.
    rewrite (Z.min_comm eb ea) in A. lia.
  - (* below zero and above zero *)
    intros _. unfold SFsub.
    apply unsigned_not_negative, binary_normalize_unsigned. unfold cond_Zopp. lia.
  - (* both above zero *)
    intros H. unfold SFsub. apply unsigned_not_negative, binary_normalize_unsigned.
    unfold cond_Zopp. rewrite (Z.min_comm eb ea).
    assert (Hord : ea < eb \/ (ea = eb /\ Z.pos ma <= Z.pos mb)).
    { destruct (Z.compare_spec ea eb) as [E|E|E]; try discriminate H; [|lia].
      right. split; [auto|].
      change (Pos.compare_cont Eq ma mb) with (Pos.compare ma mb) in H.
      destruct (Pos.compare_spec ma mb) as [P|P|P]; try discriminate H; lia. }
    pose proof (aligned_le ma ea mb eb Va Vb Hord) as A. lia.
Qed.

(** The float of an integer that is not negative has the sign bit clear. *)
Lemma float_of_int_unsigned z :
  0 <= z -> unsigned (Prim2SF (PyNum.float_of_int z)) = true.
Proof.
  intros H. unfold PyNum.float_of_int.
  destruct (Z.ltb_spec z 0) as [Hlt|_]; [lia|].
  rewrite of_uint63_spec. apply binary_normalize_unsigned.
  apply Uint63.to_Z_bounded.
Qed.

Lemma sub_not_negative a b :
  (a <=? b)%float = true -> not_negative (Prim2SF (b - a)) = true.
Proof.
  rewrite leb_spec, sub_spec. intros H.
  apply SFsub_not_negative; auto using Prim2SF_valid.
Qed.

Lemma add_not_negative x y :
  not_negative (Prim2SF x) = true -> not_negative (Prim2SF y) = true ->
  not_negative (Prim2SF (x + y)) = true.
Proof. rewrite add_spec. apply SFadd_not_negative. Qed.

Lemma div_not_negative x n :
  not_negative (Prim2SF x) = true -> unsigned (Prim2SF n) = true ->
  not_negative (Prim2SF (x / n)) = true.
Proof. rewrite div_spec. apply SFdiv_not_negative. Qed.

Lemma fold_add_not_negative xs acc :
  not_negative (Prim2SF acc) = true ->
  Forall (fun x => not_negative (Prim2SF x) = true) xs ->
  not_negative (Prim2SF (fold_left PrimFloat.add xs acc)) = true.
Proof.
  intros Hacc H. revert acc Hacc.
  induction H as [|x xs Hx _ IH]; intros acc Hacc; simpl; [exact Hacc|].
  apply IH, add_not_negative; assumption.
Qed.

(** The sum of floats of which none is below zero is not below zero. *)
Lemma sum_not_negative xs :
  Forall (fun x => not_negative (Prim2SF x) = true) xs ->
  not_negative (Prim2SF (PyList.sum xs)) = true.
Proof. intros H. apply fold_add_not_negative; [reflexivity | exact H]. Qed.

(** *** The sign of what rounding gives *)

Lemma shr_1_half mrs : 0 <= shr_m mrs -> shr_m (shr_1 mrs) = shr_m mrs / 2.
Proof.
  destruct mrs as [m r s]. simpl.
  destruct m as [|[p|p|]|p]; simpl shr_m; intros H; try reflexivity; try lia.
  - apply (Z.div_unique (Z.pos p~1) 2 (Z.pos p) 1); lia.
  - apply (Z.div_unique (Z.pos p~0) 2 (Z.pos p) 0); lia.
Qed.

Lemma pow_twice n : 0 <= n -> 2 ^ (2 * n) = 2 ^ n * 2 ^ n.
Proof. intros H. rewrite <- Z.pow_add_r by lia. f_equal. lia. Qed.

Lemma iter_pos_shr_1_value n : forall mrs,
  0 <= shr_m mrs ->
  shr_m (iter_pos shr_1 n mrs) = shr_m mrs / 2 ^ Z.pos n.
Proof.
  induction n as [n IH|n IH|]; intros mrs H; simpl iter_pos.
  - assert (P : 0 < 2 ^ Z.pos n) by (apply Z.pow_pos_nonneg; lia).
    rewrite IH by (apply iter_pos_shr_1_nonneg, shr_1_nonneg, H).
    rewrite IH by (apply shr_1_nonneg, H).
    rewrite shr_1_half by exact H.
    rewrite !Z.div_div by lia.
    f_equal. rewrite (Pos2Z.inj_xI n), Z.pow_add_r, pow_twice by lia.
    change (2 ^ 1) with 2. lia.
  - assert (P : 0 < 2 ^ Z.pos n) by (apply Z.pow_pos_nonneg; lia).
    rewrite IH by (apply iter_pos_shr_1_nonneg, H).
    rewrite IH by exact H.
    rewrite Z.div_div by lia.
    f_equal. rewrite (Pos2Z.inj_xO n), pow_twice by lia. reflexivity.
  - rewrite shr_1_half by exact H. reflexivity.
Qed.

Lemma shr_m_of_loc m l : shr_m (shr_record_of_loc m l) = m.
Proof. destruct l as [|[| |]]; reflexivity. Qed.

Lemma Zdigits2_bounds m :
  0 < m -> 2 ^ (Zdigits2 m - 1) <= m < 2 ^ Zdigits2 m /\ 0 < Zdigits2 m.
Proof.
  destruct m as [|p|p]; try lia. intros _. simpl Zdigits2.
  split; [apply digits2_pos_bounds | lia].
Qed.

(** A shift to the exponent of the format keeps a mantissa above zero
    above zero, brings it below [2 ^ prec], and lifts the exponent by the
    digits that are too many. *)
Lemma shr_fexp_pos m e l :
  0 < m -> emin <= e ->
  0 < shr_m (fst (shr_fexp prec emax m e l)) < 2 ^ prec
  /\ snd (shr_fexp prec emax m e l) = Z.max e (e + Zdigits2 m - prec).
Proof.
  intros Hm He. unfold shr_fexp, shr, fexp.
  destruct (Zdigits2_bounds m Hm) as ((Lo & Hi) & Hd).
  set (d := Zdigits2 m) in *.
  fold emin.
  destruct (Z.max (d + e - prec) emin - e) as [|n|n] eqn:E; simpl fst; simpl snd.
  - rewrite shr_m_of_loc. split; [|lia]. split; [lia|].
    eapply Z.lt_le_trans; [exact Hi|]. apply Z.pow_le_mono_r; lia.
  - rewrite iter_pos_shr_1_value by (rewrite shr_m_of_loc; lia).
    rewrite shr_m_of_loc.
    assert (Hn : Z.pos n = d - prec) by lia.
    split; [|lia]. rewrite Hn.
    assert (P : 0 < 2 ^ (d - prec)) by (apply Z.pow_pos_nonneg; lia).
    assert (Hp : prec = 53) by reflexivity.
    split.
    + apply Z.div_str_pos. split; [exact P|].
      eapply Z.le_trans; [|exact Lo]. apply Z.pow_le_mono_r; lia.
    + apply Z.div_lt_upper_bound; [exact P|].
      rewrite <- Z.pow_add_r by lia.
      replace (d - prec + prec) with d by lia. exact Hi.
  - rewrite shr_m_of_loc. split; [|lia]. split; [lia|].
    eapply Z.lt_le_trans; [exact Hi|]. apply Z.pow_le_mono_r; lia.
Qed.

Lemma round_nearest_even_bounds m l :
  m <= round_nearest_even m l <= m + 1.
Proof.
  destruct l as [|[| |]]; simpl; try lia. destruct (Z.even m); lia.
Qed.

(** Rounding a mantissa above zero at an exponent of the format gives a
    float of the sign that is not a zero, and an infinity only when the
    exponent is too large. *)
Lemma binary_round_aux_sign sx mx ex lx :
  0 < mx -> emin <= ex ->
  exists m e,
    e <= Z.max ex (ex + Zdigits2 mx - prec) + 1
    /\ binary_round_aux prec emax sx mx ex lx
       = if e <=? emax - prec then S754_finite sx m e else S754_infinity sx.
Proof.
  intros Hm He. unfold binary_round_aux.
  pose proof (shr_fexp_pos mx ex lx Hm He) as ((P1 & B1) & E1).
  destruct (shr_fexp prec emax mx ex lx) as [mrs' e'].
  cbn [fst snd] in P1, B1, E1.
  pose proof (round_nearest_even_bounds (shr_m mrs') (loc_of_shr_record mrs'))
    as (R1 & R2).
  set (m1 := round_nearest_even (shr_m mrs') (loc_of_shr_record mrs')) in *.
  assert (Hm1 : 0 < m1) by lia.
  assert (He' : emin <= e') by lia.
  pose proof (shr_fexp_pos m1 e' loc_Exact Hm1 He') as ((P2 & _) & E2).
  destruct (Zdigits2_bounds m1 Hm1) as ((Lo & _) & _).
  assert (D : Zdigits2 m1 <= prec + 1).
  { destruct (Z.le_gt_cases (Zdigits2 m1) (prec + 1)) as [D|D]; [exact D|].
    exfalso.
    assert (2 ^ (prec + 1) <= 2 ^ (Zdigits2 m1 - 1))
      by (apply Z.pow_le_mono_r; unfold prec in *; lia).
    assert (2 ^ (prec + 1) = 2 * 2 ^ prec)
      by (rewrite Z.pow_add_r; unfold prec; lia).
    assert (0 < 2 ^ prec) by (apply Z.pow_pos_nonneg; unfold prec; lia).
    lia. }
  destruct (shr_fexp prec emax m1 e' loc_Exact) as [mrs'' e''].
  cbn [fst snd] in P2, E2.
  destruct (shr_m mrs'') as [|m|m]; try lia.
  exists m, e''. split; [lia | reflexivity].
Qed.

Lemma binary_round_sign sx p e :
  emin <= e ->
  exists m e',
    e' <= Z.max e (e + Z.pos (digits2_pos p) - prec) + 1
    /\ binary_round prec emax sx p e
       = if e' <=? emax - prec then S754_finite sx m e' else S754_infinity sx.
Proof.
  intros He. unfold binary_round.
  pose proof (digits2_pos_bounds p) as (Lo & Hi).
  set (d := Z.pos (digits2_pos p)) in *.
  unfold shl_align, fexp. fold emin.
  destruct (Z.max (d + e - prec) emin - e) as [|k|k] eqn:E.
  - destruct (binary_round_aux_sign sx (Z.pos p) e loc_Exact) as (m & e' & B & R);
      [lia | exact He|].
    exists m, e'. split; [|exact R]. simpl Zdigits2 in B. fold d in B. lia.
  - destruct (binary_round_aux_sign sx (Z.pos p) e loc_Exact) as (m & e' & B & R);
      [lia | exact He|].
    exists m, e'. split; [|exact R]. simpl Zdigits2 in B. fold d in B. lia.
  - set (ez := Z.max (d + e - prec) emin).
    destruct (binary_round_aux_sign sx (Z.pos (Pos.iter xO p k)) ez loc_Exact)
      as (m & e' & B & R); [lia | subst ez; lia|].
    exists m, e'. split; [|exact R].
    assert (V : Z.pos (Pos.iter xO p k) = Z.pos p * 2 ^ Z.pos k)
      by apply iter_xO_value.
    destruct (Zdigits2_bounds (Z.pos (Pos.iter xO p k)) ltac:(lia))
      as ((Lo' & Hi') & Hd').
    set (D := Zdigits2 (Z.pos (Pos.iter xO p k))) in *.
    assert (HD : D <= d + Z.pos k).
    { destruct (Z.le_gt_cases D (d + Z.pos k)) as [H|H]; [exact H|]. exfalso.
      assert (2 ^ (d + Z.pos k) <= 2 ^ (D - 1))
        by (apply Z.pow_le_mono_r; lia).
      rewrite Z.pow_add_r in H0 by lia.
      assert (0 < 2 ^ Z.pos k) by (apply Z.pow_pos_nonneg; lia).
      nia. }
    subst ez. lia.
Qed.

Lemma binary_round_nonzero sx p e :
  emin <= e ->
  match binary_round prec emax sx p e with
  | S754_finite s _ _ => s = sx
  | S754_infinity s => s = sx
  | _ => False
  end.
Proof.
  intros He. destruct (binary_round_sign sx p e He) as (m & e' & _ & ->).
  destruct (e' <=? emax - prec); reflexivity.
Qed.

(** Strictly: of two floats of one sign, the smaller in magnitude stays
    the smaller once both are brought to the smaller exponent. *)
Lemma aligned_lt m1 e1 m2 e2 :
  bounded prec emax m1 e1 = true -> bounded prec emax m2 e2 = true ->
  e1 < e2 \/ (e1 = e2 /\ Z.pos m1 < Z.pos m2) ->
  Z.pos (fst (shl_align m1 e1 (Z.min e1 e2)))
  < Z.pos (fst (shl_align m2 e2 (Z.min e1 e2))).
Proof.
  intros B1 B2 H.
  rewrite !shl_align_value by lia.
  destruct H as [Hlt | (-> & Hm)].
  - replace (Z.min e1 e2) with e1 by lia.
    replace (e1 - e1) with 0 by lia. rewrite Z.pow_0_r, Z.mul_1_r.
    apply bounded_inv in B1, B2.
    destruct B1 as (D1 & E1 & _), B2 as (_ & _ & D2).
    specialize (D2 ltac:(lia)).
    pose proof (digits2_pos_bounds m1) as (_ & U1).
    pose proof (digits2_pos_bounds m2) as (L2 & _).
    rewrite D2 in L2.
    assert (U1' : Z.pos m1 < 2 ^ prec).
    { eapply Z.lt_le_trans; [exact U1|]. apply Z.pow_le_mono_r; lia. }
    assert (P : 2 ^ 1 <= 2 ^ (e2 - e1)) by (apply Z.pow_le_mono_r; lia).
    unfold prec in *. simpl in L2, U1', P.
    nia.
  - replace (Z.min e2 e2) with e2 by lia.
    replace (e2 - e2) with 0 by lia. rewrite Z.pow_0_r. lia.
Qed.

Lemma aligned_eq m e :
  fst (shl_align m e (Z.min e e)) = m.
Proof.
  unfold shl_align. replace (Z.min e e - e) with 0 by lia. reflexivity.
Qed.

(** The order of two floats of one sign, read off their exponents and
    mantissas. *)
Lemma compare_cases m1 e1 m2 e2 :
  match match e1 ?= e2 with
        | Lt => Lt
        | Gt => Gt
        | Eq => Pos.compare_cont Eq m1 m2
        end with
  | Lt => e1 < e2 \/ (e1 = e2 /\ Z.pos m1 < Z.pos m2)
  | Eq => e1 = e2 /\ m1 = m2
  | Gt => e2 < e1 \/ (e2 = e1 /\ Z.pos m2 < Z.pos m1)
  end.
Proof.
  destruct (Z.compare_spec e1 e2) as [E|E|E]; [|lia|lia].
  change (Pos.compare_cont Eq m1 m2) with (Pos.compare m1 m2).
  destruct (Pos.compare_spec m1 m2) as [P|P|P]; [auto | right | right]; lia.
Qed.

Lemma binary_normalize_sign m e :
  emin <= e ->
  at_least_zero (binary_normalize prec emax m e false) = (0 <=? m).
Proof.
  intros He. unfold binary_normalize. destruct m as [|p|p]; try reflexivity.
  - pose proof (binary_round_nonzero false p e He) as H.
    destruct (binary_round prec emax false p e) as [|s| |s m' e'];
      try contradiction; subst; reflexivity.
  - pose proof (binary_round_nonzero true p e He) as H.
    destruct (binary_round prec emax true p e) as [|s| |s m' e'];
      try contradiction; subst; reflexivity.
Qed.

(** For two floats of which none is an infinity, [a <= b] tells whether
    the float [b - a] is zero or above. *)
Lemma SFsub_sign a b :
  valid_binary a = true -> valid_binary b = true ->
  infinite a = false -> infinite b = false ->
  SFleb a b = at_least_zero (SFsub prec emax b a).
Proof.
  destruct a as [sa|sa| |sa ma ea], b as [sb|sb| |sb mb eb];
    simpl SpecFloat.valid_binary; intros Va Vb Ia Ib;
    try discriminate Ia; try discriminate Ib; try reflexivity.
  - destruct sa, sb; reflexivity.
  - destruct sb; reflexivity.
  - destruct sa; reflexivity.
  - pose proof (bounded_inv _ _ Va) as (_ & Ea & _).
    pose proof (bounded_inv _ _ Vb) as (_ & Eb & _).
    unfold SFsub. rewrite binary_normalize_sign by lia.
    rewrite (Z.min_comm eb ea).
    unfold SFleb, SFcompare, cond_Zopp.
    assert (Lt_ : ea < eb \/ (ea = eb /\ Z.pos ma < Z.pos mb) ->
                  Z.pos (fst (shl_align ma ea (Z.min ea eb)))
                  < Z.pos (fst (shl_align mb eb (Z.min ea eb))))
      by (apply aligned_lt; assumption).
    assert (Gt_ : eb < ea \/ (eb = ea /\ Z.pos mb < Z.pos ma) ->
                  Z.pos (fst (shl_align mb eb (Z.min ea eb)))
                  < Z.pos (fst (shl_align ma ea (Z.min ea eb)))).
    { intros H. rewrite (Z.min_comm ea eb). apply aligned_lt; assumption. }
    assert (Eq_ : ea = eb -> ma = mb ->
                  Z.pos (fst (shl_align mb eb (Z.min ea eb)))
                  = Z.pos (fst (shl_align ma ea (Z.min ea eb))))
      by (intros -> ->; reflexivity).
    set (A := Z.pos (fst (shl_align ma ea (Z.min ea eb)))) in *.
    set (B := Z.pos (fst (shl_align mb eb (Z.min ea eb)))) in *.
    change (Pos.compare_cont Eq ma mb) with (Pos.compare ma mb).
    destruct sa, sb;
      try (symmetry; apply Z.leb_le; lia);
      try (symmetry; apply Z.leb_gt; lia);
      (destruct (Z.compare_spec ea eb) as [E|E|E];
       [destruct (Pos.compare_spec ma mb) as [P|P|P]| |]; cbn [CompOpp];
       first [ symmetry; apply Z.leb_le;
               first [ specialize (Eq_ E P) | specialize (Lt_ ltac:(lia))
                     | specialize (Gt_ ltac:(lia)) ]; lia
             | symmetry; apply Z.leb_gt;
               first [ specialize (Lt_ ltac:(lia))
                     | specialize (Gt_ ltac:(lia)) ]; lia ]).
Qed.

Lemma at_least_zero_split f :
  at_least_zero f = true <-> not_negative f = true /\ f <> S754_nan.
Proof.
  destruct f as [[|]|[|]| |[|] m e]; simpl; split;
    try (intros H; discriminate H); try (intros (H & N); discriminate H);
    try (intros (_ & N); contradiction);
    try (split; [reflexivity | discriminate]); reflexivity.
Qed.

Lemma SFadd_at_least_zero x y :
  at_least_zero x = true -> at_least_zero y = true ->
  at_least_zero (SFadd prec emax x y) = true.
Proof.
  rewrite !at_least_zero_split. intros (Hx & Nx) (Hy & Ny).
  split; [apply SFadd_not_negative; assumption|].
  destruct x as [[|]|[|]| |[|] mx ex], y as [[|]|[|]| |[|] my ey];
    try (simpl in *; congruence).
  unfold SFadd. apply binary_normalize_not_nan.
Qed.

Lemma SFdiv_at_least_zero x mn en :
  at_least_zero x = true ->
  at_least_zero (SFdiv prec emax x (S754_finite false mn en)) = true.
Proof.
  rewrite !at_least_zero_split. intros (Hx & Nx).
  split; [apply SFdiv_not_negative; [exact Hx | reflexivity]|].
  destruct x as [[|]|[|]| |[|] mx ex]; try (simpl in *; congruence).
  unfold SFdiv, SFdiv_core_binary.
  set (s := ex - en - _).
  set (m' := match s with Z.pos _ => Z.shiftl (Z.pos mx) s
                        | 0 => Z.pos mx | Z.neg _ => 0 end).
  assert (Hm : 0 <= m').
  { subst m'. destruct s; try lia. apply Z.shiftl_nonneg. lia. }
  pose proof (div_eucl_nonneg m' (Z.pos mn) Hm eq_refl) as Hq.
  destruct (Z.div_eucl m' (Z.pos mn)) as [q r]. simpl in Hq.
  apply binary_round_aux_not_nan. exact Hq.
Qed.

(** The float of an integer above zero and below [2 ^ 63] is a finite
    float above zero. *)
Lemma float_of_int_finite z :
  0 < z < 2 ^ 63 ->
  exists m e, Prim2SF (PyNum.float_of_int z) = S754_finite false m e.
Proof.
  intros (H0 & H1). unfold PyNum.float_of_int.
  destruct (Z.ltb_spec z 0) as [Hlt|_]; [lia|].
  rewrite of_uint63_spec, Uint63.of_Z_spec.
  rewrite Z.mod_small by (change Uint63.wB with (2 ^ 63); lia).
  destruct z as [|p|p]; try lia. simpl binary_normalize.
  assert (He : emin <= 0) by (unfold emin, emax, prec; lia).
  destruct (binary_round_sign false p 0 He) as (m & e & B & ->).
  pose proof (digits2_pos_bounds p) as (Lo & _).
  assert (D : Z.pos (digits2_pos p) <= 63).
  { destruct (Z.le_gt_cases (Z.pos (digits2_pos p)) 63) as [D|D]; [exact D|].
    exfalso.
    assert (2 ^ 63 <= 2 ^ (Z.pos (digits2_pos p) - 1))
      by (apply Z.pow_le_mono_r; lia).
    lia. }
  exists m, e.
  destruct (Z.leb_spec e (emax - prec)) as [_|C]; [reflexivity|].
  exfalso. unfold emax, prec in *. lia.
Qed.

(** *** What the comparisons of the run time say *)

Lemma leb_0_spec x : (0 <=? x)%float = at_least_zero (Prim2SF x).
Proof.
  rewrite leb_spec. change (Prim2SF 0) with (S754_zero false).
  destruct (Prim2SF x) as [[|]|[|]| |[|] m e]; reflexivity.
Qed.

Lemma is_infinity_spec x : is_infinity x = infinite (Prim2SF x).
Proof.
  unfold is_infinity. rewrite eqb_spec, abs_spec.
  change (Prim2SF infinity) with (S754_infinity false).
  destruct (Prim2SF x) as [[|]|[|]| |[|] m e]; reflexivity.
Qed.

(** The same holds when one of the two is an infinity, or both are and
    they differ: only [inf - inf] and [-inf - -inf], which are NaN, tell
    nothing about the order. *)
Lemma SFsub_sign_but_same_infinity a b :
  valid_binary a = true -> valid_binary b = true ->
  same_infinity a b = false ->
  SFleb a b = at_least_zero (SFsub prec emax b a).
Proof.
  intros Va Vb H.
  destruct (infinite a) eqn:Ia; [|destruct (infinite b) eqn:Ib];
    [| |apply SFsub_sign; assumption].
  - destruct a as [sa|sa| |sa ma ea]; try discriminate Ia.
    destruct b as [sb|sb| |sb mb eb], sa; try destruct sb;
      try discriminate H; reflexivity.
  - destruct b as [sb|sb| |sb mb eb]; try discriminate Ib.
    destruct a as [sa|sa| |sa ma ea], sb; try destruct sa;
      try discriminate Ia; reflexivity.
Qed.

Lemma same_infinity_spec a b :
  (is_infinity a && (a =? b)%float) = same_infinity (Prim2SF a) (Prim2SF b).
Proof.
  rewrite is_infinity_spec, eqb_spec.
  destruct (Prim2SF a) as [sa|sa| |sa ma ea]; try reflexivity.
  destruct (Prim2SF b) as [sb|sb| |sb mb eb], sa; try destruct sb;
    reflexivity.
Qed.

(** For two floats that are not the same infinity, [a <= b] holds exactly
    when the difference [b - a], as a float, is zero or above. *)
Lemma leb_sub a b :
  (is_infinity a && (a =? b)%float) = false ->
  (a <=? b)%float = (0 <=? b - a)%float.
Proof.
  rewrite same_infinity_spec, leb_0_spec, leb_spec, sub_spec.
  intros H. apply SFsub_sign_but_same_infinity; auto using Prim2SF_valid.
Qed.

Lemma add_at_least_zero x y :
  (0 <=? x)%float = true -> (0 <=? y)%float = true ->
  (0 <=? x + y)%float = true.
Proof. rewrite !leb_0_spec, add_spec. apply SFadd_at_least_zero. Qed.

Lemma fold_add_at_least_zero xs : forall acc,
  (0 <=? acc)%float = true ->
  Forall (fun x => (0 <=? x)%float = true) xs ->
  (0 <=? fold_left PrimFloat.add xs acc)%float = true.
Proof.
  induction xs as [|x xs IH]; intros acc Hacc H; simpl; [exact Hacc|].
  inversion H; subst. apply IH; [apply add_at_least_zero|]; assumption.
Qed.

(** The sum of floats that are zero or above is zero or above. *)
Lemma sum_at_least_zero xs :
  Forall (fun x => (0 <=? x)%float = true) xs ->
  (0 <=? PyList.sum xs)%float = true.
Proof. intros H. apply fold_add_at_least_zero; [reflexivity | exact H]. Qed.

(** So is the quotient of such a float by a count. *)
Lemma div_count_at_least_zero x n :
  (0 <=? x)%float = true -> 0 < n < 2 ^ 63 ->
  (0 <=? x / PyNum.float_of_int n)%float = true.
Proof.
  rewrite !leb_0_spec, div_spec. intros Hx Hn.
  destruct (float_of_int_finite n Hn) as (m & e & ->).
  apply SFdiv_at_least_zero. exact Hx.
Qed.

End FloatFacts.

(** ** The error monad *)

Lemma bind_ok_inv {A B} (m : result A) (k : A -> result B) b :
  bind m k = inr b -> exists a, m = inr a /\ k a = inr b.
Proof. destruct m as [e|a]; simpl; [discriminate | eauto]. Qed.

Lemma bind_err_inv {A B} (m : result A) (k : A -> result B) e :
  bind m k = inl e -> m = inl e \/ exists a, m = inr a /\ k a = inl e.
Proof. destruct m as [e'|a]; simpl; [intros [= ->]; auto | eauto]. Qed.


(** ** Label import *)

Section LabelFacts.
Import LabelImport Vocabulary.

Lemma _to_float_raises v field path allow e :
  _to_float v field path allow = inl e -> is_LabelImportError e = true.
Proof.
  unfold _to_float. destruct v as [v|].
  - destruct (PyStr.is_empty (PyStr.strip v)).
    + destruct allow; simpl; [discriminate | intros [= <-]; reflexivity].
    + destruct (PyNum.float (PyStr.strip v)); simpl;
        [discriminate | intros [= <-]; reflexivity].
  - destruct allow; simpl; [discriminate | intros [= <-]; reflexivity].
Qed.

Lemma _to_int_raises v e :
  _to_int v = inl e -> is_LabelImportError e = true.
Proof.
  unfold _to_int. destruct v as [v|]; [|discriminate].
  destruct (PyStr.is_empty (PyStr.strip v)); [discriminate|].
  destruct (PyNum.int (PyStr.strip v)); simpl;
    [discriminate | intros [= <-]; reflexivity].
Qed.

(** Whatever a row raises is a [LabelImportError]. *)
Lemma label_of_row_raises fieldnames path default row e :
  label_of_row fieldnames path default row = inl e ->
  is_LabelImportError e = true.
Proof.
  unfold label_of_row, _to_float_required, _required_str. intros H.
  repeat
    match goal with
    | H : bind ?m _ = inl _ |- _ =>
        apply bind_err_inv in H; destruct H as [H | (? & _ & H)]
    | H : _to_float _ _ _ _ = inl _ |- _ =>
        apply _to_float_raises in H; exact H
    | H : _to_int _ = inl _ |- _ => apply _to_int_raises in H; exact H
    | H : (if ?b then _ else _) = inl _ |- _ => destruct b
    | H : match ?x with _ => _ end = inl _ |- _ => destruct x
    | H : ret _ = inl _ |- _ => discriminate H
    | H : raise _ = inl _ |- _ => injection H as <-; reflexivity
    end.
Qed.


End LabelFacts.


(** ** Registry import *)

Section RegistryFacts.
Import RegistryImport Vocabulary.
Context {RT : Runtime}.
Variable fs : filesystem.

(** Rows without a run id are left out, whatever else they hold. *)
Lemma map_rows_blank rows normalized h path idx default_tz :
  PyList.get normalized "runid" = Some h ->
  Forall (blank_run_id h) rows ->
  map_rows rows normalized path idx default_tz = inr [].
Proof.
  intros Hh Hrows. revert idx.
  induction Hrows as [|row rows Hrow _ IH]; intros idx; simpl; [reflexivity|].
  unfold _map_row, header_item. rewrite Hh. simpl.
  unfold blank_run_id in Hrow. rewrite Hrow. simpl.
  rewrite IH. reflexivity.
Qed.

(** A registry CSV with the required headers whose rows all lack a run id
    (in particular one with a header row only) parses to no entry. *)
Lemma csv_without_run_ids_has_no_entries path f names h sheet default_tz :
  PyStr.lower (PyPath.suffix path) = ".csv" ->
  fs path = Some f ->
  PyCsv.fieldnames (csv_records f) = Some names ->
  _validate_required_headers (map (fun x => (_normalize_header x, x)) names)
  = inr tt ->
  PyList.get (map (fun x => (_normalize_header x, x)) names) "runid" = Some h ->
  Forall (blank_run_id h) (PyCsv.rows (csv_records f)) ->
  parse_registry_file fs path sheet default_tz = inr [].
Proof.
  intros Hsuf Hfs Hnames Hval Hh Hrows.
  unfold parse_registry_file. rewrite Hsuf. simpl.
  unfold _parse_registry_csv. rewrite Hfs, Hnames, Hval. simpl.
  eapply map_rows_blank; eauto.
Qed.

(** C10. A registry file whose parsing yields no entry makes
    [import_run_registry] raise [RegistryImportError] instead of returning
    the count 0, and the database stays as it was. *)
Theorem C10_no_entries_raises (db : Storage.database)
  (file_path sheet default_tz : string) :
  parse_registry_file fs file_path sheet default_tz = inr [] ->
  import_run_registry fs db file_path sheet default_tz
  = (inl (RegistryImportError ("No registry rows found in " ++ file_path)), db).
Proof.
  intros H. unfold import_run_registry. rewrite H. reflexivity.
Qed.

End RegistryFacts.

Lemma C10_witness :
  RegistryImport.parse_registry_file (RT := Samples.rt_utc_plus_1)
    Samples.fs_registry "registry.csv" "test runs" "Etc/GMT-1" = inr []
  /\ RegistryImport.import_run_registry (RT := Samples.rt_utc_plus_1)
       Samples.fs_registry Samples.empty_db "registry.csv" "test runs"
       "Etc/GMT-1"
     = (inl (RegistryImportError "No registry rows found in registry.csv"),
        Samples.empty_db).
Proof.
  split; [reflexivity|].
  apply (C10_no_entries_raises (RT := Samples.rt_utc_plus_1)
           Samples.fs_registry Samples.empty_db "registry.csv" "test runs"
           "Etc/GMT-1").
  reflexivity.
Defined.

(** ** Ingestion of log files *)

Section IngestFacts.
Import Ingest Storage Vocabulary.
Context {RT : Runtime}.
Variable fs : filesystem.
Variables dev dia lay : string.
Variable run_notes : option string.
Variable default_tz : string.

Local Abbreviation ingest_file' p :=
  (ingest_file fs p dev dia lay run_notes default_tz).
Local Abbreviation ingest_loop' ps acc :=
  (ingest_loop fs ps acc dev dia lay run_notes default_tz).
Local Abbreviation ingest_logs' db ps :=
  (ingest_logs fs db ps dev dia lay run_notes default_tz).
Local Abbreviation metadata' name e rs :=
  (run_metadata dev dia lay run_notes name e rs).

Lemma last_opt_cons {A} (x : A) xs : exists y, PyList.last_opt (x :: xs) = Some y.
Proof.
  unfold PyList.last_opt. destruct (rev (x :: xs)) eqn:E; [|eauto].
  apply (f_equal (@List.length A)) in E. rewrite length_rev in E.
  discriminate E.
Qed.

(** What one round of the loop does, case by case. *)
Lemma ingest_file_spec (log_path : string) (c : connection) :
  let name := PyPath.name log_path in
  ingest_file' log_path c =
  match find (matches_log_file name) (run_registry (current c)) with
  | None =>
      (inl (IngestError ("No run_registry entry matches log file '" ++ name
                         ++ "'. Import/update the registry source first.")), c)
  | Some e =>
      match registry_run_id e with
      | Some linked =>
          (inl (IngestError ("run_registry entry for '" ++ name
                             ++ "' is already linked to run_id="
                             ++ PyStr.of_Z linked)), c)
      | None =>
          match _parse_log_file fs log_path default_tz with
          | inl err => (inl err, c)
          | inr [] =>
              (inl (IngestError ("No readings parsed from " ++ log_path)), c)
          | inr rs =>
              (inr (next_id (map run_row_id (runs (current c)))),
               clean (with_run (current c) e (metadata' name e rs) rs))
          end
      end
  end.
Proof.
  intros name. unfold ingest_file, find_by_log_file_ref, query, cbind.
  fold name. cbv beta iota.
  destruct (find (matches_log_file name) (run_registry (current c)))
    as [e|]; [|reflexivity].
  destruct (registry_run_id e) as [linked|]; [reflexivity|].
  unfold clift. destruct (_parse_log_file fs log_path default_tz) as [err|rs];
    [reflexivity|].
  destruct rs as [|r rs]; [reflexivity|].
  destruct (last_opt_cons r rs) as (y & Hy).
  unfold run_metadata. rewrite Hy. simpl PyList.first_opt. cbv beta iota.
  reflexivity.
Qed.

Lemma matches_refers name e :
  matches_log_file name e = true -> refers_to e name.
Proof.
  unfold matches_log_file, refers_to.
  destruct (log_file_ref (registry_entry e)) as [ref|]; [|discriminate].
  intros H. apply String.eqb_eq in H. eauto.
Qed.

Lemma keyed_rows_equal (rows : list registry_row) x y :
  NoDup (map registry_id rows) -> In x rows -> In y rows ->
  registry_id x = registry_id y -> x = y.
Proof.
  induction rows as [|r rows IH]; simpl; [contradiction|].
  intros Hnd Hx Hy Hid. inversion Hnd as [|? ? Hnotin Hnd']; subst.
  destruct Hx as [-> | Hx], Hy as [-> | Hy]; trivial.
  - exfalso. apply Hnotin. rewrite Hid. apply in_map. exact Hy.
  - exfalso. apply Hnotin. rewrite <- Hid. apply in_map. exact Hx.
  - apply IH; assumption.
Qed.

(** Storing a run touches no row that is linked already, and keeps the
    keys of the registry. *)
Lemma with_run_keeps_links db e metadata rs r linked :
  registry_keyed db ->
  In e (run_registry db) -> registry_run_id e = None ->
  In r (run_registry db) -> registry_run_id r = Some linked ->
  In r (run_registry (with_run db e metadata rs)).
Proof.
  intros Hkey He Hun Hr Hl. unfold with_run. simpl.
  apply in_map_iff. exists r. split; [|exact Hr].
  destruct (registry_id r =? registry_id e) eqn:E; [|reflexivity].
  apply Z.eqb_eq in E.
  assert (r = e) by (eapply keyed_rows_equal; eauto). subst. congruence.
Qed.

Lemma with_run_keyed db e metadata rs :
  registry_keyed db -> registry_keyed (with_run db e metadata rs).
Proof.
  unfold registry_keyed, with_run. simpl. rewrite map_map.
  intros H. erewrite map_ext; [exact H|].
  intros r. destruct (registry_id r =? registry_id e); reflexivity.
Qed.

Lemma with_run_links db e metadata rs :
  In e (run_registry db) ->
  In (linked_to e (next_id (map run_row_id (runs db))))
     (run_registry (with_run db e metadata rs)).
Proof.
  intros He. unfold with_run. simpl. apply in_map_iff. exists e.
  rewrite Z.eqb_refl. auto.
Qed.

(** One round on a connection without pending work ends on such a
    connection: it has committed its run, or it has changed nothing. *)
Lemma ingest_file_clean log_path db :
  exists db',
    snd (ingest_file' log_path (clean db)) = clean db'
    /\ (registry_keyed db -> registry_keyed db')
    /\ (registry_keyed db ->
        forall r linked,
          In r (run_registry db) -> registry_run_id r = Some linked ->
          In r (run_registry db'))
    /\ (is_ok (fst (ingest_file' log_path (clean db))) = false -> db' = db)
    /\ (is_ok (fst (ingest_file' log_path (clean db))) = true ->
        List.length (runs db') = S (List.length (runs db))).
Proof.
  rewrite ingest_file_spec. simpl current.
  destruct (find (matches_log_file (PyPath.name log_path)) (run_registry db))
    as [e|] eqn:Hfind.
  2:{ exists db. simpl. repeat split; auto. discriminate. }
  destruct (registry_run_id e) as [linked|] eqn:Hun.
  { exists db. simpl. repeat split; auto. discriminate. }
  destruct (_parse_log_file fs log_path default_tz) as [err|[|r0 rs]].
  { exists db. simpl. repeat split; auto. discriminate. }
  { exists db. simpl. repeat split; auto. discriminate. }
  apply find_some in Hfind. destruct Hfind as (He & _).
  eexists. split; [reflexivity|]. repeat split.
  - apply with_run_keyed.
  - intros Hkey r linked Hr Hl. eapply with_run_keeps_links; eauto.
  - discriminate.
  - intros _. unfold with_run. simpl. rewrite length_app. simpl. lia.
Qed.

(** The loop over a list of paths that is cut in two. *)
Lemma ingest_loop_app ps1 ps2 acc c :
  ingest_loop' (ps1 ++ ps2) acc c =
  match ingest_loop' ps1 acc c with
  | (inl e, c') => (inl e, c')
  | (inr ids, c') => ingest_loop' ps2 ids c'
  end.
Proof.
  revert acc c. induction ps1 as [|p ps1 IH]; intros acc c; simpl.
  - reflexivity.
  - unfold cbind. destruct (ingest_file' p c) as [[e|rid] c']; [reflexivity|].
    apply IH.
Qed.

(** The loop on a connection without pending work. *)
Lemma ingest_loop_clean ps acc db :
  exists db',
    snd (ingest_loop' ps acc (clean db)) = clean db'
    /\ (registry_keyed db ->
        forall r linked,
          In r (run_registry db) -> registry_run_id r = Some linked ->
          In r (run_registry db'))
    /\ (forall ids, fst (ingest_loop' ps acc (clean db)) = inr ids ->
        List.length ids = (List.length acc + List.length ps)%nat
        /\ List.length (runs db')
           = (List.length (runs db) + List.length ps)%nat).
Proof.
  revert acc db. induction ps as [|p ps IH]; intros acc db.
  - exists db. simpl. split; [reflexivity|]. split; [auto|].
    intros ids H. inversion H; subst. split; lia.
  - simpl. unfold cbind.
    destruct (ingest_file_clean p db) as (db1 & Hc & Hkey & Hlinks & Hfail & Hok).
    destruct (ingest_file' p (clean db)) as [[e|rid] c1] eqn:E; simpl in *.
    + exists db1. subst c1. repeat split; auto; discriminate.
    + subst c1.
      destruct (IH (acc ++ [rid])%list db1) as (db2 & Hc2 & Hlinks2 & Hcount).
      exists db2. split; [exact Hc2|]. split.
      * intros K r linked Hr Hl. apply (Hlinks2 (Hkey K) r linked); auto.
        apply (Hlinks K r linked); auto.
      * intros ids Hids. destruct (Hcount ids Hids) as (H1 & H2).
        rewrite length_app in H1. simpl in H1.
        specialize (Hok eq_refl). split; lia.
Qed.

Lemma refers_matches name e :
  refers_to e name -> matches_log_file name e = true.
Proof.
  unfold matches_log_file, refers_to. intros (ref & -> & <-).
  apply String.eqb_refl.
Qed.

(** A call with one path is one round of the loop. *)
Lemma ingest_logs_single db log_path :
  ingest_logs' db [log_path] =
  match ingest_file' log_path (clean db) with
  | (inl e, c) => (inl e, committed c)
  | (inr rid, c) => (inr [rid], current c)
  end.
Proof.
  unfold ingest_logs, with_connection. simpl. unfold cbind, cret.
  fold (clean db).
  destruct (ingest_file' log_path (clean db)) as [[e|rid] c]; reflexivity.
Qed.

(** Importing the registry again keeps a link: the row keeps its
    [registry_id] and its [run_id]. *)
Lemma upsert_row_keeps_links e rows fresh r rid :
  In r rows -> registry_run_id r = Some rid ->
  exists r', In r' (upsert_row e rows fresh)
             /\ registry_id r' = registry_id r
             /\ registry_run_id r' = Some rid.
Proof.
  induction rows as [|r0 rows IH]; intros Hin Hl; [destruct Hin|].
  simpl.
  destruct (String.eqb (reg_external_run_id (registry_entry r0))
                       (reg_external_run_id e)).
  - destruct Hin as [-> | Hin].
    + eexists. split; [left; reflexivity|]. simpl. auto.
    + exists r. split; [right; exact Hin|auto].
  - destruct Hin as [-> | Hin].
    + exists r. split; [left; reflexivity|auto].
    + destruct (IH Hin Hl) as (r' & Hr' & Hid & Hrun).
      exists r'. split; [right; exact Hr'|auto].
Qed.

Lemma upsert_entries_keeps_links entries : forall rows r rid,
  In r rows -> registry_run_id r = Some rid ->
  exists r', In r' (fold_left upsert_one entries rows)
             /\ registry_id r' = registry_id r
             /\ registry_run_id r' = Some rid.
Proof.
  induction entries as [|e entries IH]; intros rows r rid Hin Hl.
  - exists r. auto.
  - simpl.
    destruct (upsert_row_keeps_links e rows
                (next_id (map registry_id rows)) r rid Hin Hl)
      as (r1 & H1 & Hid1 & Hrun1).
    destruct (IH _ r1 rid H1 Hrun1) as (r2 & H2 & Hid2 & Hrun2).
    exists r2. split; [exact H2|]. split; congruence.
Qed.

(** C1. A call of [ingest_logs] on one log file creates a run only when a
    registry row exists whose trimmed [log_file_ref] is the base name of the
    file and whose [run_id] is null, and links the run to that row. When no
    such row exists the call raises [IngestError] and leaves the database as
    it was. When the row that matches is linked already, the error names the
    linked run id. Whatever files a call ingests, a row that is linked
    stays linked to the same run, so no row is ever linked to two runs. *)
Theorem C1_run_needs_unlinked_entry (db : database) (log_path : string) :
  registry_keyed db ->
  let name := PyPath.name log_path in
  (forall ids db',
      ingest_logs' db [log_path] = (inr ids, db') ->
      exists e rid,
        In e (run_registry db) /\ refers_to e name
        /\ registry_run_id e = None
        /\ ids = [rid]
        /\ In (linked_to e rid) (run_registry db')
        /\ List.length (runs db') = S (List.length (runs db)))
  /\ ((forall e, In e (run_registry db) -> refers_to e name ->
                registry_run_id e <> None) ->
      exists msg, ingest_logs' db [log_path] = (inl (IngestError msg), db))
  /\ (forall e linked,
        find (matches_log_file name) (run_registry db) = Some e ->
        registry_run_id e = Some linked ->
        ingest_logs' db [log_path]
        = (inl (IngestError ("run_registry entry for '" ++ name
                             ++ "' is already linked to run_id="
                             ++ PyStr.of_Z linked)), db))
  /\ (forall log_paths r linked,
        In r (run_registry db) -> registry_run_id r = Some linked ->
        In r (run_registry (snd (ingest_logs' db log_paths)))).
Proof.
  intros Hkey name. repeat split.
  - intros ids db'. rewrite ingest_logs_single, ingest_file_spec.
    fold name. simpl current.
    destruct (find (matches_log_file name) (run_registry db)) as [e|] eqn:Hf;
      [|discriminate].
    destruct (registry_run_id e) as [linked|] eqn:Hun; [discriminate|].
    destruct (_parse_log_file fs log_path default_tz) as [err|[|r0 rs]];
      try discriminate.
    intros H. inversion H; subst. clear H.
    apply find_some in Hf. destruct Hf as (He & Hm).
    exists e, (next_id (map run_row_id (runs db))).
    repeat split; auto.
    + apply matches_refers. exact Hm.
    + apply with_run_links. exact He.
    + unfold with_run. simpl. rewrite length_app. simpl. lia.
  - intros Hnone. rewrite ingest_logs_single, ingest_file_spec.
    fold name. simpl current.
    destruct (find (matches_log_file name) (run_registry db)) as [e|] eqn:Hf.
    + apply find_some in Hf. destruct Hf as (He & Hm).
      destruct (registry_run_id e) as [linked|] eqn:Hun.
      * eexists. reflexivity.
      * exfalso. apply (Hnone e He); [apply matches_refers; exact Hm | exact Hun].
    + eexists. reflexivity.
  - intros e linked Hf Hl. rewrite ingest_logs_single, ingest_file_spec.
    fold name. simpl current. rewrite Hf, Hl. reflexivity.
  - intros log_paths r linked Hr Hl. unfold ingest_logs, with_connection.
    fold (clean db).
    destruct (ingest_loop_clean log_paths [] db) as (db' & Hc & Hlinks & _).
    destruct (ingest_loop' log_paths [] (clean db)) as [[e|ids] c'];
      simpl in *; subst c'; simpl; eapply Hlinks; eauto.
Qed.

(** C7. [ingest_logs] takes the files one after the other and commits after
    each one. When a file fails after the files before it were ingested, the
    call raises and returns no list of run ids, and the database is the one
    that the call on the earlier files alone leaves: one committed run for
    each of them. *)
Theorem C7_failure_keeps_earlier_commits (db db1 : database)
  (paths1 paths2 : list string) (p : string) (ids : list Z) (e : exn) :
  ingest_logs' db paths1 = (inr ids, db1) ->
  fst (ingest_logs' db1 [p]) = inl e ->
  ingest_logs' db (paths1 ++ p :: paths2)%list = (inl e, db1)
  /\ List.length ids = List.length paths1
  /\ List.length (runs db1)
     = (List.length (runs db) + List.length paths1)%nat.
Proof.
  intros H1 Hp.
  unfold ingest_logs, with_connection in H1 |- *. fold (clean db) in *.
  rewrite ingest_loop_app.
  destruct (ingest_loop_clean paths1 [] db) as (db' & Hc & _ & Hcount).
  destruct (ingest_loop' paths1 [] (clean db)) as [[e1|ids1] c1] eqn:E1;
    simpl in *; [discriminate|].
  subst c1. simpl in H1. inversion H1; subst ids1 db'. clear H1.
  destruct (Hcount ids eq_refl) as (Hids & Hruns). simpl in Hids.
  rewrite ingest_logs_single in Hp.
  destruct (ingest_file_clean p db1) as (db2 & Hc2 & _ & _ & Hfail & _).
  simpl. unfold cbind at 1.
  destruct (ingest_file' p (clean db1)) as [[e2|rid] c2] eqn:E2;
    simpl in *; [|discriminate].
  inversion Hp; subst e2. subst c2.
  rewrite (Hfail eq_refl). simpl. auto.
Qed.

End IngestFacts.

Lemma C1_witness :
  Vocabulary.registry_keyed Samples.db_one_linked
  /\ Ingest.ingest_logs (RT := Samples.rt_utc_plus_1) Samples.fs_logs
       Samples.db_one_linked ["logs/run1.csv"] "LUNA-001" "infant" "front"
       None "Etc/GMT-1"
     = (inl (IngestError
               "run_registry entry for 'run1.csv' is already linked to run_id=5"),
        Samples.db_one_linked).
Proof.
  assert (K : Vocabulary.registry_keyed Samples.db_one_linked).
  { unfold Vocabulary.registry_keyed. simpl.
    repeat constructor; simpl; intuition discriminate. }
  split; [exact K|].
  exact (proj1 (proj2 (proj2
           (C1_run_needs_unlinked_entry (RT := Samples.rt_utc_plus_1)
              Samples.fs_logs "LUNA-001" "infant" "front" None "Etc/GMT-1"
              Samples.db_one_linked "logs/run1.csv" K)))
           _ 5 eq_refl eq_refl).
Defined.

Lemma C7_witness :
  Ingest.ingest_logs (RT := Samples.rt_utc_plus_1) Samples.fs_logs
    Samples.db_one_linked ["logs/run2.csv"; "logs/run3.csv"; "logs/run1.csv"]
    "LUNA-001" "infant" "front" None "Etc/GMT-1"
  = (inl (IngestError
            "No run_registry entry matches log file 'run3.csv'. Import/update the registry source first."),
     snd (Ingest.ingest_logs (RT := Samples.rt_utc_plus_1) Samples.fs_logs
            Samples.db_one_linked ["logs/run2.csv"] "LUNA-001" "infant"
            "front" None "Etc/GMT-1"))
  /\ List.length [6] = List.length ["logs/run2.csv"]
  /\ List.length
       (Storage.runs
          (snd (Ingest.ingest_logs (RT := Samples.rt_utc_plus_1)
                  Samples.fs_logs Samples.db_one_linked ["logs/run2.csv"]
                  "LUNA-001" "infant" "front" None "Etc/GMT-1")))
     = (List.length (Storage.runs Samples.db_one_linked)
        + List.length ["logs/run2.csv"])%nat.
Proof.
  apply (C7_failure_keeps_earlier_commits (RT := Samples.rt_utc_plus_1)
           Samples.fs_logs "LUNA-001" "infant" "front" None "Etc/GMT-1"
           Samples.db_one_linked
           (snd (Ingest.ingest_logs (RT := Samples.rt_utc_plus_1)
                   Samples.fs_logs Samples.db_one_linked ["logs/run2.csv"]
                   "LUNA-001" "infant" "front" None "Etc/GMT-1"))
           ["logs/run2.csv"] ["logs/run1.csv"] "logs/run3.csv" [6]).
  - reflexivity.
  - reflexivity.
Defined.

(** ** [list.sort] on the elapsed times *)

Section SortFacts.
Import PyList Vocabulary FloatFacts.

Local Abbreviation lt_elapsed :=
  (fun a b : ReadingSample => (t_elapsed_s a <? t_elapsed_s b)%float).

Lemma insert_by_perm (x : ReadingSample) l :
  Permutation (insert_by lt_elapsed x l) (x :: l).
Proof.
  induction l as [|y l IH]; simpl; [apply Permutation_refl|].
  destruct (t_elapsed_s y <? t_elapsed_s x)%float.
  - eapply Permutation_trans; [apply perm_skip, IH | apply perm_swap].
  - apply Permutation_refl.
Qed.

Lemma sort_key_perm (l : list ReadingSample) :
  Permutation l (sort_key t_elapsed_s l).
Proof.
  unfold sort_key. induction l as [|x l IH]; simpl; [constructor|].
  eapply Permutation_trans; [apply perm_skip, IH|].
  apply Permutation_sym, insert_by_perm.
Qed.







Lemma elapsed_le_antisym a b :
  elapsed_le a b -> elapsed_le b a ->
  (t_elapsed_s a =? t_elapsed_s b)%float = true.
Proof.
  unfold elapsed_le. rewrite !leb_rk, eqb_rk.
  intros (x & y & Hx & Hy & H1) (y' & x' & Hy' & Hx' & H2).
  assert (x' = x) by congruence. assert (y' = y) by congruence. subst.
  destruct (FloatOrder.lex x y) eqn:E.
  - apply lex_Eq in E. subst. eauto.
  - exfalso. apply H2, lex_Gt. exact E.
  - contradiction.
Qed.

Lemma elapsed_eqb_refl a b :
  elapsed_le a b -> (t_elapsed_s a =? t_elapsed_s a)%float = true.
Proof.
  unfold elapsed_le. rewrite leb_rk, eqb_rk. intros (x & y & Hx & _). eauto.
Qed.

Lemma sorted_head_least x l y :
  sorted_by_elapsed (x :: l) -> In y l -> elapsed_le x y.
Proof.
  unfold sorted_by_elapsed. intros H Hy. inversion H as [|? ? _ Hx]; subst.
  rewrite Forall_forall in Hx. auto.
Qed.

(** Two sorted arrangements of the same readings that keep the equal keys
    in the same order are the same list: whatever stable sort the run
    time uses, it returns what [sort_key] returns when no key is a NaN. *)
Lemma stable_sorted_unique (l1 l2 : list ReadingSample) :
  Permutation l1 l2 -> sorted_by_elapsed l1 -> sorted_by_elapsed l2 ->
  keeps_order_of_equals l1 l2 -> l1 = l2.
Proof.
  revert l2. induction l1 as [|x l1 IH]; intros l2 P S1 S2 K.
  - apply Permutation_nil in P. auto.
  - destruct l2 as [|y l2];
      [apply Permutation_sym, Permutation_nil in P; discriminate|].
    assert (x = y).
    { assert (Hy : In y (x :: l1))
        by (eapply Permutation_in; [apply Permutation_sym; exact P | left; auto]).
      assert (Hx : In x (y :: l2))
        by (eapply Permutation_in; [exact P | left; auto]).
      destruct Hy as [Hy | Hy]; [exact Hy|].
      destruct Hx as [Hx | Hx]; [symmetry; exact Hx|].
      pose proof (sorted_head_least _ _ y S1 Hy) as L1.
      pose proof (sorted_head_least _ _ x S2 Hx) as L2.
      pose proof (elapsed_le_antisym _ _ L1 L2) as Exy.
      pose proof (elapsed_le_antisym _ _ L2 L1) as Eyx.
      pose proof (elapsed_eqb_refl _ _ L1) as Exx.
      pose proof (K (t_elapsed_s x)) as Kx. simpl in Kx.
      unfold has_elapsed in Kx. rewrite Exx, Eyx in Kx. congruence. }
    subst y. f_equal. apply IH.
    + eapply Permutation_cons_inv; eauto.
    + unfold sorted_by_elapsed in *. inversion S1; assumption.
    + unfold sorted_by_elapsed in *. inversion S2; assumption.
    + intros k. pose proof (K k) as Kk. simpl in Kk.
      destruct (has_elapsed k x); congruence.
Qed.

End SortFacts.

(** ** The free-text device log *)

Section DeviceFacts.
Import Ingest PyDatetime Vocabulary FloatFacts.
Context {RT : Runtime}.
Variable fs : filesystem.

Lemma make_inv y mo d h mi s tzi dt :
  make y mo d h mi s tzi = inr dt ->
  fields dt = {| year := y; month := mo; day := d; hour := h; minute := mi;
                 second := s; microsecond := 0 |}
  /\ tz dt = tzi.
Proof.
  unfold make.
  repeat match goal with
         | |- (if ?b then _ else _) = _ -> _ => destruct b; [discriminate|]
         end.
  intros [= <-]. split; reflexivity.
Qed.

Lemma wall_us_whole n : microsecond n = 0 -> wall_us n mod us_per_second = 0.
Proof.
  intros H. unfold wall_us, us_per_day, us_per_second. rewrite H.
  rewrite Z.add_0_r.
  replace (ymd2ord (year n) (month n) (day n) * 86400000000
           + (hour n * 3600 + minute n * 60 + second n) * 1000000)
    with ((ymd2ord (year n) (month n) (day n) * 86400
           + (hour n * 3600 + minute n * 60 + second n)) * 1000000) by lia.
  apply Z.mod_mul. discriminate.
Qed.

(** The elapsed time between two datetimes of whole seconds is the float
    of an integer. *)
Lemma total_seconds_whole a b :
  microsecond (fields a) = 0 -> microsecond (fields b) = 0 ->
  total_seconds (sub_same_tzinfo a b)
  = PyNum.float_of_int (sub_same_tzinfo a b / us_per_second).
Proof.
  intros Ha Hb. unfold total_seconds, sub_same_tzinfo.
  replace ((wall_us (fields a) - wall_us (fields b)) mod us_per_second) with 0.
  - reflexivity.
  - symmetry. rewrite Zminus_mod, (wall_us_whole _ Ha), (wall_us_whole _ Hb).
    reflexivity.
Qed.



(** Lines that do not match the pattern add no reading. *)
Lemma device_readings_skip tzi line rest base_dt :
  PyRe.search _TEMP_HUMID_PATTERN line = None ->
  device_readings tzi (line :: rest) base_dt = device_readings tzi rest base_dt.
Proof. intros H. simpl. rewrite H. reflexivity. Qed.

Lemma float_of_int_0 : PyNum.float_of_int 0 = 0%float.
Proof. reflexivity. Qed.



(** With a fixed offset the wall clock difference is the difference of the
    instants. *)
Lemma fixed_offset_is_instant_difference a b tzi off :
  tz a = Some tzi -> tz b = Some tzi ->
  (forall n, utcoffset tzi n = off) ->
  sub_same_tzinfo a b = instant_us a - instant_us b.
Proof.
  intros Ha Hb Hoff. unfold sub_same_tzinfo, instant_us.
  rewrite Ha, Hb, !Hoff. lia.
Qed.

End DeviceFacts.

(** C5, at a log that spans the start of summer time and carries no time
    zone hint: the first sample has the elapsed time 0 and the line that does
    not match adds no reading, but the second sample, whose instant is one
    second after the instant of the first one (as its own [timestamp]
    shows), has the elapsed time 3601: the difference is taken on the wall
    clock fields. *)
Theorem C5_elapsed_over_dst_switch :
  Ingest._parse_device_log (RT := Samples.rt_berlin) Samples.fs_dst "dst.log"
    "Europe/Berlin"
  = inr [ {| t_elapsed_s := 0; temp_c := Some 21.5%float;
             rh_pct := Some 40%float;
             timestamp := Some "2026-03-29T01:59:59+01:00";
             sensor_id := None |};
          {| t_elapsed_s := 3601; temp_c := Some 21.5%float;
             rh_pct := Some 40%float;
             timestamp := Some "2026-03-29T03:00:00+02:00";
             sensor_id := None |} ]
  /\ exists a b,
      PyDatetime.make 2026 3 29 1 59 59 (Some Samples.berlin_2026) = inr a
      /\ PyDatetime.make 2026 3 29 3 0 0 (Some Samples.berlin_2026) = inr b
      /\ PyDatetime.instant_us b - PyDatetime.instant_us a
         = 1 * PyDatetime.us_per_second.
Proof.
  split; [vm_compute; reflexivity|].
  eexists. eexists. split; [reflexivity|]. split; [reflexivity|].
  vm_compute. reflexivity.
Qed.

(** ** The order of the parsed readings *)

Section ParsedOrder.
Import Ingest Vocabulary.
Context {RT : Runtime}.
Variable fs : filesystem.


End ParsedOrder.



(** ** The sampling interval *)

Section IntervalFacts.
Import Ingest Vocabulary.

Lemma _estimate_deltas_cons a b tl :
  _estimate_deltas (a :: b :: tl) =
  if (t_elapsed_s a <=? t_elapsed_s b)%float
  then (t_elapsed_s b - t_elapsed_s a)%float :: _estimate_deltas (b :: tl)
  else _estimate_deltas (b :: tl).
Proof. reflexivity. Qed.

Lemma _estimate_deltas_spec rs :
  _estimate_deltas rs = deltas_in_order rs.
Proof.
  unfold deltas_in_order.
  induction rs as [|a rs IH]; [reflexivity|].
  destruct rs as [|b rs]; [reflexivity|].
  rewrite _estimate_deltas_cons, IH.
  change (consecutive (map t_elapsed_s (a :: b :: rs)))
    with ((t_elapsed_s a, t_elapsed_s b)
            :: consecutive (map t_elapsed_s (b :: rs))).
  cbn [filter fst snd].
  destruct (t_elapsed_s a <=? t_elapsed_s b)%float; reflexivity.
Qed.

(** The interval, case by case. *)
Lemma _estimate_sampling_interval_cases rs :
  _estimate_sampling_interval rs =
  if Nat.ltb (List.length rs) 2 then None
  else match deltas_in_order rs with
       | [] => None
       | _ :: _ => Some (mean (deltas_in_order rs))
       end.
Proof.
  unfold _estimate_sampling_interval, mean. rewrite _estimate_deltas_spec.
  destruct (Nat.ltb (List.length rs) 2); [reflexivity|].
  destruct (deltas_in_order rs); reflexivity.
Qed.

Lemma all_deltas_length rs :
  List.length (all_deltas rs) = (List.length rs - 1)%nat.
Proof.
  unfold all_deltas. rewrite length_map.
  induction rs as [|a rs IH]; [reflexivity|].
  destruct rs as [|b rs]; [reflexivity|].
  change (consecutive (map t_elapsed_s (a :: b :: rs)))
    with ((t_elapsed_s a, t_elapsed_s b)
            :: consecutive (map t_elapsed_s (b :: rs))).
  simpl List.length in *. rewrite IH. lia.
Qed.

(** When no two neighbours have the same infinity as elapsed time, the
    pairs that the filter keeps are the pairs whose difference is zero or
    above. *)
Lemma _estimate_deltas_non_negative rs :
  no_repeated_infinity rs -> _estimate_deltas rs = non_negative_deltas rs.
Proof.
  unfold non_negative_deltas, all_deltas, no_repeated_infinity.
  induction rs as [|a rs IH]; intros H; [reflexivity|].
  destruct rs as [|b rs]; [reflexivity|].
  change (consecutive (map t_elapsed_s (a :: b :: rs)))
    with ((t_elapsed_s a, t_elapsed_s b)
            :: consecutive (map t_elapsed_s (b :: rs))) in *.
  inversion H as [|? ? Hab H']; subst.
  rewrite _estimate_deltas_cons, (IH H').
  cbn [map filter fst snd] in *.
  rewrite (FloatFacts.leb_sub _ _ Hab).
  destruct (0 <=? t_elapsed_s b - t_elapsed_s a)%float; reflexivity.
Qed.

Lemma non_negative_deltas_length rs :
  (List.length (non_negative_deltas rs) <= List.length rs)%nat.
Proof.
  unfold non_negative_deltas.
  eapply Nat.le_trans; [apply filter_length_le|].
  rewrite all_deltas_length. lia.
Qed.

(** The average of differences that are zero or above is zero or above,
    and so not a NaN. *)
Lemma mean_of_non_negative_deltas_at_least_zero rs :
  Z.of_nat (List.length rs) <= maxsize ->
  non_negative_deltas rs <> [] ->
  (0 <=? mean (non_negative_deltas rs))%float = true.
Proof.
  intros Hn Hne. unfold mean.
  apply FloatFacts.div_count_at_least_zero.
  - apply FloatFacts.sum_at_least_zero. unfold non_negative_deltas.
    apply Forall_forall. intros d Hd. apply filter_In in Hd. apply Hd.
  - pose proof (non_negative_deltas_length rs) as L.
    destruct (non_negative_deltas rs); [contradiction|].
    unfold maxsize in Hn. simpl List.length in *. lia.
Qed.

(** C2, as amended. For readings of which no two neighbours have the same
    infinity as elapsed time, the sampling interval is null when there are
    fewer than two readings and when no difference of neighbours is zero or
    above; in every other case it is the average (the float sum over the
    count) of the differences of neighbours that are zero or above, and it
    is zero or above itself, so not negative and not a NaN. (It is not
    always positive, and after two equal infinities it need not be null
    where no such difference exists: see [C2_zero_and_nan_intervals].) *)
Theorem C2_interval_is_mean_of_non_negative_deltas (rs : list ReadingSample) :
  no_repeated_infinity rs ->
  (_estimate_sampling_interval rs = None
   <-> (List.length rs < 2)%nat \/ non_negative_deltas rs = [])
  /\ ((2 <= List.length rs)%nat -> non_negative_deltas rs <> [] ->
      _estimate_sampling_interval rs = Some (mean (non_negative_deltas rs)))
  /\ (Z.of_nat (List.length rs) <= maxsize ->
      forall x, _estimate_sampling_interval rs = Some x ->
                (0 <=? x)%float = true).
Proof.
  intros Hinf.
  unfold _estimate_sampling_interval.
  rewrite (_estimate_deltas_non_negative rs Hinf).
  fold (mean (non_negative_deltas rs)).
  destruct (Nat.ltb_spec (List.length rs) 2) as [Hlt|Hge].
  - split; [split; auto | split; [intros; lia | discriminate]].
  - destruct (non_negative_deltas rs) as [|d ds] eqn:E.
    + split; [split; auto | split; [congruence | discriminate]].
    + split; [|split; [reflexivity|]].
      * split; [discriminate | intros [H|H]; [lia | discriminate]].
      * intros Hn x [= <-]. rewrite <- E.
        apply mean_of_non_negative_deltas_at_least_zero; [exact Hn|].
        rewrite E. discriminate.
Qed.

Lemma sorted_deltas_all rs :
  sorted_by_elapsed rs -> deltas_in_order rs = all_deltas rs.
Proof.
  unfold deltas_in_order, all_deltas, sorted_by_elapsed.
  intros H. f_equal. induction H as [|a rs Hs IH Ha]; [reflexivity|].
  destruct rs as [|b rs]; [reflexivity|].
  change (consecutive (map t_elapsed_s (a :: b :: rs)))
    with ((t_elapsed_s a, t_elapsed_s b)
            :: consecutive (map t_elapsed_s (b :: rs))).
  simpl filter. inversion Ha as [|? ? Hab _]; subst.
  unfold elapsed_le in Hab. simpl fst. simpl snd. rewrite Hab.
  f_equal. exact IH.
Qed.

(** In exact arithmetic the differences of the neighbours add up to the
    last value minus the first one. *)
Lemma consecutive_differences_telescope (x : Z) (l : list Z) :
  fold_right Z.add 0%Z
    (map (fun p => (snd p - fst p)%Z) (consecutive (x :: l)))
  = (List.last l x - x)%Z.
Proof.
  assert (D : forall (l : list Z) z d d',
             List.last (z :: l) d = List.last (z :: l) d').
  { clear. intros l. induction l as [|a l IHl]; intros z d d';
      [reflexivity|].
    change (List.last (a :: l) d = List.last (a :: l) d'). apply IHl. }
  revert x. induction l as [|y l IH]; intros x.
  - simpl. lia.
  - change (consecutive (x :: y :: l)) with ((x, y) :: consecutive (y :: l)).
    cbn [map fold_right fst snd]. rewrite IH.
    destruct l as [|z l]; [simpl; lia|].
    change (List.last (y :: z :: l) x) with (List.last (z :: l) x).
    rewrite (D l z y x). lia.
Qed.

(** C8, as amended. For readings sorted non-decreasing by [t_elapsed_s], two
    of them at least, the sampling interval is never null: every one of
    the [n - 1] differences of neighbours enters the average, and the
    interval is the float sum of them over [n - 1]. (In exact arithmetic
    that is [(last - first) / (n - 1)]; in binary64 it need not be: see
    [C8_mean_is_not_endpoint_slope].) *)
Theorem C8_sorted_interval_is_mean_of_all_deltas (rs : list ReadingSample) :
  sorted_by_elapsed rs -> (2 <= List.length rs)%nat ->
  _estimate_sampling_interval rs = Some (mean (all_deltas rs))
  /\ List.length (all_deltas rs) = (List.length rs - 1)%nat.
Proof.
  intros Hs Hn. split; [|apply all_deltas_length].
  rewrite _estimate_sampling_interval_cases, (sorted_deltas_all rs Hs).
  destruct (Nat.ltb_spec (List.length rs) 2) as [Hlt|_]; [lia|].
  destruct (all_deltas rs) as [|d0 ds] eqn:E; [|reflexivity].
  apply (f_equal (@List.length float)) in E.
  rewrite all_deltas_length in E. simpl in E. lia.
Qed.

End IntervalFacts.

Lemma C2_witness :
  (Ingest._estimate_sampling_interval
     [Samples.reading 0 25 50; Samples.reading 10 25.5 51;
      Samples.reading 5 25.5 51] = None
   <-> (List.length
          [Samples.reading 0 25 50; Samples.reading 10 25.5 51;
           Samples.reading 5 25.5 51] < 2)%nat
       \/ Vocabulary.non_negative_deltas
            [Samples.reading 0 25 50; Samples.reading 10 25.5 51;
             Samples.reading 5 25.5 51] = [])
  /\ ((2 <= List.length
               [Samples.reading 0 25 50; Samples.reading 10 25.5 51;
                Samples.reading 5 25.5 51])%nat ->
      Vocabulary.non_negative_deltas
        [Samples.reading 0 25 50; Samples.reading 10 25.5 51;
         Samples.reading 5 25.5 51] <> [] ->
      Ingest._estimate_sampling_interval
        [Samples.reading 0 25 50; Samples.reading 10 25.5 51;
         Samples.reading 5 25.5 51]
      = Some (Vocabulary.mean
                (Vocabulary.non_negative_deltas
                   [Samples.reading 0 25 50; Samples.reading 10 25.5 51;
                    Samples.reading 5 25.5 51])))
  /\ (Z.of_nat
        (List.length
           [Samples.reading 0 25 50; Samples.reading 10 25.5 51;
            Samples.reading 5 25.5 51]) <= Vocabulary.maxsize ->
      forall x,
        Ingest._estimate_sampling_interval
          [Samples.reading 0 25 50; Samples.reading 10 25.5 51;
           Samples.reading 5 25.5 51] = Some x ->
        (0 <=? x)%float = true).
Proof.
  apply (C2_interval_is_mean_of_non_negative_deltas
           [Samples.reading 0 25 50; Samples.reading 10 25.5 51;
            Samples.reading 5 25.5 51]).
  unfold Vocabulary.no_repeated_infinity. repeat constructor.
Defined.

(** The elapsed times 0, 10 and 5 have the differences 10 and -5: the
    interval is the 10 alone. *)
Lemma one_delta_goes_back :
  Vocabulary.non_negative_deltas
    [Samples.reading 0 25 50; Samples.reading 10 25.5 51;
     Samples.reading 5 25.5 51] = [10%float]
  /\ Ingest._estimate_sampling_interval
       [Samples.reading 0 25 50; Samples.reading 10 25.5 51;
        Samples.reading 5 25.5 51] = Some 10%float.
Proof. split; reflexivity. Qed.

(** One infinity among the elapsed times does no harm: from 0 to [inf]
    the difference is [inf], which is above zero, and so is the interval. *)
Lemma one_infinity_is_averaged :
  Vocabulary.no_repeated_infinity
    [Samples.reading 0 25 50; Samples.reading infinity 25.5 51]
  /\ Vocabulary.non_negative_deltas
       [Samples.reading 0 25 50; Samples.reading infinity 25.5 51]
     = [infinity]
  /\ Ingest._estimate_sampling_interval
       [Samples.reading 0 25 50; Samples.reading infinity 25.5 51]
     = Some infinity.
Proof.
  split; [|split; reflexivity].
  unfold Vocabulary.no_repeated_infinity. repeat constructor.
Qed.

(** C2, as stated, fails twice. Two readings with the same elapsed time
    have a non-negative difference, and the interval is 0, which is not
    positive. And the structured log whose two rows have the elapsed time
    ["inf"] is accepted; the difference of its readings is a NaN, so there
    is no non-negative difference, yet the interval is not null: the filter
    of the code keeps the pair, for inf <= inf, and the interval is the
    NaN. *)
Lemma C2_zero_and_nan_intervals :
  (Ingest._estimate_sampling_interval
     [Samples.reading 5 25 50; Samples.reading 5 25 50] = Some 0%float
   /\ (0 <? 0)%float = false)
  /\ (Ingest._parse_log_file (RT := Samples.rt_utc_plus_1) Samples.fs_inf
        "inf.csv" "Etc/GMT-1"
      = inr [Samples.reading infinity 25 50; Samples.reading infinity 25.5 51]
      /\ Vocabulary.non_negative_deltas
           [Samples.reading infinity 25 50; Samples.reading infinity 25.5 51]
         = []
      /\ exists x,
          Ingest._estimate_sampling_interval
            [Samples.reading infinity 25 50;
             Samples.reading infinity 25.5 51] = Some x
          /\ is_nan x = true).
Proof.
  split; [split; reflexivity|].
  split; [vm_compute; reflexivity|]. split; [reflexivity|].
  eexists. split; reflexivity.
Qed.

Lemma C8_witness :
  Vocabulary.sorted_by_elapsed
    [Samples.reading 0 25 50; Samples.reading 10 25.5 51]
  /\ Ingest._estimate_sampling_interval
       [Samples.reading 0 25 50; Samples.reading 10 25.5 51]
     = Some (Vocabulary.mean
               (Vocabulary.all_deltas
                  [Samples.reading 0 25 50; Samples.reading 10 25.5 51]))
  /\ List.length
       (Vocabulary.all_deltas
          [Samples.reading 0 25 50; Samples.reading 10 25.5 51])
     = (List.length [Samples.reading 0 25 50; Samples.reading 10 25.5 51]
        - 1)%nat.
Proof.
  assert (S : Vocabulary.sorted_by_elapsed
                [Samples.reading 0 25 50; Samples.reading 10 25.5 51]).
  { unfold Vocabulary.sorted_by_elapsed.
    repeat constructor; reflexivity. }
  split; [exact S|].
  apply (C8_sorted_interval_is_mean_of_all_deltas
           [Samples.reading 0 25 50; Samples.reading 10 25.5 51] S).
  simpl. lia.
Defined.

(** C8, as stated, fails: the structured log with the elapsed times 0, 0.2
    and 0.9 is parsed to three sorted readings whose sampling interval, the
    average of 0.2 and 0.9 - 0.2, is not [(0.9 - 0) / 2]. *)
Lemma C8_mean_is_not_endpoint_slope :
  match Ingest._parse_log_file (RT := Samples.rt_utc_plus_1) Samples.fs_tenths
          "tenths.csv" "Etc/GMT-1" with
  | inr rs =>
      Vocabulary.sorted_by_elapsed rs
      /\ List.length rs = 3%nat
      /\ exists x y,
          Ingest._estimate_sampling_interval rs = Some x
          /\ Vocabulary.endpoint_slope rs = Some y
          /\ (x =? y)%float = false
  | inl _ => False
  end.
Proof.
  vm_compute Ingest._parse_log_file.
  split; [|split; [reflexivity|]].
  - unfold Vocabulary.sorted_by_elapsed. repeat constructor; reflexivity.
  - eexists. eexists. split; [reflexivity|]. split; [reflexivity|].
    vm_compute. reflexivity.
Qed.

(** ** Time stamps *)

Section TimestampFacts.
Import PyDatetime Vocabulary.
Context {RT : Runtime}.

(** What the ingest path returns is what [fromisoformat] read, and what
    [fromisoformat] rejects is an error: no other reading of the text is
    tried. *)
Lemma ingest_timestamp_is_iso_only (v default_tz path : string) :
  (forall text,
      Ingest._normalize_timestamp (Some v) default_tz path = inr (Some text) ->
      exists d,
        fromisoformat (Ingest.iso_input v) = Some d
        /\ (text = isoformat d
            \/ exists tzi, ZoneInfo default_tz = Some tzi
                           /\ text = isoformat (replace_tzinfo d tzi)))
  /\ (fromisoformat (Ingest.iso_input v) = None ->
      Ingest._normalize_timestamp (Some v) default_tz path
      = inl (IngestError ("Invalid timestamp '" ++ v ++ "' in " ++ path))).
Proof.
  unfold Ingest._normalize_timestamp, Ingest._tz_from_name. split.
  - intros text.
    destruct (fromisoformat (Ingest.iso_input v)) as [d|]; [|discriminate].
    destruct (tz d).
    + intros [= <-]. exists d. auto.
    + destruct (ZoneInfo default_tz) as [tzi|]; [|discriminate].
      intros [= <-]. exists d. split; [reflexivity|]. right. eauto.
  - intros ->. reflexivity.
Qed.

(** C3, as amended. In registry import, a time stamp text that [float]
    reads as a number above 1000 is taken as the serial date of a spread
    sheet: when 1899-12-30T00:00:00 plus that many days ([timedelta] turns
    the fraction of a day into time of day) is a date that [datetime] can
    hold, the result is that date and time with the offset of the default
    time zone attached, in ISO format. Log ingest has no such rule: the
    text that is a serial date for the registry goes to [fromisoformat]
    like every other text, and is an [IngestError] when that rejects it. *)
Theorem C3_serial_date_from_1899_12_30 (v default_tz : string)
  (tzi : tzinfo) (numeric : float) (delta : timedelta) (dt_value : datetime)
  (path : string) :
  ZoneInfo default_tz = Some tzi ->
  PyNum.float v = Some numeric ->
  (1000 <? numeric)%float = true ->
  timedelta_of_days numeric = inr delta ->
  add RegistryImport.serial_base delta = inr dt_value ->
  RegistryImport._normalize_timestamp (Some v) default_tz
  = inr (Some (isoformat (replace_tzinfo dt_value tzi)))
  /\ isoformat RegistryImport.serial_base = "1899-12-30T00:00:00"
  /\ (forall text,
        Ingest._normalize_timestamp (Some v) default_tz path
        = inr (Some text) ->
        exists d,
          fromisoformat (Ingest.iso_input v) = Some d
          /\ (text = isoformat d \/ text = isoformat (replace_tzinfo d tzi)))
  /\ (fromisoformat (Ingest.iso_input v) = None ->
      Ingest._normalize_timestamp (Some v) default_tz path
      = inl (IngestError ("Invalid timestamp '" ++ v ++ "' in " ++ path))).
Proof.
  intros Htz Hf Hgt Hd Ha. split; [|split; [reflexivity|]].
  - unfold RegistryImport._normalize_timestamp, RegistryImport._tz_from_name.
    rewrite Htz. simpl. unfold RegistryImport.serial_attempt.
    rewrite Hf, Hgt, Hd. simpl. rewrite Ha. reflexivity.
  - destruct (ingest_timestamp_is_iso_only v default_tz path) as (Hok & Herr).
    split; [|exact Herr].
    intros text Ht. destruct (Hok text Ht) as (d & Hd' & [H | (tzi' & Hz & H)]).
    + exists d. auto.
    + exists d. split; [exact Hd'|]. right. congruence.
Qed.


Lemma iso_input_without_Z v :
  PyStr.endswith v "Z" = false -> Ingest.iso_input v = v.
Proof. unfold Ingest.iso_input. intros ->. reflexivity. Qed.


End TimestampFacts.

Lemma C3_witness :
  RegistryImport._normalize_timestamp (RT := Samples.rt_iso)
    (Some "45678.5") "Etc/GMT-1"
  = inr (Some "2025-01-21T12:00:00+01:00")
  /\ Ingest._normalize_timestamp (RT := Samples.rt_iso)
       (Some "45678.5") "Etc/GMT-1" "logs/run2.csv"
     = inl (IngestError "Invalid timestamp '45678.5' in logs/run2.csv").
Proof.
  destruct (C3_serial_date_from_1899_12_30 (RT := Samples.rt_iso)
              "45678.5" "Etc/GMT-1"
              {| PyDatetime.utcoffset := fun _ => 3600 |}
              45678.5%float 3946622400000000
              {| PyDatetime.fields :=
                   {| PyDatetime.year := 2025; PyDatetime.month := 1;
                      PyDatetime.day := 21; PyDatetime.hour := 12;
                      PyDatetime.minute := 0; PyDatetime.second := 0;
                      PyDatetime.microsecond := 0 |};
                 PyDatetime.tz := None |}
              "logs/run2.csv"
              eq_refl eq_refl eq_refl eq_refl eq_refl)
    as (Hreg & _ & _ & Hing).
  split; [exact Hreg | exact (Hing eq_refl)].
Defined.

(** C3, as stated, fails in four ways. At its own example: with a default
    time zone one hour east of UTC the serial value 45678.5 is noon of 21
    January 2025, not of 9 January. In log ingest, where the rule does not
    exist: ["45678.5"] is an [IngestError] there, and the bare number
    ["20250109"] is read as the ISO date of 9 January 2025. For a number
    whose date is beyond the year 9999, which raises [OverflowError]. And
    for a default time zone that the time zone database does not know. *)
Lemma C3_serial_rule_fails :
  RegistryImport._normalize_timestamp (RT := Samples.rt_iso)
    (Some "45678.5") "Etc/GMT-1"
  <> inr (Some "2025-01-09T12:00:00+01:00")
  /\ Ingest._normalize_timestamp (RT := Samples.rt_iso)
       (Some "45678.5") "Etc/GMT-1" "logs/run2.csv"
     = inl (IngestError "Invalid timestamp '45678.5' in logs/run2.csv")
  /\ Ingest._normalize_timestamp (RT := Samples.rt_iso)
       (Some "20250109") "Etc/GMT-1" "logs/run2.csv"
     = inr (Some "2025-01-09T00:00:00+01:00")
  /\ RegistryImport._normalize_timestamp (RT := Samples.rt_iso)
       (Some "3000000") "Etc/GMT-1"
     = inl (OverflowError "date value out of range")
  /\ RegistryImport._normalize_timestamp (RT := Samples.rt_iso)
       (Some "45678.5") "Mars/Olympus"
     = inl (RegistryImportError "Unknown timezone: Mars/Olympus").
Proof.
  split; [vm_compute; discriminate|].
  repeat split; vm_compute; reflexivity.
Qed.



(* ================================================================== *)
(** * Further properties of the services *)

(** ** Loops *)

Lemma mapM_inl_inv {A B} (f : A -> result B) xs e :
  mapM f xs = inl e -> exists x, In x xs /\ f x = inl e.
Proof.
  induction xs as [|x xs IH]; simpl; [discriminate|].
  destruct (f x) as [e'|b] eqn:E; simpl.
  - intros [= ->]. eauto.
  - destruct (mapM f xs) as [e'|bs]; simpl; [|discriminate].
    intros [= ->]. destruct (IH eq_refl) as (y & Hy & Hf). eauto.
Qed.

Lemma mapM_inr_inv {A B} (f : A -> result B) xs ys :
  mapM f xs = inr ys -> Forall2 (fun x y => f x = inr y) xs ys.
Proof.
  revert ys. induction xs as [|x xs IH]; simpl; intros ys.
  - intros [= <-]. constructor.
  - destruct (f x) as [e'|b] eqn:E; simpl; [discriminate|].
    destruct (mapM f xs) as [e'|bs]; simpl; [discriminate|].
    intros [= <-]. constructor; auto.
Qed.

Lemma Forall2_in_right {A B} (R : A -> B -> Prop) xs ys y :
  Forall2 R xs ys -> In y ys -> exists x, In x xs /\ R x y.
Proof.
  induction 1 as [|x y' xs ys HR _ IH]; simpl; [contradiction|].
  intros [-> | Hin]; [eauto|].
  destruct (IH Hin) as (x' & Hx' & HR'). eauto.
Qed.

Lemma mapM_length {A B} (f : A -> result B) xs ys :
  mapM f xs = inr ys -> List.length ys = List.length xs.
Proof.
  intros H. apply mapM_inr_inv in H. symmetry.
  eapply Forall2_length; eauto.
Qed.

(** ** Rows of a [DictReader] *)

Lemma get_zip_row_absent names record k :
  PyList.mem k names = false ->
  PyList.get (PyCsv.zip_row names record) k = None.
Proof.
  revert record. induction names as [|n names IH]; intros record; simpl.
  - reflexivity.
  - unfold PyList.mem in *. simpl. intros H.
    apply orb_false_iff in H. destruct H as (Hn & Hr).
    destruct record as [|v vs]; simpl; rewrite (IH _ Hr), Hn; reflexivity.
Qed.

Lemma row_get_absent names record k :
  PyList.mem k names = false ->
  PyCsv.row_get (PyCsv.zip_row names record) k = None.
Proof.
  intros H. unfold PyCsv.row_get. rewrite get_zip_row_absent; auto.
Qed.

Lemma rows_inv records names row :
  PyCsv.fieldnames records = Some names ->
  In row (PyCsv.rows records) ->
  exists record, row = PyCsv.zip_row names record.
Proof.
  destruct records as [|h rest]; simpl; [discriminate|].
  intros [= ->] H. apply in_map_iff in H. destruct H as (r & <- & _). eauto.
Qed.

(** ** Label import: what a call leaves behind *)

Section LabelImportFacts.
Import LabelImport Storage Terms.
Variable fs : filesystem.

Lemma _parse_labels_csv_raises path run_id_arg e :
  _parse_labels_csv fs path run_id_arg = inl e ->
  is_LabelImportError e = true.
Proof.
  unfold _parse_labels_csv.
  destruct (fs path) as [f|]; [|intros [= <-]; reflexivity].
  destruct (PyCsv.fieldnames (csv_records f)) as [names|];
    [|intros [= <-]; reflexivity].
  destruct (negb (PyList.mem "event_type" (map PyStr.strip names))
            || negb (PyList.mem "event_time_s" (map PyStr.strip names)));
    [intros [= <-]; reflexivity|].
  intros H. apply mapM_inl_inv in H. destruct H as (row & _ & H).
  eapply label_of_row_raises; eauto.
Qed.

(** What [insert_labels] does to a connection: the committed state stays;
    when it returns, every row was bound and refers to a run, and the rows
    stand behind the labels in the order of the list; when it raises, the
    first row that cannot be bound or that refers to no run decides. *)
Lemma insert_labels_inv (ls : list LabelEvent) : forall c r c',
  insert_labels ls c = (r, c') ->
  committed c' = committed c
  /\ runs (current c') = runs (current c)
  /\ readings (current c') = readings (current c)
  /\ run_registry (current c') = run_registry (current c)
  /\ match r with
     | inr _ =>
         labels (current c')
         = (labels (current c) ++ map label_row_of ls)%list
         /\ Forall (fun l => fits_int64 (run_id l) = true
                             /\ run_exists (current c) (run_id l) = true) ls
     | inl e =>
         exists l, In l ls
           /\ ((e = OverflowError
                      "Python int too large to convert to SQLite INTEGER"
                /\ fits_int64 (run_id l) = false)
               \/ (e = IntegrityError "FOREIGN KEY constraint failed"
                   /\ run_exists (current c) (run_id l) = false))
     end.
Proof.
  induction ls as [|l ls IH]; intros c r c'; simpl.
  - intros [= <- <-]. rewrite app_nil_r. repeat split; constructor.
  - unfold cbind, insert_label.
    destruct (fits_int64 (run_id l)) eqn:F; simpl negb; cbv iota.
    + destruct (run_exists (current c) (run_id l)) eqn:X.
      * intros H. apply IH in H. simpl in H.
        destruct H as (Hc & Hr & Hd & Hg & H).
        split; [exact Hc|]. split; [exact Hr|]. split; [exact Hd|].
        split; [exact Hg|].
        assert (Hx : forall rid,
                   run_exists
                     {| runs := runs (current c);
                        readings := readings (current c);
                        run_registry := run_registry (current c);
                        labels := (labels (current c) ++ [label_row_of l])%list |}
                     rid
                   = run_exists (current c) rid) by reflexivity.
        destruct r as [e|u].
        -- destruct H as (l' & Hin & H). exists l'. split; [right; exact Hin|].
           rewrite Hx in H. exact H.
        -- destruct H as (Hl & Hf). split.
           ++ rewrite Hl, <- app_assoc. reflexivity.
           ++ constructor; [auto|]. eapply Forall_impl; [|exact Hf].
              intros a (Ha & Hb). rewrite Hx in Hb. auto.
      * intros [= <- <-]. repeat split; try reflexivity.
        exists l. split; [left; reflexivity|]. right. auto.
    + intros [= <- <-]. repeat split; try reflexivity.
      exists l. split; [left; reflexivity|]. left. auto.
Qed.

(** X1. A call of [import_labels_csv] that raises leaves the database as
    it was, also when rows of the file were inserted in front of the one
    that failed: no label of the file is stored unless all are. What it
    raises is a [LabelImportError] (from the file), the [OverflowError] of
    the binding (a label whose run id does not fit 64 bits) or the
    [IntegrityError] of the engine (a label for a run that does not
    exist). *)
Theorem import_labels_csv_all_or_nothing (db db' : database)
  (label_path : string) (run_id_arg : option Z) (e : exn) :
  import_labels_csv fs db label_path run_id_arg = (inl e, db') ->
  db' = db
  /\ (is_LabelImportError e = true
      \/ exists ls l,
           _parse_labels_csv fs label_path run_id_arg = inr ls
           /\ In l ls
           /\ ((e = OverflowError
                      "Python int too large to convert to SQLite INTEGER"
                /\ fits_int64 (run_id l) = false)
               \/ (e = IntegrityError "FOREIGN KEY constraint failed"
                   /\ run_exists db (run_id l) = false))).
Proof.
  unfold import_labels_csv.
  destruct (_parse_labels_csv fs label_path run_id_arg) as [e0|ls] eqn:P.
  - intros [= <- <-]. split; [reflexivity|]. left.
    apply (_parse_labels_csv_raises _ _ _ P).
  - destruct ls as [|l ls]; [intros [= <- <-]; auto|].
    unfold with_connection, cbind.
    destruct (insert_labels (l :: ls) {| committed := db; current := db |})
      as [[e1|u] c1] eqn:I.
    + intros [= <- <-].
      apply insert_labels_inv in I. destruct I as (Hc & _ & _ & _ & H).
      simpl in Hc, H. split; [exact Hc|]. right.
      destruct H as (l' & Hin & H). exists (l :: ls), l'. auto.
    + simpl. discriminate.
Qed.

(** X2. A call of [import_labels_csv] that returns has stored one label
    for every data row of the file, in the order of the rows and behind
    the labels that were there; it returns their number, which is not 0;
    every one of them belongs to a run of the database; and the runs, the
    readings and the registry are as they were. *)
Theorem import_labels_csv_appends_every_row (db db' : database)
  (label_path : string) (run_id_arg : option Z) (n : Z) :
  import_labels_csv fs db label_path run_id_arg = (inr n, db') ->
  exists f ls,
    fs label_path = Some f
    /\ _parse_labels_csv fs label_path run_id_arg = inr ls
    /\ List.length ls = List.length (data_rows f)
    /\ n = Z.of_nat (List.length ls) /\ 0 < n
    /\ labels db' = (labels db ++ map label_row_of ls)%list
    /\ Forall (fun l => run_exists db (run_id l) = true) ls
    /\ runs db' = runs db
    /\ readings db' = readings db
    /\ run_registry db' = run_registry db.
Proof.
  unfold import_labels_csv.
  destruct (_parse_labels_csv fs label_path run_id_arg) as [e0|ls] eqn:P;
    [discriminate|].
  destruct ls as [|l ls]; [discriminate|].
  unfold with_connection, cbind.
  destruct (insert_labels (l :: ls) {| committed := db; current := db |})
    as [[e1|u] c1] eqn:I; [discriminate|].
  simpl. intros [= <- <-].
  apply insert_labels_inv in I.
  destruct I as (_ & Hr & Hd & Hg & Hl & Hf). simpl in Hr, Hd, Hg, Hl, Hf.
  pose proof P as P'. unfold _parse_labels_csv in P'.
  destruct (fs label_path) as [f|] eqn:Hf'; [|discriminate].
  destruct (PyCsv.fieldnames (csv_records f)) as [names|]; [|discriminate].
  destruct (negb (PyList.mem "event_type" (map PyStr.strip names))
            || negb (PyList.mem "event_time_s" (map PyStr.strip names)));
    [discriminate|].
  apply mapM_length in P'.
  exists f, (l :: ls).
  split; [reflexivity|]. split; [reflexivity|]. split; [exact P'|].
  split; [reflexivity|]. split; [simpl List.length; lia|].
  split; [exact Hl|].
  split; [eapply Forall_impl; [|exact Hf]; intros a (_ & Ha); exact Ha|].
  auto.
Qed.

(** X3. The run of a label is read from the column whose header is exactly
    [run_id]. When the file has no such header (none at all, or one with
    white space around it, which the check of the header accepts), every
    label gets the run id of the call, whatever the rows hold; and without
    a run id of the call a file with a data row raises
    [LabelImportError]. *)
Theorem labels_without_run_id_header_take_the_argument
  (path : string) (f : file) :
  fs path = Some f ->
  no_exact_header f "run_id" ->
  (forall rid ls,
      _parse_labels_csv fs path (Some rid) = inr ls ->
      Forall (fun l => run_id l = rid) ls)
  /\ (data_rows f <> [] ->
      exists msg, _parse_labels_csv fs path None = inl (LabelImportError msg)).
Proof.
  intros Hf (names & Hnames & Hmem).
  assert (Hrow : forall fieldnames arg row,
             In row (data_rows f) ->
             label_of_row fieldnames path arg row
             = match arg with
               | None =>
                   inl (LabelImportError
                          "run_id missing: supply --run-id or include run_id column")
               | Some rid =>
                   label_of_row [] path (Some rid) row
               end
             /\ forall rid l, label_of_row [] path (Some rid) row = inr l ->
                              run_id l = rid).
  { intros fieldnames arg row Hin.
    destruct (rows_inv _ _ _ Hnames Hin) as (record & ->).
    unfold label_of_row. rewrite (row_get_absent _ _ _ Hmem).
    simpl PyList.mem. cbv beta iota.
    assert (E : (if PyList.mem "run_id" fieldnames
                 then _to_int None else ret None) = inr None)
      by (destruct (PyList.mem "run_id" fieldnames); reflexivity).
    rewrite E. simpl bind. split.
    - destruct arg; reflexivity.
    - intros rid l H.
      repeat (apply bind_ok_inv in H; destruct H as (? & _ & H)).
      injection H as <-. reflexivity. }
  unfold _parse_labels_csv. rewrite Hf, Hnames. split.
  - intros rid ls.
    destruct (negb (PyList.mem "event_type" (map PyStr.strip names))
              || negb (PyList.mem "event_time_s" (map PyStr.strip names)));
      [discriminate|].
    intros H. apply mapM_inr_inv in H.
    fold (data_rows f) in H.
    induction H as [|row l rows ls Hl _ IH]; constructor.
    + destruct (Hrow (map PyStr.strip names) (Some rid) row
                  (or_introl eq_refl)) as (E & Hrid).
      rewrite E in Hl. eapply Hrid; eauto.
    + apply IH. intros fieldnames arg row' Hin.
      apply Hrow. right. exact Hin.
  - intros Hne.
    destruct (negb (PyList.mem "event_type" (map PyStr.strip names))
              || negb (PyList.mem "event_time_s" (map PyStr.strip names)));
      [eauto|].
    fold (data_rows f). fold (data_rows f) in Hrow.
    destruct (data_rows f) as [|row rows]; [contradiction|].
    simpl. destruct (Hrow (map PyStr.strip names) None row
                       (or_introl eq_refl)) as (E & _).
    rewrite E. simpl. eauto.
Qed.

(** X4. The columns [event_type] and [event_time_s] are looked for with
    the white space around the header names taken off, and read under the
    exact names. A label file that lacks one of the two exact headers (it
    may have it with white space around it, which the check of the header
    accepts) raises [LabelImportError] as soon as it has a data row, so
    none of its labels is stored. *)
Theorem labels_need_the_exact_required_headers
  (path : string) (f : file) (run_id_arg : option Z) :
  fs path = Some f ->
  no_exact_header f "event_type" \/ no_exact_header f "event_time_s" ->
  data_rows f <> [] ->
  exists msg,
    _parse_labels_csv fs path run_id_arg = inl (LabelImportError msg).
Proof.
  intros Hf Hmiss Hne.
  destruct (_parse_labels_csv fs path run_id_arg) as [e|ls] eqn:P.
  - pose proof (_parse_labels_csv_raises _ _ _ P) as Hc.
    destruct e; try discriminate Hc. eauto.
  - exfalso. unfold _parse_labels_csv in P. rewrite Hf in P.
    assert (Hnames : exists names,
               PyCsv.fieldnames (csv_records f) = Some names
               /\ (PyList.mem "event_type" names = false
                   \/ PyList.mem "event_time_s" names = false)).
    { destruct Hmiss as [(names & Hn & Hm) | (names & Hn & Hm)];
        exists names; auto. }
    destruct Hnames as (names & Hnames & Hmem). rewrite Hnames in P.
    destruct (negb (PyList.mem "event_type" (map PyStr.strip names))
              || negb (PyList.mem "event_time_s" (map PyStr.strip names)));
      [discriminate|].
    apply mapM_inr_inv in P. fold (data_rows f) in P.
    destruct (data_rows f) as [|row rows] eqn:D; [contradiction|].
    inversion P as [|? l ? ? Hread _]; subst.
    assert (Hin : In row (PyCsv.rows (csv_records f)))
      by (fold (data_rows f); rewrite D; left; reflexivity).
    destruct (rows_inv _ _ _ Hnames Hin) as (record & ->).
    unfold label_of_row in Hread.
    apply bind_ok_inv in Hread. destruct Hread as (rr & _ & Hread).
    destruct (match rr with Some r => Some r | None => run_id_arg end);
      [|discriminate].
    destruct Hmem as [Hm | Hm].
    + rewrite (row_get_absent _ _ "event_type" Hm) in Hread.
      discriminate Hread.
    + apply bind_ok_inv in Hread. destruct Hread as (ty & _ & Hread).
      rewrite (row_get_absent _ _ "event_time_s" Hm) in Hread.
      discriminate Hread.
Qed.

End LabelImportFacts.

Lemma import_labels_csv_all_or_nothing_witness :
  Samples.db_one_linked = Samples.db_one_linked
  /\ (is_LabelImportError (IntegrityError "FOREIGN KEY constraint failed")
      = true
      \/ exists ls l,
           LabelImport._parse_labels_csv Examples.fs_labels_second_unknown
             "labels.csv" None = inr ls
           /\ In l ls
           /\ ((IntegrityError "FOREIGN KEY constraint failed"
                = OverflowError
                    "Python int too large to convert to SQLite INTEGER"
                /\ Storage.fits_int64 (run_id l) = false)
               \/ (IntegrityError "FOREIGN KEY constraint failed"
                   = IntegrityError "FOREIGN KEY constraint failed"
                   /\ Storage.run_exists Samples.db_one_linked (run_id l)
                      = false))).
Proof.
  apply (import_labels_csv_all_or_nothing Examples.fs_labels_second_unknown
           Samples.db_one_linked Samples.db_one_linked "labels.csv" None
           (IntegrityError "FOREIGN KEY constraint failed")).
  vm_compute. reflexivity.
Defined.

(** The row in front of the one that fails was inserted when the call of
    [insert_labels] raises; leaving the block takes it back. A run id of
    2 ^ 63 is not bound at all. *)
Lemma first_label_is_taken_back :
  (exists c,
      Storage.insert_labels Examples.two_labels_second_unknown
        (Vocabulary.clean Samples.db_one_linked)
      = (inl (IntegrityError "FOREIGN KEY constraint failed"), c)
      /\ List.length (Storage.labels (Storage.current c)) = 1%nat
      /\ Storage.committed c = Samples.db_one_linked)
  /\ LabelImport.import_labels_csv Examples.fs_labels_run_2_63
       Samples.db_one_linked "labels.csv" None
     = (inl (OverflowError
               "Python int too large to convert to SQLite INTEGER"),
        Samples.db_one_linked).
Proof.
  split; [eexists; split; [vm_compute; reflexivity|]; split; reflexivity|].
  vm_compute. reflexivity.
Qed.

Lemma import_labels_csv_appends_every_row_witness :
  exists f ls,
    Examples.fs_labels_two "labels.csv" = Some f
    /\ LabelImport._parse_labels_csv Examples.fs_labels_two "labels.csv" None
       = inr ls
    /\ List.length ls = List.length (Terms.data_rows f)
    /\ 2 = Z.of_nat (List.length ls) /\ 0 < 2
    /\ Storage.labels
         (snd (LabelImport.import_labels_csv Examples.fs_labels_two
                 Samples.db_one_linked "labels.csv" None))
       = (Storage.labels Samples.db_one_linked
          ++ map Storage.label_row_of ls)%list
    /\ Forall (fun l => Storage.run_exists Samples.db_one_linked (run_id l)
                        = true) ls
    /\ Storage.runs
         (snd (LabelImport.import_labels_csv Examples.fs_labels_two
                 Samples.db_one_linked "labels.csv" None))
       = Storage.runs Samples.db_one_linked
    /\ Storage.readings
         (snd (LabelImport.import_labels_csv Examples.fs_labels_two
                 Samples.db_one_linked "labels.csv" None))
       = Storage.readings Samples.db_one_linked
    /\ Storage.run_registry
         (snd (LabelImport.import_labels_csv Examples.fs_labels_two
                 Samples.db_one_linked "labels.csv" None))
       = Storage.run_registry Samples.db_one_linked.
Proof.
  apply (import_labels_csv_appends_every_row Examples.fs_labels_two
           Samples.db_one_linked
           (snd (LabelImport.import_labels_csv Examples.fs_labels_two
                   Samples.db_one_linked "labels.csv" None))
           "labels.csv" None 2).
  vm_compute. reflexivity.
Defined.

Lemma labels_without_run_id_header_take_the_argument_witness :
  (forall rid ls,
      LabelImport._parse_labels_csv Examples.fs_labels_padded "labels.csv"
        (Some rid) = inr ls ->
      Forall (fun l => run_id l = rid) ls)
  /\ (Terms.data_rows Examples.labels_padded_run_id <> [] ->
      exists msg,
        LabelImport._parse_labels_csv Examples.fs_labels_padded "labels.csv"
          None = inl (LabelImportError msg)).
Proof.
  apply (labels_without_run_id_header_take_the_argument
           Examples.fs_labels_padded "labels.csv"
           Examples.labels_padded_run_id).
  - reflexivity.
  - exists ["event_type"; "event_time_s"; " run_id"].
    split; reflexivity.
Defined.

(** ** Parsing of log files: what is raised and what is returned *)

Section LogParseFacts.
Import Ingest PyDatetime Terms.
Context {RT : Runtime}.
Variable fs : filesystem.

Lemma ingest_to_float_raises v field path allow e :
  _to_float v field path allow = inl e -> is_IngestError e = true.
Proof.
  unfold _to_float. destruct v as [v|].
  - destruct (PyStr.is_empty (PyStr.strip v)).
    + destruct allow; simpl; [discriminate | intros [= <-]; reflexivity].
    + destruct (PyNum.float (PyStr.strip v)); simpl;
        [discriminate | intros [= <-]; reflexivity].
  - destruct allow; simpl; [discriminate | intros [= <-]; reflexivity].
Qed.

Lemma ingest_normalize_timestamp_raises v default_tz path e :
  _normalize_timestamp v default_tz path = inl e -> is_IngestError e = true.
Proof.
  unfold _normalize_timestamp, _tz_from_name. destruct v as [v|]; [|discriminate].
  destruct (fromisoformat (iso_input v)) as [d|]; [|intros [= <-]; reflexivity].
  destruct (tz d); simpl; [discriminate|].
  destruct (ZoneInfo default_tz); simpl;
    [discriminate | intros [= <-]; reflexivity].
Qed.

Lemma csv_row_reading_raises default_tz path row e :
  csv_row_reading default_tz path row = inl e -> is_IngestError e = true.
Proof.
  unfold csv_row_reading, _to_float_required. intros H.
  repeat
    match goal with
    | H : bind ?m _ = inl _ |- _ =>
        apply bind_err_inv in H; destruct H as [H | (? & _ & H)]
    | H : _to_float _ _ _ _ = inl _ |- _ =>
        apply ingest_to_float_raises in H; exact H
    | H : _normalize_timestamp _ _ _ = inl _ |- _ =>
        apply ingest_normalize_timestamp_raises in H; exact H
    | H : match ?x with _ => _ end = inl _ |- _ => destruct x
    | H : ret _ = inl _ |- _ => discriminate H
    | H : raise _ = inl _ |- _ => injection H as <-; reflexivity
    end.
Qed.

Lemma sort_key_length (l : list ReadingSample) :
  List.length (PyList.sort_key t_elapsed_s l) = List.length l.
Proof. symmetry. apply Permutation_length, sort_key_perm. Qed.

Lemma _parse_csv_log_raises path default_tz e :
  _parse_csv_log fs path default_tz = inl e -> is_IngestError e = true.
Proof.
  unfold _parse_csv_log.
  destruct (csv_readings fs path default_tz) as [e'|rs] eqn:E; simpl;
    [|discriminate].
  intros [= <-]. unfold csv_readings in E.
  destruct (fs path) as [f|]; [|injection E as <-; reflexivity].
  destruct (PyCsv.fieldnames (csv_records f)) as [names|];
    [|injection E as <-; reflexivity].
  destruct (filter _ required_columns);
    [|injection E as <-; reflexivity].
  apply mapM_inl_inv in E. destruct E as (row & _ & E).
  eapply csv_row_reading_raises; eauto.
Qed.

(** X5. [_parse_csv_log] raises nothing but [IngestError], and when it
    returns, it returns one reading for every data row of the file: no row
    is left out. *)
Theorem csv_log_raises_IngestError_or_reads_every_row
  (path default_tz : string) :
  match _parse_csv_log fs path default_tz with
  | inl e => is_IngestError e = true
  | inr readings =>
      exists f, fs path = Some f
                /\ List.length readings = List.length (data_rows f)
  end.
Proof.
  destruct (_parse_csv_log fs path default_tz) as [e|readings] eqn:P;
    [eapply _parse_csv_log_raises; eauto|].
  unfold _parse_csv_log in P.
  destruct (csv_readings fs path default_tz) as [e|rs] eqn:E; simpl in P;
    [discriminate|].
  injection P as <-.
  - unfold csv_readings in E.
    destruct (fs path) as [f|] eqn:Hf; [|discriminate].
    destruct (PyCsv.fieldnames (csv_records f)) as [names|]; [|discriminate].
    destruct (filter _ required_columns); [|discriminate].
    apply mapM_length in E. exists f. split; [reflexivity|].
    rewrite sort_key_length. exact E.
Qed.

Lemma int_of_raises s e : int_of s = inl e -> is_ValueError e = true.
Proof.
  unfold int_of. destruct (PyNum.int s); simpl;
    [discriminate | intros [= <-]; reflexivity].
Qed.

Lemma float_of_raises s e : float_of s = inl e -> is_ValueError e = true.
Proof.
  unfold float_of. destruct (PyNum.float s); simpl;
    [discriminate | intros [= <-]; reflexivity].
Qed.

Lemma make_raises y mo d h mi s tzi e :
  make y mo d h mi s tzi = inl e -> is_ValueError e = true.
Proof.
  unfold make.
  repeat match goal with
         | |- (if ?b then _ else _) = inl _ -> _ =>
             destruct b; [intros [= <-]; reflexivity|]
         end.
  discriminate.
Qed.

Lemma device_sample_raises tzi base_dt groups e :
  device_sample tzi base_dt groups = inl e -> is_ValueError e = true.
Proof.
  unfold device_sample. intros H.
  repeat
    match goal with
    | H : bind ?m _ = inl _ |- _ =>
        apply bind_err_inv in H; destruct H as [H | (? & _ & H)]
    | H : int_of _ = inl _ |- _ => apply int_of_raises in H; exact H
    | H : float_of _ = inl _ |- _ => apply float_of_raises in H; exact H
    | H : make _ _ _ _ _ _ _ = inl _ |- _ => apply make_raises in H; exact H
    | H : match ?x with _ => _ end = inl _ |- _ => destruct x
    | H : ret _ = inl _ |- _ => discriminate H
    | H : raise _ = inl _ |- _ => injection H as <-; reflexivity
    end.
Qed.

Lemma device_readings_raises tzi lines base_dt e :
  device_readings tzi lines base_dt = inl e -> is_ValueError e = true.
Proof.
  revert base_dt. induction lines as [|line rest IH]; intros base_dt; simpl;
    [discriminate|].
  destruct (PyRe.search _TEMP_HUMID_PATTERN line) as [groups|]; [|apply IH].
  intros H. apply bind_err_inv in H.
  destruct H as [H | (sample & _ & H)];
    [eapply device_sample_raises; eauto|].
  apply bind_err_inv in H. destruct H as [H | (? & _ & H)];
    [eapply IH; eauto | discriminate H].
Qed.

Lemma device_readings_length tzi lines : forall base_dt rs,
  device_readings tzi lines base_dt = inr rs ->
  List.length rs = List.length (filter holds_sample lines).
Proof.
  induction lines as [|line rest IH]; intros base_dt rs; simpl.
  - intros [= <-]. reflexivity.
  - unfold holds_sample at 1.
    destruct (PyRe.search _TEMP_HUMID_PATTERN line) as [groups|];
      [|apply IH].
    intros H. apply bind_ok_inv in H. destruct H as (sample & _ & H).
    apply bind_ok_inv in H. destruct H as (rs' & Hrs & H).
    injection H as <-. simpl. f_equal. eapply IH; eauto.
Qed.

Lemma _tz_from_quarters_raises v e :
  _tz_from_quarters v = inl e ->
  (is_ValueError e || is_OverflowError e) = true.
Proof.
  unfold _tz_from_quarters, timedelta_of_minutes, timezone.
  destruct (Z.abs _ <=? MAX_DELTA_DAYS); simpl;
    [|intros [= <-]; reflexivity].
  destruct (_ && _); [discriminate | intros [= <-]; reflexivity].
Qed.

Lemma _detect_tzinfo_raises lines default_tz e :
  _detect_tzinfo lines default_tz = inl e ->
  (is_IngestError e || is_ValueError e || is_OverflowError e) = true.
Proof.
  assert (Hq : forall g, bind (int_of g) _tz_from_quarters = inl e ->
               (is_IngestError e || is_ValueError e || is_OverflowError e)
               = true).
  { intros g H. apply bind_err_inv in H. destruct H as [H | (v & _ & H)].
    - apply int_of_raises in H. rewrite H.
      destruct (is_IngestError e); reflexivity.
    - apply _tz_from_quarters_raises in H.
      rewrite <- orb_assoc, H. apply orb_true_r. }
  induction lines as [|line rest IH]; simpl.
  - unfold _tz_from_name. destruct (ZoneInfo default_tz);
      [discriminate | intros [= <-]; reflexivity].
  - destruct (PyRe.search _TZ_PAREN_PATTERN line) as [[|g gs]|].
    + destruct (PyRe.search _TZ_CCLK_PATTERN line) as [[|g gs]|];
        [exact IH | apply Hq | exact IH].
    + apply Hq.
    + destruct (PyRe.search _TZ_CCLK_PATTERN line) as [[|g gs]|];
        [exact IH | apply Hq | exact IH].
Qed.

(** X6. What [_parse_device_log] raises is an [IngestError] or the
    [ValueError] or [OverflowError] that the run time raises for a line it
    cannot convert, which the function lets through. When it returns, it
    returns one reading for every line that holds a sample. *)
Theorem device_log_raises_or_reads_every_sample
  (path default_tz : string) :
  match _parse_device_log fs path default_tz with
  | inl e =>
      (is_IngestError e || is_ValueError e || is_OverflowError e) = true
  | inr readings =>
      exists f,
        fs path = Some f
        /\ List.length readings
           = List.length (filter holds_sample (text_lines f))
  end.
Proof.
  unfold _parse_device_log.
  destruct (device_log_readings fs path default_tz) as [e|rs] eqn:E; simpl.
  - unfold device_log_readings in E.
    destruct (fs path) as [f|]; [|injection E as <-; reflexivity].
    apply bind_err_inv in E. destruct E as [E | (tzi & _ & E)].
    + eapply _detect_tzinfo_raises; eauto.
    + apply device_readings_raises in E. rewrite E.
      destruct (is_IngestError e); reflexivity.
  - unfold device_log_readings in E.
    destruct (fs path) as [f|] eqn:Hf; [|discriminate].
    apply bind_ok_inv in E. destruct E as (tzi & _ & E).
    exists f. split; [reflexivity|].
    rewrite sort_key_length. eapply device_readings_length; eauto.
Qed.

(** A sample in a month that does not exist: the [ValueError] of
    [datetime] comes out of [_parse_device_log]. *)
Lemma device_log_month_13_raises_ValueError :
  _parse_device_log Examples.fs_device "month13.log" "Europe/Berlin"
  = inl (ValueError "month must be in 1..12").
Proof. vm_compute. reflexivity. Qed.

(** X7. The header of a structured log is checked with the white space
    around the names taken off, and the rows are read under the exact
    names. A file whose [t_elapsed_s] header has white space around it
    passes the check and then raises [IngestError] at its first data row;
    one whose [temp_c] or [rh_pct] header has white space around it is
    accepted, and every reading has [None] for that value. *)
Theorem csv_log_reads_under_exact_header_names
  (path default_tz : string) (f : file) :
  fs path = Some f ->
  (no_exact_header f "t_elapsed_s" -> data_rows f <> [] ->
   exists msg, _parse_csv_log fs path default_tz = inl (IngestError msg))
  /\ (no_exact_header f "temp_c" ->
      forall readings, _parse_csv_log fs path default_tz = inr readings ->
                       Forall (fun r => temp_c r = None) readings)
  /\ (no_exact_header f "rh_pct" ->
      forall readings, _parse_csv_log fs path default_tz = inr readings ->
                       Forall (fun r => rh_pct r = None) readings).
Proof.
  intros Hf.
  assert (Hcol : forall (P : ReadingSample -> Prop) names,
             PyCsv.fieldnames (csv_records f) = Some names ->
             (forall record r,
                 csv_row_reading default_tz path (PyCsv.zip_row names record)
                 = inr r -> P r) ->
             forall readings,
               _parse_csv_log fs path default_tz = inr readings ->
               Forall P readings).
  { intros P names Hnames HP readings. unfold _parse_csv_log, csv_readings.
    rewrite Hf, Hnames. destruct (filter _ required_columns); [|discriminate].
    destruct (mapM _ _) as [e|rs] eqn:E; simpl; [discriminate|].
    intros [= <-]. eapply Permutation_Forall; [apply sort_key_perm|].
    apply mapM_inr_inv in E. apply Forall_forall. intros r Hr.
    destruct (Forall2_in_right _ _ _ _ E Hr) as (row & Hrow & Hread).
    destruct (rows_inv _ _ _ Hnames Hrow) as (record & ->).
    eapply HP; eauto. }
  split; [|split].
  - intros (names & Hnames & Hmem) Hne.
    destruct (_parse_csv_log fs path default_tz) as [e|readings] eqn:E.
    + pose proof (_parse_csv_log_raises _ _ _ E) as Hall.
      destruct e; try discriminate Hall. eauto.
    + exfalso. unfold _parse_csv_log, csv_readings in E.
      rewrite Hf, Hnames in E.
      destruct (filter _ required_columns); [|discriminate].
      destruct (mapM _ _) as [e|rs] eqn:M; simpl in E; [discriminate|].
      apply mapM_inr_inv in M. fold (data_rows f) in M.
      destruct (data_rows f) as [|row rows] eqn:D; [contradiction|].
      inversion M as [|? r ? ? Hread _]; subst.
      assert (Hin : In row (PyCsv.rows (csv_records f)))
        by (fold (data_rows f); rewrite D; left; reflexivity).
      destruct (rows_inv _ _ _ Hnames Hin) as (record & ->).
      unfold csv_row_reading in Hread.
      apply bind_ok_inv in Hread. destruct Hread as (ts & _ & Hread).
      rewrite (row_get_absent _ _ _ Hmem) in Hread. discriminate Hread.
  - intros (names & Hnames & Hmem). apply (Hcol _ names Hnames).
    intros record r. unfold csv_row_reading.
    rewrite (row_get_absent _ _ "temp_c" Hmem). intros H.
    repeat (apply bind_ok_inv in H; destruct H as (? & ? & H)).
    injection H as <-. simpl.
    match goal with H : _to_float None _ _ true = inr _ |- _ =>
      injection H as <- end. reflexivity.
  - intros (names & Hnames & Hmem). apply (Hcol _ names Hnames).
    intros record r. unfold csv_row_reading.
    rewrite (row_get_absent _ _ "rh_pct" Hmem). intros H.
    repeat (apply bind_ok_inv in H; destruct H as (? & ? & H)).
    injection H as <-. simpl.
    match goal with H : _to_float None _ _ true = inr _ |- _ =>
      injection H as <- end. reflexivity.
Qed.

End LogParseFacts.

Lemma csv_log_reads_under_exact_header_names_witness :
  (Terms.no_exact_header Examples.log_padded_header "t_elapsed_s" ->
   Terms.data_rows Examples.log_padded_header <> [] ->
   exists msg,
     Ingest._parse_csv_log (RT := Samples.rt_utc_plus_1) Examples.fs_padded
       "padded.csv" "Etc/GMT-1" = inl (IngestError msg))
  /\ (Terms.no_exact_header Examples.log_padded_header "temp_c" ->
      forall readings,
        Ingest._parse_csv_log (RT := Samples.rt_utc_plus_1) Examples.fs_padded
          "padded.csv" "Etc/GMT-1" = inr readings ->
        Forall (fun r => temp_c r = None) readings)
  /\ (Terms.no_exact_header Examples.log_padded_header "rh_pct" ->
      forall readings,
        Ingest._parse_csv_log (RT := Samples.rt_utc_plus_1) Examples.fs_padded
          "padded.csv" "Etc/GMT-1" = inr readings ->
        Forall (fun r => rh_pct r = None) readings).
Proof.
  apply (csv_log_reads_under_exact_header_names (RT := Samples.rt_utc_plus_1)
           Examples.fs_padded "padded.csv" "Etc/GMT-1"
           Examples.log_padded_header).
  reflexivity.
Defined.

(** The padded header at work: the file is accepted and the temperatures
    and humidities of its rows are gone. *)
Lemma padded_header_drops_the_values :
  Ingest._parse_csv_log (RT := Samples.rt_utc_plus_1) Examples.fs_padded
    "padded.csv" "Etc/GMT-1"
  = inr [ {| t_elapsed_s := 0; temp_c := None; rh_pct := None;
             timestamp := None; sensor_id := None |};
          {| t_elapsed_s := 10; temp_c := None; rh_pct := None;
             timestamp := None; sensor_id := None |} ].
Proof. vm_compute. reflexivity. Qed.

(** ** Time zones of device logs *)

Section ZoneFacts.
Import Ingest PyDatetime Terms.

Lemma _tz_from_quarters_in_range v :
  -96 < v < 96 ->
  exists tzi, _tz_from_quarters v = inr tzi /\ fixed_offset tzi (v * 900).
Proof.
  intros Hv. unfold _tz_from_quarters, timedelta_of_minutes, timezone.
  unfold us_per_second, us_per_day, MAX_DELTA_DAYS.
  set (us := v * 15 * 60 * 1000000).
  assert (Hq : -1 <= us / 86400000000 <= 0).
  { split.
    - apply Z.div_le_lower_bound; unfold us; lia.
    - assert (us / 86400000000 < 1); [|lia].
      apply Z.div_lt_upper_bound; unfold us; lia. }
  replace (Z.abs (us / 86400000000) <=? 999999999) with true
    by (symmetry; apply Z.leb_le; lia).
  simpl bind.
  replace ((- 86400000000 <? us) && (us <? 86400000000)) with true.
  2:{ symmetry. apply andb_true_iff. split; apply Z.ltb_lt; unfold us; lia. }
  eexists. split; [reflexivity|].
  intros n. simpl. unfold us.
  replace (v * 15 * 60 * 1000000) with (v * 900 * 1000000) by lia.
  apply Z.div_mul. lia.
Qed.

Lemma _tz_from_quarters_out_of_range v :
  v <= -96 \/ 96 <= v ->
  exists e, _tz_from_quarters v = inl e
            /\ (is_ValueError e || is_OverflowError e) = true.
Proof.
  intros Hv. destruct (_tz_from_quarters v) as [e|tzi] eqn:E.
  - exists e. split; [reflexivity|]. eapply _tz_from_quarters_raises; eauto.
  - exfalso. unfold _tz_from_quarters, timedelta_of_minutes, timezone in E.
    unfold us_per_second, us_per_day in E.
    destruct (Z.abs _ <=? MAX_DELTA_DAYS); simpl in E; [|discriminate].
    destruct ((- 86400000000 <? v * 15 * 60 * 1000000)
              && (v * 15 * 60 * 1000000 <? 86400000000)) eqn:B;
      [|discriminate].
    apply andb_true_iff in B. destruct B as (B1 & B2).
    apply Z.ltb_lt in B1, B2. lia.
Qed.

(** X8. The hint of a device log counts quarters of an hour: for a value
    strictly between -96 and 96 [_tz_from_quarters] gives the fixed zone
    of 900 seconds for each quarter, and for every other value it raises
    the [ValueError] or the [OverflowError] of the run time. *)
Theorem tz_from_quarters_is_a_fixed_offset_within_a_day (v : Z) :
  (-96 < v < 96 ->
   exists tzi, _tz_from_quarters v = inr tzi /\ fixed_offset tzi (v * 900))
  /\ (v <= -96 \/ 96 <= v ->
      exists e, _tz_from_quarters v = inl e
                /\ (is_ValueError e || is_OverflowError e) = true).
Proof.
  split; [apply _tz_from_quarters_in_range
         | apply _tz_from_quarters_out_of_range].
Qed.

Context {RT : Runtime}.

(** X9. The zone of a device log is the one of the first line that holds
    a hint, whatever the lines after it hold, and the default zone is not
    looked up then: its name need not be one the machine knows. *)
Theorem first_zone_hint_decides (pre post : list string)
  (line g default_tz : string) (v : Z) :
  Forall no_zone_hint pre ->
  zone_hint line g ->
  PyNum.int g = Some v ->
  -96 < v < 96 ->
  exists tzi,
    _detect_tzinfo (pre ++ line :: post)%list default_tz = inr tzi
    /\ fixed_offset tzi (v * 900).
Proof.
  intros Hpre Hline Hint Hv.
  destruct (_tz_from_quarters_in_range v Hv) as (tzi & Htz & Hoff).
  exists tzi. split; [|exact Hoff].
  induction Hpre as [|l pre (H1 & H2) _ IH]; simpl.
  - unfold int_of.
    destruct Hline as [(gs & ->) | (-> & gs & ->)];
      rewrite Hint; simpl; exact Htz.
  - rewrite H1, H2. exact IH.
Qed.

End ZoneFacts.

Lemma first_zone_hint_decides_witness :
  exists tzi,
    Ingest._detect_tzinfo (RT := Samples.rt_berlin)
      (["boot ok"] ++ "modem: tz(+8) ok" :: ["tz(0)"])%list "Mars/Olympus"
    = inr tzi
    /\ Terms.fixed_offset tzi (8 * 900).
Proof.
  apply (first_zone_hint_decides (RT := Samples.rt_berlin)
           ["boot ok"] ["tz(0)"] "modem: tz(+8) ok" "+8" "Mars/Olympus" 8).
  - repeat constructor.
  - left. exists []. reflexivity.
  - reflexivity.
  - lia.
Defined.

(** ** Registry import: what is raised *)

Section RegistryErrorFacts.
Import RegistryImport PyDatetime Terms FloatFacts.
Context {RT : Runtime}.
Variable fs : filesystem.

Lemma timedelta_of_days_raises x e :
  is_nan x = false ->
  timedelta_of_days x = inl e -> is_OverflowError e = true.
Proof.
  intros Hx. unfold timedelta_of_days. rewrite Hx. cbv beta iota.
  destruct (modf x) as [[fracpart intpart]|]; [|intros [= <-]; reflexivity].
  destruct (Z.abs _ <=? MAX_DELTA_DAYS);
    [discriminate | intros [= <-]; reflexivity].
Qed.

Lemma add_raises d delta e :
  add d delta = inl e -> is_OverflowError e = true.
Proof.
  unfold add. destruct (_ && _); [|intros [= <-]; reflexivity].
  destruct (ord2ymd _) as [[y mo] dd]. discriminate.
Qed.

Lemma serial_attempt_raises v tzi e :
  serial_attempt v tzi = inl e -> is_OverflowError e = true.
Proof.
  unfold serial_attempt. destruct (PyNum.float v) as [numeric|]; [|discriminate].
  destruct (1000 <? numeric)%float eqn:L; [|discriminate].
  assert (Hn : is_nan numeric = false).
  { apply ltb_rk in L. destruct L as (a & b & _ & Hb & _).
    apply is_nan_rk. eauto. }
  intros H. apply bind_err_inv in H. destruct H as [H | (delta & _ & H)].
  - eapply timedelta_of_days_raises; eauto.
  - apply bind_err_inv in H. destruct H as [H | (? & _ & H)];
      [eapply add_raises; eauto | discriminate H].
Qed.

Lemma registry_normalize_timestamp_raises value default_tz e :
  _normalize_timestamp value default_tz = inl e ->
  (is_RegistryImportError e || is_OverflowError e) = true.
Proof.
  unfold _normalize_timestamp, _tz_from_name.
  destruct value as [v|]; [|discriminate].
  destruct (ZoneInfo default_tz) as [tzi|]; cbn [bind ret raise].
  - destruct (serial_attempt v tzi) as [e'|[text|]] eqn:S; cbn [bind].
    + intros [= <-]. erewrite serial_attempt_raises; eauto.
      apply orb_true_r.
    + discriminate.
    + destruct (strptime_attempt v tzi strptime_formats); discriminate.
  - intros [= <-]. reflexivity.
Qed.

(** X10. [_normalize_timestamp] of the registry raises [RegistryImportError]
    for a default zone the machine does not know, and [OverflowError] for a
    serial date that leaves the calendar; it raises nothing else, and no
    [ValueError] in particular. *)
Theorem registry_timestamp_raises_for_zone_or_overflow
  (value : option string) (default_tz : string) (e : exn) :
  _normalize_timestamp value default_tz = inl e ->
  (exists msg, e = RegistryImportError msg /\ ZoneInfo default_tz = None)
  \/ is_OverflowError e = true.
Proof.
  unfold _normalize_timestamp, _tz_from_name.
  destruct value as [v|]; [|discriminate].
  destruct (ZoneInfo default_tz) as [tzi|]; cbn [bind ret raise].
  - destruct (serial_attempt v tzi) as [e'|[text|]] eqn:S; cbn [bind].
    + intros [= <-]. right. eapply serial_attempt_raises; eauto.
    + discriminate.
    + destruct (strptime_attempt v tzi strptime_formats); discriminate.
  - intros [= <-]. left. eauto.
Qed.

(** X11. A timestamp of the registry that [float] reads as the positive
    infinity ("inf", "Infinity", "1e999") is taken for a serial date and
    raises [OverflowError], whatever the formats would have made of it. *)
Theorem infinite_serial_date_raises_OverflowError
  (v default_tz : string) (tzi : tzinfo) :
  ZoneInfo default_tz = Some tzi ->
  PyNum.float v = Some infinity ->
  _normalize_timestamp (Some v) default_tz
  = inl (OverflowError "cannot convert float infinity to integer").
Proof.
  intros Hz Hf. unfold _normalize_timestamp, _tz_from_name. rewrite Hz.
  simpl bind. unfold serial_attempt. rewrite Hf.
  reflexivity.
Qed.

Lemma validated_has_runid normalized :
  _validate_required_headers normalized = inr tt ->
  exists h, PyList.get normalized "runid" = Some h.
Proof.
  unfold _validate_required_headers, required_headers. simpl filter.
  unfold PyList.contains at 1.
  destruct (PyList.get normalized "runid") as [h|]; [eauto|].
  simpl. destruct (negb (PyList.contains normalized "test status"));
    destruct (negb (PyList.contains normalized "log file")); discriminate.
Qed.

Lemma _validate_required_headers_raises normalized e :
  _validate_required_headers normalized = inl e ->
  is_RegistryImportError e = true.
Proof.
  unfold _validate_required_headers.
  destruct (filter _ required_headers); [discriminate|].
  intros [= <-]. reflexivity.
Qed.

Lemma _map_row_raises row normalized path idx default_tz e :
  (exists h, PyList.get normalized "runid" = Some h) ->
  _map_row row normalized path idx default_tz = inl e ->
  (is_RegistryImportError e || is_OverflowError e) = true.
Proof.
  intros (h & Hh). unfold _map_row, header_item. rewrite Hh. simpl bind.
  destruct (_clean_str (PyCsv.row_get row h)); [|discriminate].
  intros H. apply bind_err_inv in H. destruct H as [H | (? & _ & H)];
    [|discriminate H].
  eapply registry_normalize_timestamp_raises; eauto.
Qed.

Lemma map_rows_raises rows normalized path default_tz e :
  (exists h, PyList.get normalized "runid" = Some h) ->
  forall idx,
    map_rows rows normalized path idx default_tz = inl e ->
    (is_RegistryImportError e || is_OverflowError e) = true.
Proof.
  intros Hh. induction rows as [|row rows IH]; intros idx; simpl;
    [discriminate|].
  intros H. apply bind_err_inv in H. destruct H as [H | (m & _ & H)].
  - eapply _map_row_raises; eauto.
  - apply bind_err_inv in H. destruct H as [H | (? & _ & H)];
      [eapply IH; eauto | discriminate H].
Qed.

(** X12. [_parse_registry_csv] raises [RegistryImportError] or the
    [OverflowError] of a serial date, and nothing else: the [KeyError] of
    [normalized_headers["runid"]] cannot come, since the headers are
    checked before the first row is read. *)
Theorem registry_csv_raises_RegistryImportError_or_OverflowError
  (path default_tz : string) (e : exn) :
  _parse_registry_csv fs path default_tz = inl e ->
  (is_RegistryImportError e || is_OverflowError e) = true.
Proof.
  unfold _parse_registry_csv.
  destruct (fs path) as [f|]; [|intros [= <-]; reflexivity].
  destruct (PyCsv.fieldnames (csv_records f)) as [names|];
    [|intros [= <-]; reflexivity].
  intros H. apply bind_err_inv in H. destruct H as [H | ([] & Hv & H)].
  - rewrite (_validate_required_headers_raises _ _ H). reflexivity.
  - eapply map_rows_raises; eauto. apply validated_has_runid. exact Hv.
Qed.

Lemma _map_row_source row normalized path idx default_tz entry :
  _map_row row normalized path idx default_tz = inr (Some entry) ->
  source_row_number entry = idx /\ source_file entry = PyPath.name path.
Proof.
  unfold _map_row. intros H.
  apply bind_ok_inv in H. destruct H as (h & _ & H).
  destruct (_clean_str (PyCsv.row_get row h)); [|discriminate].
  apply bind_ok_inv in H. destruct H as (ts & _ & H).
  injection H as <-. split; reflexivity.
Qed.

(** The loop over the rows: the entries are what [_map_row] makes of the
    rows that it does not skip, each under the number of its row, in the
    order of the rows. *)
Lemma map_rows_numbers rows normalized path default_tz :
  forall idx entries,
    map_rows rows normalized path idx default_tz = inr entries ->
    StronglySorted Z.lt (map source_row_number entries)
    /\ Forall (fun entry =>
                 source_file entry = PyPath.name path
                 /\ idx <= source_row_number entry
                 /\ exists row,
                     nth_error rows (Z.to_nat (source_row_number entry - idx))
                     = Some row
                     /\ _map_row row normalized path
                          (source_row_number entry) default_tz
                        = inr (Some entry)) entries
    /\ (forall k row,
          nth_error rows k = Some row ->
          (exists entry,
              In entry entries
              /\ source_row_number entry = idx + Z.of_nat k)
          \/ _map_row row normalized path (idx + Z.of_nat k) default_tz
             = inr None).
Proof.
  induction rows as [|row rows IH]; intros idx entries; simpl map_rows.
  - intros [= <-]. split; [constructor|]. split; [constructor|].
    intros [|k] row H; discriminate H.
  - intros H. apply bind_ok_inv in H. destruct H as (m & Hm & H).
    apply bind_ok_inv in H. destruct H as (rest & Hrest & H).
    injection H as <-.
    destruct (IH _ _ Hrest) as (Hs & Hf & Hall).
    assert (Hf' : Forall (fun entry =>
                 source_file entry = PyPath.name path
                 /\ idx <= source_row_number entry
                 /\ exists row0,
                     nth_error (row :: rows)
                       (Z.to_nat (source_row_number entry - idx))
                     = Some row0
                     /\ _map_row row0 normalized path
                          (source_row_number entry) default_tz
                        = inr (Some entry)) rest).
    { eapply Forall_impl; [|exact Hf].
      intros a (Ha & Hb & row0 & Hn & Hr). split; [exact Ha|].
      split; [lia|]. exists row0. split; [|exact Hr].
      replace (Z.to_nat (source_row_number a - idx))
        with (S (Z.to_nat (source_row_number a - (idx + 1)))) by lia.
      exact Hn. }
    assert (Hall' : forall k row0,
               nth_error rows k = Some row0 ->
               (exists entry,
                   In entry rest
                   /\ source_row_number entry = idx + Z.of_nat (S k))
               \/ _map_row row0 normalized path (idx + Z.of_nat (S k))
                    default_tz = inr None).
    { intros k row0 Hk. destruct (Hall k row0 Hk) as [(e & He & Hn) | Hn].
      - left. exists e. split; [exact He | lia].
      - right. replace (idx + Z.of_nat (S k)) with (idx + 1 + Z.of_nat k)
          by lia. exact Hn. }
    destruct m as [entry|].
    + destruct (_map_row_source _ _ _ _ _ _ Hm) as (Hn & Hsrc).
      split; [|split].
      * simpl. constructor; [exact Hs|].
        apply Forall_map. eapply Forall_impl; [|exact Hf].
        intros a (_ & Ha & _). simpl. lia.
      * constructor; [|exact Hf'].
        split; [exact Hsrc|]. split; [lia|]. exists row.
        rewrite Hn, Z.sub_diag. split; [reflexivity | exact Hm].
      * intros [|k] row0 Hk.
        -- injection Hk as <-. left. exists entry.
           split; [left; reflexivity | simpl; lia].
        -- destruct (Hall' k row0 Hk) as [(e & He & Hn') | Hn'].
           ++ left. exists e. split; [right; exact He | exact Hn'].
           ++ right. exact Hn'.
    + split; [exact Hs|]. split; [exact Hf'|].
      intros [|k] row0 Hk.
      * injection Hk as <-. right. rewrite Z.add_0_r. exact Hm.
      * apply Hall'. exact Hk.
Qed.

(** X13. The entries of a registry CSV come in the order of its rows, and
    each is what [_map_row] makes of its own row: it carries the base name
    of the file and the number of that row, counted from 2 over the rows
    that the reader yields (blank lines are not counted, rows without a
    run id are counted and left out). Every row has its entry, under its
    number, or is one that [_map_row] skips. *)
Theorem registry_csv_entries_are_numbered_in_file_order
  (path default_tz : string) (entries : list RunRegistryEntry) :
  _parse_registry_csv fs path default_tz = inr entries ->
  exists f,
    fs path = Some f
    /\ StronglySorted Z.lt (map source_row_number entries)
    /\ Forall (fun entry =>
                 source_file entry = PyPath.name path
                 /\ exists row,
                     row_numbered f (source_row_number entry) = Some row
                     /\ _map_row row (normalized_headers f) path
                          (source_row_number entry) default_tz
                        = inr (Some entry)) entries
    /\ (forall n row,
          row_numbered f n = Some row ->
          (exists entry,
              In entry entries /\ source_row_number entry = n)
          \/ _map_row row (normalized_headers f) path n default_tz
             = inr None).
Proof.
  unfold _parse_registry_csv, row_numbered, normalized_headers, data_rows.
  destruct (fs path) as [f|]; [|discriminate].
  destruct (PyCsv.fieldnames (csv_records f)) as [names|] eqn:Hnames;
    [|discriminate].
  intros H. apply bind_ok_inv in H. destruct H as ([] & _ & H).
  destruct (map_rows_numbers _ _ _ _ _ _ H) as (Hs & Hf & Hall).
  exists f. rewrite Hnames.
  split; [reflexivity|]. split; [exact Hs|]. split.
  - eapply Forall_impl; [|exact Hf].
    intros a (Ha & Hb & row & Hn & Hr). split; [exact Ha|].
    exists row. destruct (Z.ltb_spec (source_row_number a) 2); [lia|].
    auto.
  - intros n row. destruct (Z.ltb_spec n 2) as [|Hn]; [discriminate|].
    intros Hrow. specialize (Hall _ _ Hrow).
    replace (2 + Z.of_nat (Z.to_nat (n - 2))) with n in Hall by lia.
    exact Hall.
Qed.

End RegistryErrorFacts.

Lemma registry_timestamp_raises_for_zone_or_overflow_witness :
  (exists msg,
      RegistryImportError "Unknown timezone: Mars/Olympus"
      = RegistryImportError msg
      /\ ZoneInfo (Runtime := Samples.rt_utc_plus_1) "Mars/Olympus" = None)
  \/ Terms.is_OverflowError
       (RegistryImportError "Unknown timezone: Mars/Olympus") = true.
Proof.
  apply (registry_timestamp_raises_for_zone_or_overflow
           (RT := Samples.rt_utc_plus_1) (Some "2026-01-01") "Mars/Olympus"
           (RegistryImportError "Unknown timezone: Mars/Olympus")).
  reflexivity.
Defined.

Lemma infinite_serial_date_raises_OverflowError_witness :
  RegistryImport._normalize_timestamp (RT := Samples.rt_utc_plus_1)
    (Some "1e999") "Etc/GMT-1"
  = inl (OverflowError "cannot convert float infinity to integer").
Proof.
  apply (infinite_serial_date_raises_OverflowError
           (RT := Samples.rt_utc_plus_1) "1e999" "Etc/GMT-1"
           {| PyDatetime.utcoffset := fun _ => 3600 |}).
  - reflexivity.
  - vm_compute. reflexivity.
Defined.

Lemma registry_csv_raises_RegistryImportError_or_OverflowError_witness :
  (is_RegistryImportError
     (OverflowError "cannot convert float infinity to integer")
   || Terms.is_OverflowError
        (OverflowError "cannot convert float infinity to integer")) = true.
Proof.
  apply (registry_csv_raises_RegistryImportError_or_OverflowError
           (RT := Samples.rt_utc_plus_1) Examples.fs_registries
           "in/overflow.csv" "Etc/GMT-1"
           (OverflowError "cannot convert float infinity to integer")).
  vm_compute. reflexivity.
Defined.

Lemma registry_csv_entries_are_numbered_in_file_order_witness :
  exists f,
    Examples.fs_registries "in/registry.csv" = Some f
    /\ StronglySorted Z.lt
         (map source_row_number Examples.registry_good_entries)
    /\ Forall (fun entry =>
                 source_file entry = PyPath.name "in/registry.csv"
                 /\ exists row,
                     Terms.row_numbered f (source_row_number entry) = Some row
                     /\ RegistryImport._map_row (RT := Samples.rt_utc_plus_1)
                          row (Terms.normalized_headers f) "in/registry.csv"
                          (source_row_number entry) "Etc/GMT-1"
                        = inr (Some entry))
         Examples.registry_good_entries
    /\ (forall n row,
          Terms.row_numbered f n = Some row ->
          (exists entry,
              In entry Examples.registry_good_entries
              /\ source_row_number entry = n)
          \/ RegistryImport._map_row (RT := Samples.rt_utc_plus_1)
               row (Terms.normalized_headers f) "in/registry.csv" n
               "Etc/GMT-1"
             = inr None).
Proof.
  apply (registry_csv_entries_are_numbered_in_file_order
           (RT := Samples.rt_utc_plus_1) Examples.fs_registries
           "in/registry.csv" "Etc/GMT-1" Examples.registry_good_entries).
  vm_compute. reflexivity.
Defined.

(** ** The registry table under [upsert_entries] *)

Section UpsertFacts.
Import Storage Terms Vocabulary.

Local Abbreviation key := reg_external_run_id.
Local Abbreviation ext := (fun r : registry_row => key (registry_entry r)).

Lemma find_app_first {A} (f : A -> bool) l1 l2 :
  find f (l1 ++ l2)%list
  = match find f l1 with Some x => Some x | None => find f l2 end.
Proof.
  induction l1 as [|a l1 IH]; simpl; [reflexivity|].
  destruct (f a); [reflexivity | exact IH].
Qed.

Lemma last_with_id_cons k e es :
  last_with_id k (e :: es)
  = match last_with_id k es with
    | Some x => Some x
    | None => if String.eqb (key e) k then Some e else None
    end.
Proof.
  unfold last_with_id. simpl rev. rewrite find_app_first. simpl.
  destruct (find _ (rev es)); [reflexivity|].
  destruct (String.eqb (key e) k); reflexivity.
Qed.

Lemma last_with_id_snoc k e es :
  last_with_id k (es ++ [e])%list
  = if String.eqb (key e) k then Some e else last_with_id k es.
Proof.
  unfold last_with_id. rewrite rev_app_distr. reflexivity.
Qed.

Lemma last_with_id_key k es e : last_with_id k es = Some e -> key e = k.
Proof.
  unfold last_with_id. intros H. apply find_some in H.
  destruct H as (_ & H). apply String.eqb_eq. exact H.
Qed.

Lemma next_id_above ids x : In x ids -> x < next_id ids.
Proof.
  unfold next_id. induction ids as [|y ids IH]; simpl; [contradiction|].
  intros [-> | H]; [lia|]. specialize (IH H). lia.
Qed.

(** *** Keys and links *)

Lemma upsert_row_id_and_link e rows fresh :
  map id_and_link (upsert_row e rows fresh)
  = (map id_and_link rows
     ++ (if existsb (has_ext_id (key e)) rows then [] else [(fresh, None)]))%list.
Proof.
  induction rows as [|r rows IH]; simpl; [reflexivity|].
  unfold has_ext_id at 1.
  destruct (String.eqb (key (registry_entry r)) (key e)); simpl.
  - rewrite app_nil_r. reflexivity.
  - rewrite IH. reflexivity.
Qed.

Lemma upsert_one_id_and_link rows e :
  map id_and_link (upsert_one rows e)
  = (map id_and_link rows
     ++ (if existsb (has_ext_id (key e)) rows then []
         else [(next_id (map registry_id rows), None)]))%list.
Proof. apply upsert_row_id_and_link. Qed.

Lemma upsert_entries_id_and_link entries : forall rows,
  exists added,
    map id_and_link (fold_left upsert_one entries rows)
    = (map id_and_link rows ++ added)%list
    /\ Forall (fun p => snd p = None) added
    /\ (NoDup (map registry_id rows) ->
        NoDup (map registry_id (fold_left upsert_one entries rows))).
Proof.
  induction entries as [|e entries IH]; intros rows; simpl.
  - exists []. rewrite app_nil_r. auto.
  - destruct (IH (upsert_one rows e)) as (added & Hmap & Hnone & Hnd).
    rewrite upsert_one_id_and_link in Hmap.
    rewrite <- app_assoc in Hmap. eexists. split; [exact Hmap|]. split.
    + apply Forall_app. split; [|exact Hnone].
      destruct (existsb _ rows); repeat constructor.
    + intros Hk. apply Hnd.
      assert (Hids : map registry_id (upsert_one rows e)
                     = map fst (map id_and_link (upsert_one rows e))).
      { rewrite map_map. reflexivity. }
      rewrite Hids. rewrite upsert_one_id_and_link.
      rewrite map_app, map_map. change (fun x => fst (id_and_link x))
        with registry_id.
      destruct (existsb _ rows); simpl; [rewrite app_nil_r; exact Hk|].
      apply NoDup_app; [exact Hk | repeat constructor; intros [] |].
      intros x Hx [<- | []]. apply next_id_above in Hx. lia.
Qed.

(** *** Looking up what was stored *)

Lemma upsert_row_lookup_same e rows fresh :
  exists r, find (has_ext_id (key e)) (upsert_row e rows fresh) = Some r
            /\ registry_entry r = e.
Proof.
  induction rows as [|r0 rows IH]; simpl.
  - unfold has_ext_id. simpl. rewrite String.eqb_refl. eauto.
  - destruct (String.eqb (key (registry_entry r0)) (key e)) eqn:E; simpl.
    + unfold has_ext_id at 1. simpl. rewrite String.eqb_refl. eauto.
    + unfold has_ext_id at 1. rewrite E. exact IH.
Qed.

Lemma upsert_row_lookup_other k e rows fresh :
  String.eqb (key e) k = false ->
  find (has_ext_id k) (upsert_row e rows fresh) = find (has_ext_id k) rows.
Proof.
  intros Hk. induction rows as [|r0 rows IH]; simpl.
  - unfold has_ext_id. simpl. rewrite Hk. reflexivity.
  - destruct (String.eqb (key (registry_entry r0)) (key e)) eqn:E; simpl.
    + unfold has_ext_id at 1 3. simpl. rewrite Hk.
      apply String.eqb_eq in E. rewrite E, Hk. reflexivity.
    + destruct (has_ext_id k r0); [reflexivity | exact IH].
Qed.

Lemma fold_left_snoc {A B} (f : A -> B -> A) l x a :
  fold_left f (l ++ [x])%list a = f (fold_left f l a) x.
Proof. rewrite fold_left_app. reflexivity. Qed.

Lemma upsert_entries_lookup entries : forall rows e,
  In e entries ->
  exists r,
    find (has_ext_id (key e)) (fold_left upsert_one entries rows) = Some r
    /\ last_with_id (key e) entries = Some (registry_entry r).
Proof.
  induction entries as [|e0 entries IH] using rev_ind; intros rows e Hin;
    [destruct Hin|].
  rewrite fold_left_snoc, last_with_id_snoc. unfold upsert_one at 1.
  destruct (String.eqb (key e0) (key e)) eqn:E.
  - apply String.eqb_eq in E. rewrite <- E.
    destruct (upsert_row_lookup_same e0 (fold_left upsert_one entries rows)
                (next_id (map registry_id (fold_left upsert_one entries rows))))
      as (r & Hr & He).
    exists r. rewrite He. auto.
  - rewrite (upsert_row_lookup_other _ _ _ _ E).
    apply in_app_or in Hin. destruct Hin as [Hin | [-> | []]].
    + apply IH. exact Hin.
    + rewrite String.eqb_refl in E. discriminate.
Qed.

(** *** Upserting the same entries again *)

Lemma set_entry_twice e e' r : set_entry e (set_entry e' r) = set_entry e r.
Proof. reflexivity. Qed.

Lemma upsert_from_head ids0 es : forall r rows,
  fold_left (upsert_from ids0) es (r :: rows)
  = match last_with_id (ext r) es with
    | Some e => set_entry e r
    | None => r
    end
    :: fold_left (upsert_from (ids0 ++ [registry_id r]))
         (filter (fun e => negb (String.eqb (key e) (ext r))) es) rows.
Proof.
  induction es as [|e es IH]; intros r rows; [reflexivity|].
  simpl fold_left. rewrite last_with_id_cons. unfold upsert_from at 2.
  simpl upsert_row. simpl filter.
  destruct (String.eqb (key (registry_entry r)) (key e)) eqn:E.
  - fold (set_entry e r). rewrite IH. simpl registry_id.
    apply String.eqb_eq in E. simpl. rewrite <- E, String.eqb_refl. simpl.
    destruct (last_with_id (key (registry_entry r)) es); reflexivity.
  - fold (upsert_from ids0). rewrite IH.
    rewrite String.eqb_sym, E. simpl.
    destruct (last_with_id (key (registry_entry r)) es);
      (f_equal; f_equal; unfold upsert_from; simpl map;
       rewrite <- app_assoc; reflexivity).
Qed.

Lemma upsert_from_nil_again n : forall es ids0,
  (List.length es <= n)%nat ->
  fold_left (upsert_from ids0) es (fold_left (upsert_from ids0) es [])
  = fold_left (upsert_from ids0) es [].
Proof.
  induction n as [|n IH]; intros es ids0 Hn.
  - destruct es; [reflexivity | simpl in Hn; lia].
  - destruct es as [|e es]; [reflexivity|].
    assert (Hfirst : fold_left (upsert_from ids0) (e :: es) []
                     = fold_left (upsert_from ids0) es
                         [{| registry_id := next_id (ids0 ++ []);
                             registry_entry := e;
                             registry_run_id := None |}]) by reflexivity.
    rewrite Hfirst. rewrite upsert_from_head. simpl registry_entry.
    simpl registry_id.
    set (new := {| registry_id := next_id (ids0 ++ []);
                   registry_entry := e; registry_run_id := None |}).
    set (new' := match last_with_id (key e) es with
                 | Some e0 => set_entry e0 new
                 | None => new
                 end).
    assert (Hext : key (registry_entry new') = key e).
    { unfold new'. destruct (last_with_id (key e) es) as [e0|] eqn:L;
        [|reflexivity]. simpl. eapply last_with_id_key; eauto. }
    assert (Hid : registry_id new' = next_id (ids0 ++ [])).
    { unfold new'. destruct (last_with_id (key e) es); reflexivity. }
    rewrite upsert_from_head. rewrite Hext, Hid.
    rewrite last_with_id_cons. simpl filter. rewrite String.eqb_refl.
    simpl negb. cbv iota.
    f_equal.
    + unfold new'. destruct (last_with_id (key e) es); reflexivity.
    + apply IH. simpl in Hn.
      pose proof (filter_length_le
                    (fun e0 => negb (String.eqb (key e0) (key e))) es).
      lia.
Qed.

Lemma upsert_from_again rows : forall es ids0,
  fold_left (upsert_from ids0) es (fold_left (upsert_from ids0) es rows)
  = fold_left (upsert_from ids0) es rows.
Proof.
  induction rows as [|r rows IH]; intros es ids0.
  - eapply upsert_from_nil_again. apply Nat.le_refl.
  - rewrite upsert_from_head.
    set (r' := match last_with_id (key (registry_entry r)) es with
               | Some e => set_entry e r
               | None => r
               end).
    assert (Hext : key (registry_entry r') = key (registry_entry r)).
    { unfold r'. destruct (last_with_id _ es) as [e0|] eqn:L;
        [|reflexivity]. simpl. eapply last_with_id_key; eauto. }
    assert (Hid : registry_id r' = registry_id r).
    { unfold r'. destruct (last_with_id _ es); reflexivity. }
    rewrite upsert_from_head. rewrite Hext, Hid. f_equal.
    + unfold r'. destruct (last_with_id _ es); reflexivity.
    + apply IH.
Qed.

Lemma upsert_entries_again entries rows :
  fold_left upsert_one entries (fold_left upsert_one entries rows)
  = fold_left upsert_one entries rows.
Proof. exact (upsert_from_again rows entries []). Qed.

End UpsertFacts.

(** ** Registry import: what a call leaves behind *)

Section RegistryImportFacts.
Import RegistryImport Storage Terms Vocabulary.
Context {RT : Runtime}.
Variable fs : filesystem.

Lemma import_run_registry_spec db file_path sheet default_tz :
  import_run_registry fs db file_path sheet default_tz
  = match parse_registry_file fs file_path sheet default_tz with
    | inl e => (inl e, db)
    | inr [] =>
        (inl (RegistryImportError ("No registry rows found in " ++ file_path)),
         db)
    | inr entries =>
        (inr (Z.of_nat (List.length entries)),
         {| runs := runs db;
            readings := readings db;
            run_registry := fold_left upsert_one entries (run_registry db);
            labels := labels db |})
    end.
Proof.
  unfold import_run_registry.
  destruct (parse_registry_file fs file_path sheet default_tz) as [e|[|e es]];
    reflexivity.
Qed.

(** X14. A call of [import_run_registry] that raises leaves the database
    as it was. One that returns has returned the number of entries of the
    file, which is not 0, and has touched the registry table only: every
    row that was there keeps its place, its key and its link to a run, the
    rows that came new stand behind them without a link, and the keys stay
    distinct. *)
Theorem import_run_registry_keeps_keys_and_links (db db' : database)
  (file_path sheet default_tz : string) (r : result Z) :
  import_run_registry fs db file_path sheet default_tz = (r, db') ->
  (is_ok r = false -> db' = db)
  /\ (forall n, r = inr n ->
        exists entries,
          parse_registry_file fs file_path sheet default_tz = inr entries
          /\ n = Z.of_nat (List.length entries) /\ 0 < n)
  /\ runs db' = runs db /\ readings db' = readings db
  /\ labels db' = labels db
  /\ (exists added,
        map id_and_link (run_registry db')
        = (map id_and_link (run_registry db) ++ added)%list
        /\ Forall (fun p => snd p = None) added)
  /\ (registry_keyed db -> registry_keyed db').
Proof.
  rewrite import_run_registry_spec.
  assert (Hsame : (exists added,
                      map id_and_link (run_registry db)
                      = (map id_and_link (run_registry db) ++ added)%list
                      /\ Forall (fun p => snd p = None) added)).
  { exists []. rewrite app_nil_r. auto. }
  destruct (parse_registry_file fs file_path sheet default_tz)
    as [e|[|e es]] eqn:P.
  - intros [= <- <-]. repeat split; auto. discriminate.
  - intros [= <- <-]. repeat split; auto. discriminate.
  - intros [= <- <-]. simpl.
    destruct (upsert_entries_id_and_link (e :: es) (run_registry db))
      as (added & Hmap & Hnone & Hnd).
    split; [discriminate|]. split.
    + intros n [= <-]. exists (e :: es). split; [reflexivity|].
      split; [reflexivity|]. simpl List.length. lia.
    + repeat split; eauto.
Qed.

(** X15. Importing the same registry file a second time changes nothing:
    the call returns the same number and the database is the one that the
    first import has left. *)
Theorem registry_reimport_changes_nothing (db db1 : database)
  (file_path sheet default_tz : string) (n : Z) :
  import_run_registry fs db file_path sheet default_tz = (inr n, db1) ->
  import_run_registry fs db1 file_path sheet default_tz = (inr n, db1).
Proof.
  rewrite !import_run_registry_spec.
  destruct (parse_registry_file fs file_path sheet default_tz)
    as [e|[|e es]]; try discriminate.
  intros [= <- <-]. cbn [runs readings labels run_registry].
  change (fold_left upsert_one es (upsert_one (run_registry db) e))
    with (fold_left upsert_one (e :: es) (run_registry db)).
  rewrite upsert_entries_again. reflexivity.
Qed.

(** X16. After an import every external run id of the file is in the
    registry table, and the row that the upsert finds for it holds the
    columns of the last row of the file with that id. *)
Theorem imported_run_id_is_found_with_its_last_entry (db db' : database)
  (file_path sheet default_tz : string) (n : Z)
  (entries : list RunRegistryEntry) (e : RunRegistryEntry) :
  import_run_registry fs db file_path sheet default_tz = (inr n, db') ->
  parse_registry_file fs file_path sheet default_tz = inr entries ->
  In e entries ->
  exists r,
    find (has_ext_id (reg_external_run_id e)) (run_registry db') = Some r
    /\ last_with_id (reg_external_run_id e) entries
       = Some (registry_entry r).
Proof.
  rewrite import_run_registry_spec. intros H P Hin. rewrite P in H.
  destruct entries as [|e0 es]; [discriminate|].
  injection H as _ <-. cbn [run_registry].
  apply (upsert_entries_lookup (e0 :: es)). exact Hin.
Qed.

End RegistryImportFacts.

Lemma import_run_registry_keeps_keys_and_links_witness :
  (is_ok (inr 3 : result Z) = false
   -> Examples.db_after_import = Samples.db_one_linked)
  /\ (forall n, (inr 3 : result Z) = inr n ->
        exists entries,
          RegistryImport.parse_registry_file (RT := Samples.rt_utc_plus_1)
            Examples.fs_registries "in/registry.csv" "test runs" "Etc/GMT-1"
          = inr entries
          /\ n = Z.of_nat (List.length entries) /\ 0 < n)
  /\ Storage.runs Examples.db_after_import
     = Storage.runs Samples.db_one_linked
  /\ Storage.readings Examples.db_after_import
     = Storage.readings Samples.db_one_linked
  /\ Storage.labels Examples.db_after_import
     = Storage.labels Samples.db_one_linked
  /\ (exists added,
        map Terms.id_and_link (Storage.run_registry Examples.db_after_import)
        = (map Terms.id_and_link (Storage.run_registry Samples.db_one_linked)
           ++ added)%list
        /\ Forall (fun p => snd p = None) added)
  /\ (Vocabulary.registry_keyed Samples.db_one_linked ->
      Vocabulary.registry_keyed Examples.db_after_import).
Proof.
  apply (import_run_registry_keeps_keys_and_links
           (RT := Samples.rt_utc_plus_1) Examples.fs_registries
           Samples.db_one_linked Examples.db_after_import
           "in/registry.csv" "test runs" "Etc/GMT-1" (inr 3)).
  vm_compute. reflexivity.
Defined.

Lemma registry_reimport_changes_nothing_witness :
  RegistryImport.import_run_registry (RT := Samples.rt_utc_plus_1)
    Examples.fs_registries Examples.db_after_import
    "in/registry.csv" "test runs" "Etc/GMT-1"
  = (inr 3, Examples.db_after_import).
Proof.
  apply (registry_reimport_changes_nothing
           (RT := Samples.rt_utc_plus_1) Examples.fs_registries
           Samples.db_one_linked Examples.db_after_import
           "in/registry.csv" "test runs" "Etc/GMT-1" 3).
  vm_compute. reflexivity.
Defined.

Lemma imported_run_id_is_found_with_its_last_entry_witness :
  exists r,
    find (Terms.has_ext_id "T1")
      (Storage.run_registry Examples.db_after_import) = Some r
    /\ Terms.last_with_id "T1" Examples.registry_good_entries
       = Some (Storage.registry_entry r).
Proof.
  apply (imported_run_id_is_found_with_its_last_entry
           (RT := Samples.rt_utc_plus_1) Examples.fs_registries
           Samples.db_one_linked Examples.db_after_import
           "in/registry.csv" "test runs" "Etc/GMT-1" 3
           Examples.registry_good_entries
           (Examples.entry_of "T1" 2 "planned" "run1.csv")).
  - vm_compute. reflexivity.
  - vm_compute. reflexivity.
  - left. reflexivity.
Defined.

(** ** Ingestion: what a call leaves behind *)

Section IngestLoopFacts.
Import Ingest Storage Terms Vocabulary.
Context {RT : Runtime}.
Variable fs : filesystem.
Variables dev dia lay : string.
Variable run_notes : option string.
Variable default_tz : string.

Local Abbreviation ingest_file' p :=
  (ingest_file fs p dev dia lay run_notes default_tz).
Local Abbreviation ingest_loop' ps acc :=
  (ingest_loop fs ps acc dev dia lay run_notes default_tz).
Local Abbreviation ingest_logs' db ps :=
  (ingest_logs fs db ps dev dia lay run_notes default_tz).

(** One round that returns: the row it found and the database it left. *)
Lemma ingest_file_ok log_path db rid c' :
  ingest_file' log_path (clean db) = (inr rid, c') ->
  exists e metadata rs,
    find (matches_log_file (PyPath.name log_path)) (run_registry db) = Some e
    /\ registry_run_id e = None
    /\ _parse_log_file fs log_path default_tz = inr rs
    /\ file_name metadata = Some (PyPath.name log_path)
    /\ rid = next_id (map run_row_id (runs db))
    /\ c' = clean (with_run db e metadata rs).
Proof.
  rewrite ingest_file_spec. simpl current.
  destruct (find _ (run_registry db)) as [e|]; [|discriminate].
  destruct (registry_run_id e) as [linked|] eqn:Hun; [discriminate|].
  destruct (_parse_log_file fs log_path default_tz) as [err|[|r0 rs]];
    try discriminate.
  intros [= <- <-].
  exists e,
    (run_metadata dev dia lay run_notes (PyPath.name log_path) e (r0 :: rs)),
    (r0 :: rs).
  repeat split; try reflexivity. exact Hun.
Qed.

Lemma with_run_grown db e metadata rs name :
  file_name metadata = Some name ->
  grown_by db (with_run db e metadata rs)
    [next_id (map run_row_id (runs db))] [name].
Proof.
  intros Hname. unfold grown_by, with_run. simpl.
  split; [eexists; split; [reflexivity|]; split; [reflexivity|];
          simpl; rewrite Hname; reflexivity|].
  split.
  { eexists. split; [reflexivity|]. apply Forall_map.
    apply Forall_forall. intros r _. simpl. auto. }
  split; [reflexivity|].
  split.
  { rewrite map_map. apply map_ext. intros r.
    destruct (registry_id r =? registry_id e); reflexivity. }
  split.
  { rewrite map_map. apply map_ext. intros r.
    destruct (registry_id r =? registry_id e); reflexivity. }
  split.
  - constructor; [|constructor]. apply Forall_forall. intros r Hr.
    apply next_id_above. apply in_map. exact Hr.
  - repeat constructor.
Qed.

Lemma grown_by_trans db db1 db2 ids1 ids2 names1 names2 :
  grown_by db db1 ids1 names1 -> grown_by db1 db2 ids2 names2 ->
  grown_by db db2 (ids1 ++ ids2) (names1 ++ names2).
Proof.
  intros ((nr1 & Hr1 & Hi1 & Hm1) & (nd1 & Hd1 & Hf1) & Hl1 & Hk1 & He1
          & Hn1 & Hs1)
         ((nr2 & Hr2 & Hi2 & Hm2) & (nd2 & Hd2 & Hf2) & Hl2 & Hk2 & He2
          & Hn2 & Hs2).
  unfold grown_by.
  split.
  { exists (nr1 ++ nr2)%list. rewrite Hr2, Hr1, <- app_assoc, !map_app.
    split; [reflexivity|]. split; congruence. }
  split.
  { exists (nd1 ++ nd2)%list. rewrite Hd2, Hd1, <- app_assoc.
    split; [reflexivity|]. apply Forall_app. split.
    - eapply Forall_impl; [|exact Hf1]. intros r H. apply in_or_app. auto.
    - eapply Forall_impl; [|exact Hf2]. intros r H. apply in_or_app. auto. }
  split; [congruence|]. split; [congruence|]. split; [congruence|].
  assert (Hab : Forall (fun rid =>
                  Forall (fun r => run_row_id r < rid) (runs db)
                  /\ Forall (fun x => x < rid) ids1) ids2).
  { eapply Forall_impl; [|exact Hn2]. intros rid H. rewrite Hr1 in H.
    apply Forall_app in H. destruct H as (Ha & Hb). split; [exact Ha|].
    rewrite <- Hi1. apply Forall_map. exact Hb. }
  split.
  - apply Forall_app. split; [exact Hn1|].
    eapply Forall_impl; [|exact Hab]. intros rid (Ha & _). exact Ha.
  - clear - Hs1 Hs2 Hab. induction Hs1 as [|x ids1 Hs1 IH Hx]; simpl.
    + exact Hs2.
    + constructor.
      * apply IH. eapply Forall_impl; [|exact Hab].
        intros rid (Ha & Hb). split; [exact Ha|].
        inversion Hb; assumption.
      * apply Forall_app. split; [exact Hx|].
        eapply Forall_impl; [|exact Hab].
        intros rid (_ & Hb). inversion Hb; assumption.
Qed.

Lemma ingest_loop_grown ps : forall acc db ids c',
  ingest_loop' ps acc (clean db) = (inr ids, c') ->
  exists ids' db',
    c' = clean db' /\ ids = (acc ++ ids')%list
    /\ List.length ids' = List.length ps
    /\ grown_by db db' ids' (map PyPath.name ps).
Proof.
  induction ps as [|p ps IH]; intros acc db ids c'; simpl.
  - intros [= <- <-]. exists [], db. rewrite app_nil_r.
    repeat split; try reflexivity; try constructor.
    + exists []. rewrite app_nil_r. auto.
    + exists []. rewrite app_nil_r. auto.
  - unfold cbind.
    destruct (ingest_file' p (clean db)) as [[e|rid] c1] eqn:E;
      [discriminate|].
    destruct (ingest_file_ok _ _ _ _ E)
      as (e & metadata & rs & _ & _ & _ & Hname & -> & ->).
    intros H. destruct (IH _ _ _ _ H) as (ids' & db' & -> & -> & Hlen & Hg).
    exists (next_id (map run_row_id (runs db)) :: ids'), db'.
    split; [reflexivity|]. split; [rewrite <- app_assoc; reflexivity|].
    split; [simpl; congruence|].
    apply (grown_by_trans db (with_run db e metadata rs) db'
             [next_id (map run_row_id (runs db))] ids'
             [PyPath.name p] (map PyPath.name ps));
      [apply with_run_grown; exact Hname | exact Hg].
Qed.

(** X17. A call of [ingest_logs] that returns has made one run for each
    path and returns their ids in the order of the paths: the run of the
    id at a place of the list is the run whose file name is the base name
    of the path at that place. The ids go up strictly and are above every
    id that was in use; the runs and readings that were there stand
    unchanged in front of the new ones, and every new reading belongs to
    one of the new runs; no label and no column of a registry row is
    touched. *)
Theorem ingest_logs_appends_fresh_runs (db db' : database)
  (log_paths : list string) (ids : list Z) :
  ingest_logs' db log_paths = (inr ids, db') ->
  List.length ids = List.length log_paths
  /\ grown_by db db' ids (map PyPath.name log_paths).
Proof.
  unfold ingest_logs, with_connection. fold (clean db).
  destruct (ingest_loop' log_paths [] (clean db)) as [[e|ids0] c'] eqn:E;
    [discriminate|].
  intros [= <- <-].
  destruct (ingest_loop_grown _ _ _ _ _ E) as (ids' & db1 & -> & -> & Hl & Hg).
  simpl. auto.
Qed.

Lemma find_map_same {A} (f : A -> bool) (g : A -> A) l :
  (forall x, f (g x) = f x) ->
  find f (map g l) = option_map g (find f l).
Proof.
  intros Hfg. induction l as [|x l IH]; simpl; [reflexivity|].
  rewrite Hfg. destruct (f x); [reflexivity | exact IH].
Qed.

Lemma links_kept_refl rows : links_kept rows rows.
Proof. induction rows; constructor; auto. Qed.

Lemma links_kept_trans r1 r2 r3 :
  links_kept r1 r2 -> links_kept r2 r3 -> links_kept r1 r3.
Proof.
  unfold links_kept. intros H. revert r3.
  induction H as [|a b l1 l2 (Ha & Hb) _ IH]; intros r3 H3;
    inversion H3 as [|? c ? l3 (Hc & Hd) H3']; subst; constructor.
  - split; [congruence | auto].
  - apply IH. exact H3'.
Qed.

Lemma with_run_links_kept db e metadata rs :
  links_kept (run_registry db) (run_registry (with_run db e metadata rs)).
Proof.
  unfold with_run, links_kept. simpl.
  induction (run_registry db) as [|r rows IH]; simpl; constructor;
    [|exact IH].
  destruct (registry_id r =? registry_id e); simpl; split; auto.
  intros _. discriminate.
Qed.

Lemma blocked_kept db db' name :
  links_kept (run_registry db) (run_registry db') ->
  blocked db name -> blocked db' name.
Proof.
  unfold blocked, links_kept. intros H (r & Hf & Hl).
  induction H as [|a b l1 l2 (Ha & Hb) _ IH]; simpl in *; [discriminate|].
  unfold matches_log_file in *. rewrite Ha.
  destruct (match log_file_ref (registry_entry a) with
            | Some ref => String.eqb (sql_trim ref) name
            | None => false
            end).
  - injection Hf as <-. eauto.
  - apply IH. exact Hf.
Qed.

Lemma ingest_file_blocks log_path db rid c' :
  ingest_file' log_path (clean db) = (inr rid, c') ->
  exists db',
    c' = clean db'
    /\ links_kept (run_registry db) (run_registry db')
    /\ blocked db' (PyPath.name log_path).
Proof.
  intros H. destruct (ingest_file_ok _ _ _ _ H)
    as (e & metadata & rs & Hf & Hun & _ & _ & _ & ->).
  eexists. split; [reflexivity|]. split; [apply with_run_links_kept|].
  unfold blocked, with_run. simpl run_registry.
  rewrite find_map_same.
  - rewrite Hf. simpl. rewrite Z.eqb_refl. eexists. split; [reflexivity|].
    discriminate.
  - intros r. destruct (registry_id r =? registry_id e); reflexivity.
Qed.

Lemma ingest_file_blocked log_path db :
  blocked db (PyPath.name log_path) ->
  is_ok (fst (ingest_file' log_path (clean db))) = false.
Proof.
  intros (r & Hf & Hl). rewrite ingest_file_spec. simpl current.
  rewrite Hf. destruct (registry_run_id r); [reflexivity | contradiction].
Qed.

Lemma ingest_loop_blocked ps : forall acc db p,
  In p ps -> blocked db (PyPath.name p) ->
  is_ok (fst (ingest_loop' ps acc (clean db))) = false.
Proof.
  induction ps as [|p0 ps IH]; intros acc db p Hin Hb; [destruct Hin|].
  simpl. unfold cbind.
  destruct (ingest_file' p0 (clean db)) as [[e|rid] c1] eqn:E;
    [reflexivity|].
  destruct (ingest_file_blocks _ _ _ _ E) as (db1 & -> & Hk & _).
  destruct Hin as [<- | Hin].
  - pose proof (ingest_file_blocked p0 db Hb) as F. rewrite E in F.
    discriminate F.
  - eapply IH; [exact Hin|]. eapply blocked_kept; eauto.
Qed.

Lemma ingest_loop_distinct_names ps : forall acc db ids c',
  ingest_loop' ps acc (clean db) = (inr ids, c') ->
  NoDup (map PyPath.name ps).
Proof.
  induction ps as [|p ps IH]; intros acc db ids c'; simpl;
    [constructor|].
  unfold cbind.
  destruct (ingest_file' p (clean db)) as [[e|rid] c1] eqn:E;
    [discriminate|].
  destruct (ingest_file_blocks _ _ _ _ E) as (db1 & -> & _ & Hb).
  intros H. constructor; [|eapply IH; eauto].
  intros Hin. apply in_map_iff in Hin. destruct Hin as (q & Hq & Hin).
  rewrite <- Hq in Hb.
  pose proof (ingest_loop_blocked ps (acc ++ [rid]) db1 q Hin Hb) as F.
  rewrite H in F. discriminate F.
Qed.

(** X18. A log file is known to the registry by its base name alone: a
    call of [ingest_logs] that returns was given paths whose base names
    are all different. Two paths with the same base name, in whatever
    directories, make the call raise. *)
Theorem ingest_logs_needs_distinct_base_names (db db' : database)
  (log_paths : list string) (ids : list Z) :
  ingest_logs' db log_paths = (inr ids, db') ->
  NoDup (map PyPath.name log_paths).
Proof.
  unfold ingest_logs, with_connection. fold (clean db).
  destruct (ingest_loop' log_paths [] (clean db)) as [[e|ids0] c'] eqn:E;
    [discriminate|].
  intros _. eapply ingest_loop_distinct_names; eauto.
Qed.

(** X19. A log file from which no reading is parsed (a structured log
    with a header row only, a device log without a line that holds a
    sample) is not stored as an empty run: the call raises [IngestError]
    and the database stays as it was. *)
Theorem log_without_readings_is_rejected (db : database)
  (log_path : string) (e : registry_row) :
  find (matches_log_file (PyPath.name log_path)) (run_registry db) = Some e ->
  registry_run_id e = None ->
  _parse_log_file fs log_path default_tz = inr [] ->
  ingest_logs' db [log_path]
  = (inl (IngestError ("No readings parsed from " ++ log_path)), db).
Proof.
  intros Hf Hun Hp. rewrite ingest_logs_single, ingest_file_spec.
  simpl current. rewrite Hf, Hun, Hp. reflexivity.
Qed.

End IngestLoopFacts.

Lemma ingest_logs_appends_fresh_runs_witness :
  List.length [6; 7] = List.length ["device/run2.log"; "logs/run2.csv"]
  /\ Terms.grown_by Examples.db_two_unlinked
       (snd (Ingest.ingest_logs (RT := Samples.rt_utc_plus_1)
               Examples.fs_two_logs Examples.db_two_unlinked
               ["device/run2.log"; "logs/run2.csv"] "LUNA-001" "infant"
               "front" None "Etc/GMT-1"))
       [6; 7] (map PyPath.name ["device/run2.log"; "logs/run2.csv"]).
Proof.
  apply (ingest_logs_appends_fresh_runs (RT := Samples.rt_utc_plus_1)
           Examples.fs_two_logs "LUNA-001" "infant" "front" None "Etc/GMT-1"
           Examples.db_two_unlinked
           (snd (Ingest.ingest_logs (RT := Samples.rt_utc_plus_1)
                   Examples.fs_two_logs Examples.db_two_unlinked
                   ["device/run2.log"; "logs/run2.csv"] "LUNA-001" "infant"
                   "front" None "Etc/GMT-1"))
           ["device/run2.log"; "logs/run2.csv"] [6; 7]).
  vm_compute. reflexivity.
Defined.

(** The two runs of that call: the run 6 is the one of the device log and
    the run 7 the one of the structured log. *)
Lemma two_files_make_two_runs_in_path_order :
  map (fun r => (Storage.run_row_id r,
                 file_name (Storage.run_row_metadata r)))
    (Storage.runs
       (snd (Ingest.ingest_logs (RT := Samples.rt_utc_plus_1)
               Examples.fs_two_logs Examples.db_two_unlinked
               ["device/run2.log"; "logs/run2.csv"] "LUNA-001" "infant"
               "front" None "Etc/GMT-1")))
  = [(5, Some "run1.csv"); (6, Some "run2.log"); (7, Some "run2.csv")].
Proof. vm_compute. reflexivity. Qed.

Lemma ingest_logs_needs_distinct_base_names_witness :
  NoDup (map PyPath.name ["device/run2.log"; "logs/run2.csv"]).
Proof.
  apply (ingest_logs_needs_distinct_base_names (RT := Samples.rt_utc_plus_1)
           Examples.fs_two_logs "LUNA-001" "infant" "front" None "Etc/GMT-1"
           Examples.db_two_unlinked
           (snd (Ingest.ingest_logs (RT := Samples.rt_utc_plus_1)
                   Examples.fs_two_logs Examples.db_two_unlinked
                   ["device/run2.log"; "logs/run2.csv"] "LUNA-001" "infant"
                   "front" None "Etc/GMT-1"))
           ["device/run2.log"; "logs/run2.csv"] [6; 7]).
  vm_compute. reflexivity.
Defined.

(** Two copies of a log in two directories: the first is stored as the
    run 6, the second is refused. *)
Lemma same_base_name_in_two_directories :
  fst (Ingest.ingest_logs (RT := Samples.rt_utc_plus_1) Examples.fs_two_dirs
         Examples.db_two_unlinked ["a/run2.csv"; "b/run2.csv"] "LUNA-001"
         "infant" "front" None "Etc/GMT-1")
  = inl (IngestError
           "run_registry entry for 'run2.csv' is already linked to run_id=6").
Proof. vm_compute. reflexivity. Qed.

Lemma log_without_readings_is_rejected_witness :
  Ingest.ingest_logs (RT := Samples.rt_utc_plus_1) Examples.fs_device
    Examples.db_two_unlinked ["logs/run2.log"] "LUNA-001" "infant" "front"
    None "Etc/GMT-1"
  = (inl (IngestError "No readings parsed from logs/run2.log"),
     Examples.db_two_unlinked).
Proof.
  apply (log_without_readings_is_rejected (RT := Samples.rt_utc_plus_1)
           Examples.fs_device "LUNA-001" "infant" "front" None "Etc/GMT-1"
           Examples.db_two_unlinked "logs/run2.log"
           {| Storage.registry_id := 1;
              Storage.registry_entry :=
                Samples.registry_entry_for "T1" "run2.log";
              Storage.registry_run_id := None |}).
  - reflexivity.
  - reflexivity.
  - vm_compute. reflexivity.
Defined.

(** ** The columns of a sheet *)

Section ColumnFacts.
Import RegistryImport Terms.

Lemma isalpha_to_upper c :
  isalpha c = true -> PyStr.isupper (to_upper c) = true.
Proof.
  destruct c as [[] [] [] [] [] [] [] []]; vm_compute;
    first [reflexivity | intros H; exact H].
Qed.

Lemma isupper_value c :
  PyStr.isupper c = true -> 1 <= letter_value c <= 26.
Proof.
  destruct c as [[] [] [] [] [] [] [] []]; vm_compute;
    first [discriminate | intros _; split; discriminate].
Qed.

Lemma isupper_value_inj c1 c2 :
  PyStr.isupper c1 = true -> PyStr.isupper c2 = true ->
  letter_value c1 = letter_value c2 -> c1 = c2.
Proof.
  unfold letter_value, PyStr.code. intros _ _ H.
  assert (E : N_of_ascii c1 = N_of_ascii c2) by lia.
  rewrite <- (ascii_N_embedding c1), <- (ascii_N_embedding c2), E.
  reflexivity.
Qed.

Lemma upper_letters_upper s :
  Forall (fun c => PyStr.isupper c = true)
    (list_ascii_of_string (upper_letters s)).
Proof.
  induction s as [|c s IH]; simpl; [constructor|].
  destruct (isalpha c) eqn:A; [|exact IH].
  simpl. constructor; [apply isalpha_to_upper; exact A | exact IH].
Qed.

Lemma _column_index_base26 s :
  _column_index s = base26 (list_ascii_of_string (upper_letters s)).
Proof.
  unfold _column_index, base26. generalize 0 as idx.
  induction s as [|c s IH]; intros idx; simpl; [reflexivity|].
  destruct (isalpha c); simpl; apply IH.
Qed.

Lemma base26_snoc l c : base26 (l ++ [c]) = base26 l * 26 + letter_value c.
Proof. unfold base26. rewrite fold_left_app. reflexivity. Qed.

Lemma base26_nonneg l :
  Forall (fun c => PyStr.isupper c = true) l -> 0 <= base26 l.
Proof.
  induction l as [|c l IH] using rev_ind; intros H; [unfold base26; simpl; lia|].
  apply Forall_app in H. destruct H as (Hl & Hc).
  inversion Hc as [|? ? Hu _]; subst. rewrite base26_snoc.
  pose proof (isupper_value _ Hu). specialize (IH Hl). lia.
Qed.

Lemma base26_inj l1 : forall l2,
  Forall (fun c => PyStr.isupper c = true) l1 ->
  Forall (fun c => PyStr.isupper c = true) l2 ->
  base26 l1 = base26 l2 -> l1 = l2.
Proof.
  induction l1 as [|c1 l1 IH] using rev_ind; intros l2 H1 H2 E.
  - destruct l2 as [|c l2] using rev_ind; [reflexivity|].
    apply Forall_app in H2. destruct H2 as (Hl & Hc).
    inversion Hc as [|? ? Hu _]; subst. rewrite base26_snoc in E.
    pose proof (isupper_value _ Hu). pose proof (base26_nonneg _ Hl).
    change (base26 []) with 0 in E. lia.
  - apply Forall_app in H1. destruct H1 as (Hl1 & Hc1).
    inversion Hc1 as [|? ? Hu1 _]; subst.
    destruct l2 as [|c2 l2 _] using rev_ind.
    + rewrite base26_snoc in E.
      pose proof (isupper_value _ Hu1). pose proof (base26_nonneg _ Hl1).
      change (base26 []) with 0 in E. lia.
    + apply Forall_app in H2. destruct H2 as (Hl2 & Hc2).
      inversion Hc2 as [|? ? Hu2 _]; subst.
      rewrite !base26_snoc in E.
      pose proof (isupper_value _ Hu1). pose proof (isupper_value _ Hu2).
      assert (Ev : letter_value c1 = letter_value c2) by lia.
      assert (Eb : base26 l1 = base26 l2) by lia.
      rewrite (IH l2 Hl1 Hl2 Eb), (isupper_value_inj _ _ Hu1 Hu2 Ev).
      reflexivity.
Qed.

(** X20. [_column_index] reads the letters of a cell reference, in
    either case, as a number in the base 26 that has no zero, and leaves
    out everything else: two references have the same column exactly when
    their letters are the same, and the column is 0 only for a reference
    without a letter. *)
Theorem column_index_is_one_to_one_on_the_letters (a b : string) :
  (_column_index a = _column_index b <-> upper_letters a = upper_letters b)
  /\ 0 <= _column_index a
  /\ (_column_index a = 0 <-> upper_letters a = EmptyString).
Proof.
  assert (Hiff : forall x y,
             _column_index x = _column_index y
             <-> upper_letters x = upper_letters y).
  { intros x y. rewrite !_column_index_base26. split.
    - intros E. apply base26_inj in E; try apply upper_letters_upper.
      rewrite <- (string_of_list_ascii_of_string (upper_letters x)),
              <- (string_of_list_ascii_of_string (upper_letters y)), E.
      reflexivity.
    - intros ->. reflexivity. }
  split; [apply Hiff|]. split.
  - rewrite _column_index_base26. apply base26_nonneg, upper_letters_upper.
  - apply (Hiff a EmptyString).
Qed.

End ColumnFacts.

(** ** Stripping and normalising text *)

Section TextFacts.
Import PyStr RegistryImport Terms.

Lemma lstrip_with_starts p s : starts_clean p (lstrip_with p s).
Proof.
  induction s as [|c s IH]; simpl; [exact I|].
  destruct (p c) eqn:E; [exact IH | exact E].
Qed.

Lemma starts_clean_lstrip p s : starts_clean p s -> lstrip_with p s = s.
Proof. destruct s as [|c s]; simpl; [reflexivity|]. intros ->. reflexivity. Qed.

Lemma rstrip_with_starts p s :
  starts_clean p s -> starts_clean p (rstrip_with p s).
Proof.
  destruct s as [|c s]; simpl; [auto|]. intros Hc.
  destruct (rstrip_with p s); [rewrite Hc|]; exact Hc.
Qed.

Lemma rstrip_with_again p s :
  rstrip_with p (rstrip_with p s) = rstrip_with p s.
Proof.
  induction s as [|c s IH]; simpl; [reflexivity|].
  destruct (rstrip_with p s) as [|d r] eqn:E.
  - destruct (p c) eqn:Pc; simpl; [reflexivity|]. rewrite Pc. reflexivity.
  - simpl in IH |- *. rewrite IH. reflexivity.
Qed.

Lemma strip_with_again p s :
  strip_with p (strip_with p s) = strip_with p s.
Proof.
  unfold strip_with.
  rewrite (starts_clean_lstrip p (rstrip_with p (lstrip_with p s))).
  - apply rstrip_with_again.
  - apply rstrip_with_starts, lstrip_with_starts.
Qed.

Lemma starts_clean_weaker (p q : ascii -> bool) s :
  (forall c, q c = true -> p c = true) ->
  starts_clean p s -> starts_clean q s.
Proof.
  intros Hqp. destruct s as [|c s]; simpl; [auto|]. intros Hc.
  destruct (q c) eqn:Q; [|reflexivity]. rewrite (Hqp c Q) in Hc.
  discriminate.
Qed.

Lemma rstrip_with_fixed_weaker (p q : ascii -> bool) s :
  (forall c, q c = true -> p c = true) ->
  rstrip_with p s = s -> rstrip_with q s = s.
Proof.
  intros Hqp. induction s as [|c s IH]; simpl; [reflexivity|].
  destruct (rstrip_with p s) as [|d r] eqn:E.
  - destruct (p c) eqn:Pc; [discriminate|]. intros [= <-]. simpl.
    destruct (q c) eqn:Q; [|reflexivity]. rewrite (Hqp c Q) in Pc.
    discriminate.
  - intros [= Hs]. rewrite (IH Hs). rewrite <- Hs. reflexivity.
Qed.

(** Text without white space at its ends has no blank at its ends. *)
Lemma stripped_is_trimmed t : strip t = t -> Storage.sql_trim t = t.
Proof.
  intros H. unfold Storage.sql_trim, strip_with.
  assert (Hq : forall c, Ascii.eqb " " c = true -> isspace c = true).
  { intros c E. apply Ascii.eqb_eq in E. subst c. reflexivity. }
  assert (Hs : starts_clean isspace t).
  { rewrite <- H. unfold strip, strip_with.
    apply rstrip_with_starts, lstrip_with_starts. }
  assert (Hr : rstrip_with isspace t = t).
  { rewrite <- H at 1. unfold strip, strip_with.
    rewrite rstrip_with_again. exact H. }
  rewrite (starts_clean_lstrip _ t (starts_clean_weaker _ _ _ Hq Hs)).
  apply (rstrip_with_fixed_weaker isspace); assumption.
Qed.

Lemma _clean_str_clean x t :
  _clean_str x = Some t -> clean_text t /\ Storage.sql_trim t = t.
Proof.
  unfold _clean_str. destruct x as [v|]; [|discriminate].
  destruct (strip v) as [|c s] eqn:E; simpl; [discriminate|].
  intros [= <-].
  assert (Hs : strip (String c s) = String c s).
  { rewrite <- E. apply strip_with_again. }
  split; [split; [discriminate | exact Hs]|].
  apply stripped_is_trimmed. exact Hs.
Qed.

Lemma get_map_value {A V} (k : A -> string) (g : A -> V) l key v :
  PyList.get (map (fun item => (k item, g item)) l) key = Some v ->
  exists item, v = g item.
Proof.
  induction l as [|a l IH]; simpl; [discriminate|].
  destruct (PyList.get _ key) as [v'|].
  - intros [= <-]. apply IH. reflexivity.
  - destruct (String.eqb key (k a)); [|discriminate].
    intros [= <-]. eauto.
Qed.

Lemma mapped_get_clean row normalized target t :
  mapped_get (mapped_items row normalized) target = Some t ->
  clean_text t /\ Storage.sql_trim t = t.
Proof.
  unfold mapped_get, mapped_items.
  destruct (PyList.get _ target) as [v|] eqn:G; [|discriminate].
  apply get_map_value in G. destruct G as (item & ->).
  destruct (PyList.get normalized (fst item)); apply _clean_str_clean.
Qed.

Section WithRuntime.
Context {RT : Runtime}.

(** X21. Every entry that [_map_row] makes has a run id that is not
    empty and has no white space at its ends, and so has every free text
    column that is not [None]; the [TRIM] of the lookup by log file
    changes nothing on a [log_file_ref] that was imported. *)
Theorem mapped_entry_has_clean_text (row : PyList.dict (option string))
  (normalized_headers : PyList.dict string) (source : string) (number : Z)
  (default_tz : string) (entry : RunRegistryEntry) :
  _map_row row normalized_headers source number default_tz
  = inr (Some entry) ->
  clean_text (reg_external_run_id entry)
  /\ Forall (fun column => forall t, column = Some t -> clean_text t)
       (text_columns entry)
  /\ (forall t, log_file_ref entry = Some t -> Storage.sql_trim t = t).
Proof.
  unfold _map_row. intros H.
  apply bind_ok_inv in H. destruct H as (h & _ & H).
  destruct (_clean_str (PyCsv.row_get row h)) as [xid|] eqn:X;
    [|discriminate].
  apply bind_ok_inv in H. destruct H as (ts & _ & H).
  injection H as <-. unfold text_columns. simpl.
  split; [apply (_clean_str_clean _ _ X)|]. split.
  - repeat (apply Forall_cons;
            [intros t Ht; apply (mapped_get_clean _ _ _ _ Ht)|]).
    apply Forall_nil.
  - intros t Ht. apply (mapped_get_clean _ _ _ _ Ht).
Qed.

End WithRuntime.

(** *** Headers *)

Lemma isspace_to_lower c : isspace (to_lower c) = isspace c.
Proof. destruct c as [[] [] [] [] [] [] [] []]; reflexivity. Qed.

Lemma to_lower_again c : to_lower (to_lower c) = to_lower c.
Proof. destruct c as [[] [] [] [] [] [] [] []]; reflexivity. Qed.

Lemma lower_again s : lower (lower s) = lower s.
Proof.
  induction s as [|c s IH]; simpl; [reflexivity|].
  rewrite to_lower_again, IH. reflexivity.
Qed.

Lemma lower_empty s : lower s = EmptyString -> s = EmptyString.
Proof. destruct s; [reflexivity | discriminate]. Qed.

Lemma lstrip_lower s :
  lstrip_with isspace (lower s) = lower (lstrip_with isspace s).
Proof.
  induction s as [|c s IH]; simpl; [reflexivity|].
  rewrite isspace_to_lower. destruct (isspace c); [exact IH | reflexivity].
Qed.

Lemma rstrip_lower s :
  rstrip_with isspace (lower s) = lower (rstrip_with isspace s).
Proof.
  induction s as [|c s IH]; simpl; [reflexivity|].
  rewrite IH, isspace_to_lower.
  destruct (rstrip_with isspace s) as [|d r]; simpl;
    [destruct (isspace c); reflexivity | reflexivity].
Qed.

Lemma strip_lower s : strip (lower s) = lower (strip s).
Proof. unfold strip, strip_with. rewrite lstrip_lower, rstrip_lower. reflexivity. Qed.

Lemma collapse_lower r s :
  lower (collapse_ws r s) = collapse_ws r (lower s).
Proof.
  revert r. induction s as [|c s IH]; intros r; simpl; [reflexivity|].
  rewrite isspace_to_lower.
  destruct (isspace c); [destruct r|]; simpl; rewrite ?IH; reflexivity.
Qed.

Lemma collapse_true_starts s : starts_clean isspace (collapse_ws true s).
Proof.
  induction s as [|c s IH]; simpl; [exact I|].
  destruct (isspace c) eqn:E; [exact IH | exact E].
Qed.

Lemma collapse_starts_clean s :
  starts_clean isspace s -> collapse_ws true s = collapse_ws false s.
Proof. destruct s as [|c s]; simpl; [reflexivity|]. intros ->. reflexivity. Qed.

Lemma collapse_again s : forall r,
  collapse_ws false (collapse_ws r s) = collapse_ws r s.
Proof.
  induction s as [|c s IH]; intros r; simpl; [reflexivity|].
  destruct (isspace c) eqn:E.
  - destruct r; [apply IH|]. simpl.
    rewrite (collapse_starts_clean _ (collapse_true_starts s)), IH.
    reflexivity.
  - simpl. rewrite E, IH. reflexivity.
Qed.

Lemma collapse_not_empty s : forall r,
  s <> EmptyString -> rstrip_with isspace s = s ->
  collapse_ws r s <> EmptyString.
Proof.
  induction s as [|c s IH]; intros r Hne Hs; [contradiction|]. simpl.
  destruct (isspace c) eqn:E; [|discriminate].
  simpl in Hs. rewrite E in Hs.
  destruct (rstrip_with isspace s) as [|d t] eqn:R; [discriminate|].
  injection Hs as Hs.
  assert (Hn : s <> EmptyString) by (rewrite <- Hs; discriminate).
  destruct r; [apply IH; assumption | discriminate].
Qed.

Lemma rstrip_collapse s : forall r,
  rstrip_with isspace s = s ->
  rstrip_with isspace (collapse_ws r s) = collapse_ws r s.
Proof.
  induction s as [|c s IH]; intros r Hs; simpl; [reflexivity|].
  simpl in Hs.
  destruct (rstrip_with isspace s) as [|d t] eqn:R.
  - destruct (isspace c) eqn:E; [discriminate|]. injection Hs as <-.
    simpl. rewrite E. reflexivity.
  - injection Hs as Hs.
    assert (Hn : s <> EmptyString) by (rewrite <- Hs; discriminate).
    assert (Hs' : rstrip_with isspace s = s) by (rewrite R; exact Hs).
    assert (Hk : forall (a : ascii) r',
               rstrip_with isspace (String a (collapse_ws r' s))
               = String a (collapse_ws r' s)).
    { intros a r'. simpl. rewrite (IH r' Hs).
      pose proof (collapse_not_empty s r' Hn Hs').
      destruct (collapse_ws r' s); [contradiction | reflexivity]. }
    destruct (isspace c) eqn:E.
    + destruct r; [apply IH; exact Hs | apply Hk].
    + apply Hk.
Qed.

Lemma collapse_false_starts s :
  starts_clean isspace s -> starts_clean isspace (collapse_ws false s).
Proof. destruct s as [|c s]; simpl; [auto|]. intros E. rewrite E. exact E. Qed.

Lemma normalize_header_again value :
  _normalize_header (_normalize_header value) = _normalize_header value.
Proof.
  unfold _normalize_header.
  set (t := lower (strip value)).
  assert (Ht : strip t = t).
  { unfold t. rewrite strip_lower. f_equal. apply strip_with_again. }
  assert (Hstart : starts_clean isspace t).
  { rewrite <- Ht. unfold strip, strip_with.
    apply rstrip_with_starts, lstrip_with_starts. }
  assert (Hend : rstrip_with isspace t = t).
  { rewrite <- Ht at 1. unfold strip, strip_with.
    rewrite rstrip_with_again. exact Ht. }
  assert (Hx : strip (collapse_ws false t) = collapse_ws false t).
  { unfold strip, strip_with.
    rewrite (starts_clean_lstrip _ _ (collapse_false_starts _ Hstart)).
    apply rstrip_collapse. exact Hend. }
  rewrite Hx, collapse_lower. unfold t at 1. rewrite lower_again.
  fold t. apply collapse_again.
Qed.

Lemma free_of_replace s : free_of "_" (replace_char "_" " " s) = true.
Proof.
  induction s as [|c s IH]; simpl; [reflexivity|].
  destruct (Ascii.eqb c "_") eqn:E; simpl; [exact IH|].
  rewrite E, IH. reflexivity.
Qed.

Lemma replace_free_of s :
  free_of "_" s = true -> replace_char "_" " " s = s.
Proof.
  induction s as [|c s IH]; simpl; [reflexivity|].
  intros H. apply andb_true_iff in H. destruct H as (Hc & Hs).
  apply negb_true_iff in Hc. rewrite Hc, (IH Hs). reflexivity.
Qed.

Lemma free_of_lstrip p s :
  free_of "_" s = true -> free_of "_" (lstrip_with p s) = true.
Proof.
  induction s as [|c s IH]; simpl; [reflexivity|]. intros H.
  destruct (p c); [|exact H].
  apply andb_true_iff in H. apply IH, H.
Qed.

Lemma free_of_rstrip p s :
  free_of "_" s = true -> free_of "_" (rstrip_with p s) = true.
Proof.
  induction s as [|c s IH]; simpl; [reflexivity|]. intros H.
  apply andb_true_iff in H. destruct H as (Hc & Hs). specialize (IH Hs).
  destruct (rstrip_with p s) as [|d r].
  - destruct (p c); simpl; [reflexivity|]. rewrite Hc. reflexivity.
  - change (free_of "_" (String c (String d r)))
      with (negb (Ascii.eqb c "_") && free_of "_" (String d r)).
    rewrite Hc, IH. reflexivity.
Qed.

Lemma underscore_to_lower c :
  Ascii.eqb (to_lower c) "_" = Ascii.eqb c "_".
Proof. destruct c as [[] [] [] [] [] [] [] []]; reflexivity. Qed.

Lemma free_of_lower s :
  free_of "_" s = true -> free_of "_" (lower s) = true.
Proof.
  induction s as [|c s IH]; simpl; [reflexivity|]. intros H.
  apply andb_true_iff in H. destruct H as (Hc & Hs).
  rewrite underscore_to_lower, Hc, (IH Hs). reflexivity.
Qed.

Lemma free_of_collapse s : forall r,
  free_of "_" s = true -> free_of "_" (collapse_ws r s) = true.
Proof.
  induction s as [|c s IH]; intros r; simpl; [reflexivity|]. intros H.
  apply andb_true_iff in H. destruct H as (Hc & Hs).
  destruct (isspace c); [destruct r|]; simpl; rewrite ?Hc, ?(IH _ Hs);
    try reflexivity; apply IH; exact Hs.
Qed.

(** X22. [_normalize_header] and [_normalize_sheet_name] give the forms
    by which headers and sheet names are compared, and these forms are
    final: normalising a normalised name changes nothing. *)
Theorem normalized_names_are_final (value : string) :
  _normalize_header (_normalize_header value) = _normalize_header value
  /\ _normalize_sheet_name (_normalize_sheet_name value)
     = _normalize_sheet_name value.
Proof.
  split; [apply normalize_header_again|].
  unfold _normalize_sheet_name.
  rewrite (replace_free_of (_normalize_header _)).
  - apply normalize_header_again.
  - unfold _normalize_header, strip, strip_with.
    apply free_of_collapse, free_of_lower, free_of_rstrip, free_of_lstrip,
      free_of_replace.
Qed.

End TextFacts.

Lemma mapped_entry_has_clean_text_witness :
  Terms.clean_text "T1"
  /\ Forall (fun column => forall t, column = Some t -> Terms.clean_text t)
       (Terms.text_columns (Examples.entry_of "T1" 2 "planned" "run1.csv"))
  /\ (forall t,
        log_file_ref (Examples.entry_of "T1" 2 "planned" "run1.csv") = Some t ->
        Storage.sql_trim t = t).
Proof.
  apply (mapped_entry_has_clean_text (RT := Samples.rt_utc_plus_1)
           (PyCsv.zip_row ["RunID"; "Test  Status"; "Timestamp"; "Log File"]
              ["T1"; "planned"; ""; " run1.csv "])
           (map (fun h => (RegistryImport._normalize_header h, h))
              ["RunID"; "Test  Status"; "Timestamp"; "Log File"])
           "in/registry.csv" 2 "Etc/GMT-1"
           (Examples.entry_of "T1" 2 "planned" "run1.csv")).
  vm_compute. reflexivity.
Defined.

(** ** The cells of a workbook *)

Section XlsxFacts.
Import Xlsx.

Lemma item_in_range {A} (l : list A) i :
  - Z.of_nat (List.length l) <= i < Z.of_nat (List.length l) ->
  item l i
  = nth_error l (Z.to_nat (i mod Z.of_nat (List.length l))).
Proof.
  intros Hi. unfold item.
  destruct (Z.leb_spec 0 i) as [Hpos|Hneg]; simpl.
  - replace (i <? Z.of_nat (List.length l)) with true
      by (symmetry; apply Z.ltb_lt; lia).
    rewrite Z.mod_small by lia. reflexivity.
  - replace (- Z.of_nat (List.length l) <=? i) with true
      by (symmetry; apply Z.leb_le; lia).
    replace (i <? 0) with true by (symmetry; apply Z.ltb_lt; lia).
    simpl. f_equal. f_equal.
    rewrite <- (Z.mod_add i 1) by lia.
    rewrite Z.mod_small by lia. lia.
Qed.

Lemma item_out_of_range {A} (l : list A) i :
  i < - Z.of_nat (List.length l) \/ Z.of_nat (List.length l) <= i ->
  item l i = None.
Proof.
  intros Hi. unfold item.
  replace ((0 <=? i) && (i <? Z.of_nat (List.length l))) with false.
  2:{ symmetry. apply andb_false_iff.
      destruct Hi; [left; apply Z.leb_gt | right; apply Z.ltb_ge]; lia. }
  replace ((- Z.of_nat (List.length l) <=? i) && (i <? 0)) with false;
    [reflexivity|].
  symmetry. apply andb_false_iff.
  destruct Hi; [left; apply Z.leb_gt | right; apply Z.ltb_ge]; lia.
Qed.

(** X23. The value of a cell of the type ["s"] is the shared string at
    the index that its [<v>] holds, where an index below zero counts from
    the end of the table as far as the table reaches; when the text of
    [<v>] is no integer or the index is outside the table, the value is
    that text itself and nothing is raised. A cell of another type has
    the text of its [<v>] for its value, whatever the table holds. *)
Theorem cell_value_falls_back_to_the_raw_text
  (cell value_node : element) (others : list element)
  (shared_strings : list string) :
  findall cell "v" = value_node :: others ->
  let raw := text_or_empty value_node in
  let n := Z.of_nat (List.length shared_strings) in
  (PyList.get (attrib cell) "t" <> Some "s" ->
   _xlsx_cell_value cell shared_strings = raw)
  /\ (PyList.get (attrib cell) "t" = Some "s" ->
      (PyNum.int raw = None -> _xlsx_cell_value cell shared_strings = raw)
      /\ (forall i, PyNum.int raw = Some i ->
            (i < - n \/ n <= i ->
             _xlsx_cell_value cell shared_strings = raw)
            /\ (- n <= i < n ->
                nth_error shared_strings (Z.to_nat (i mod n))
                = Some (_xlsx_cell_value cell shared_strings)))).
Proof.
  intros Hv raw n. unfold _xlsx_cell_value. rewrite Hv. fold raw.
  split.
  - intros Ht. destruct (PyList.get (attrib cell) "t") as [t|]; [|reflexivity].
    destruct (String.eqb_spec t "s") as [->|Hne]; [contradiction|].
    destruct t as [|[[] [] [] [] [] [] [] []] [|a t]]; try reflexivity.
    contradiction.
  - intros ->. split.
    + intros ->. reflexivity.
    + intros i ->. split.
      * intros Hi. rewrite (item_out_of_range _ _ Hi). reflexivity.
      * intros Hi. rewrite (item_in_range _ _ Hi). fold n.
        destruct (nth_error shared_strings (Z.to_nat (i mod n))) eqn:E;
          [reflexivity|].
        exfalso. apply nth_error_None in E.
        assert (0 <= i mod n < n) by (apply Z.mod_pos_bound; lia).
        unfold n in *. lia.
Qed.

End XlsxFacts.

(** The cells of a workbook at work: the shared strings are put together
    from their runs, the cells are placed by their column, and the sheet
    is found by its normalised name. *)
Lemma workbook_is_read_through_its_cells :
  Xlsx._load_shared_strings (Some Examples.shared_strings_xml)
  = ["RunID"; "Test Status"; "Log File"; "T9"; "done"]
  /\ RegistryImport.parse_registry_file (RT := Samples.rt_utc_plus_1)
       Examples.fs_workbook "in/reg.xlsx" "test runs" "Etc/GMT-1"
     = inr [ {| reg_external_run_id := "T9";
                source_file := "reg.xlsx";
                source_row_number := 2;
                status := Some "done";
                planned_or_recorded_ts := None;
                test_device := None;
                sensor_cap := None;
                reg_diaper_type := None;
                test_protocol := None;
                findings_comments := None;
                test_result_ref := None;
                log_file_ref := Some "run9.csv" |} ].
Proof. split; vm_compute; reflexivity. Qed.

Lemma cell_value_falls_back_to_the_raw_text_witness :
  let raw := Xlsx.text_or_empty
               (Xlsx.Element (Xlsx.main "v") [] (Some "-1") []) in
  let n := Z.of_nat (List.length Examples.two_shared_strings) in
  (PyList.get (Xlsx.attrib Examples.cell_minus_one) "t" <> Some "s" ->
   Xlsx._xlsx_cell_value Examples.cell_minus_one Examples.two_shared_strings
   = raw)
  /\ (PyList.get (Xlsx.attrib Examples.cell_minus_one) "t" = Some "s" ->
      (PyNum.int raw = None ->
       Xlsx._xlsx_cell_value Examples.cell_minus_one
         Examples.two_shared_strings = raw)
      /\ (forall i, PyNum.int raw = Some i ->
            (i < - n \/ n <= i ->
             Xlsx._xlsx_cell_value Examples.cell_minus_one
               Examples.two_shared_strings = raw)
            /\ (- n <= i < n ->
                nth_error Examples.two_shared_strings (Z.to_nat (i mod n))
                = Some (Xlsx._xlsx_cell_value Examples.cell_minus_one
                          Examples.two_shared_strings)))).
Proof.
  apply (cell_value_falls_back_to_the_raw_text Examples.cell_minus_one
           (Xlsx.Element (Xlsx.main "v") [] (Some "-1") []) []
           Examples.two_shared_strings).
  reflexivity.
Defined.

(** The index -1 reads the last shared string. *)
Lemma cell_minus_one_reads_the_last_string :
  Xlsx._xlsx_cell_value Examples.cell_minus_one Examples.two_shared_strings
  = "beta".
Proof. reflexivity. Qed.

(** ** Device logs: the elapsed time *)

Section DeviceElapsedFacts.
Import Ingest PyDatetime Terms Vocabulary.
Context {RT : Runtime}.
Variable fs : filesystem.

Lemma int_of_ok s z : int_of s = inr z -> PyNum.int s = Some z.
Proof.
  unfold int_of. destruct (PyNum.int s); [intros [= <-]; reflexivity|].
  discriminate.
Qed.

(** The reading of a line that holds a sample: its time is the time of
    the sample of the line. *)
Lemma device_sample_of_line tzi base_dt line groups base r :
  PyRe.search _TEMP_HUMID_PATTERN line = Some groups ->
  device_sample tzi base_dt groups = inr (base, r) ->
  exists sample_dt,
    sample_time tzi line = Some sample_dt
    /\ microsecond (fields sample_dt) = 0
    /\ base = match base_dt with None => sample_dt | Some b => b end
    /\ t_elapsed_s r = total_seconds (sub_same_tzinfo sample_dt base)
    /\ timestamp r = Some (isoformat sample_dt).
Proof.
  intros Hs. unfold sample_time. rewrite Hs. unfold device_sample.
  destruct groups as [|g1 [|g2 [|g3 [|g4 [|g5 [|g6 [|g7 [|g8 [|]]]]]]]]];
    try discriminate.
  intros H.
  apply bind_ok_inv in H. destruct H as (y & Hy & H).
  apply bind_ok_inv in H. destruct H as (mo & Hmo & H).
  apply bind_ok_inv in H. destruct H as (d & Hd & H).
  apply bind_ok_inv in H. destruct H as (h & Hh & H).
  apply bind_ok_inv in H. destruct H as (mi & Hmi & H).
  apply bind_ok_inv in H. destruct H as (sec & Hsec & H).
  apply bind_ok_inv in H. destruct H as (sample_dt & Hmake & H).
  apply bind_ok_inv in H. destruct H as (temp_v & _ & H).
  apply bind_ok_inv in H. destruct H as (humid_v & _ & H).
  inversion H; subst; clear H.
  rewrite (int_of_ok _ _ Hy), (int_of_ok _ _ Hmo), (int_of_ok _ _ Hd),
    (int_of_ok _ _ Hh), (int_of_ok _ _ Hmi), (int_of_ok _ _ Hsec), Hmake.
  exists sample_dt. apply make_inv in Hmake. destruct Hmake as (Hf & _).
  rewrite Hf. simpl. auto.
Qed.

(** The readings of the loop when a first sample was seen already: each
    is the reading of a line, timed from that first sample. *)
Lemma device_readings_of_lines tzi b : forall lines rs,
  device_readings tzi lines (Some b) = inr rs ->
  Forall (fun r =>
            exists l sample_dt,
              In l lines
              /\ sample_time tzi l = Some sample_dt
              /\ microsecond (fields sample_dt) = 0
              /\ t_elapsed_s r = total_seconds (sub_same_tzinfo sample_dt b)
              /\ timestamp r = Some (isoformat sample_dt)) rs.
Proof.
  induction lines as [|line rest IH]; simpl; intros rs H.
  - inversion H. constructor.
  - assert (Hrest : forall rs',
               device_readings tzi rest (Some b) = inr rs' ->
               Forall (fun r =>
                 exists l sample_dt,
                   In l (line :: rest)
                   /\ sample_time tzi l = Some sample_dt
                   /\ microsecond (fields sample_dt) = 0
                   /\ t_elapsed_s r
                      = total_seconds (sub_same_tzinfo sample_dt b)
                   /\ timestamp r = Some (isoformat sample_dt)) rs').
    { intros rs' Hr. eapply Forall_impl; [|apply (IH _ Hr)].
      intros r (l & dt & Hin & H'). exists l, dt. split; [right; exact Hin|].
      exact H'. }
    destruct (PyRe.search _TEMP_HUMID_PATTERN line) as [groups|] eqn:Hs;
      [|apply Hrest; exact H].
    apply bind_ok_inv in H. destruct H as ([base r] & Hsample & H).
    apply bind_ok_inv in H. destruct H as (rs' & Hr & H).
    inversion H; subst; clear H. cbn [fst snd] in *.
    destruct (device_sample_of_line _ _ _ _ _ _ Hs Hsample)
      as (sample_dt & Hst & Hus & Hbase & Ht & Hts).
    cbn in Hbase. subst base. constructor.
    + exists line, sample_dt. split; [left; reflexivity|]. auto.
    + apply Hrest. exact Hr.
Qed.

(** The loop from the start: the lines in front of the first one that
    holds a sample add nothing, and that line sets the time from which all
    readings are timed. *)
Lemma device_readings_first_line tzi : forall lines rs,
  device_readings tzi lines None = inr rs ->
  (rs = [] /\ Forall (fun l => holds_sample l = false) lines)
  \/ exists pre line post first_dt r rest,
      lines = (pre ++ line :: post)%list
      /\ Forall (fun l => holds_sample l = false) pre
      /\ sample_time tzi line = Some first_dt
      /\ microsecond (fields first_dt) = 0
      /\ rs = r :: rest
      /\ t_elapsed_s r = 0%float
      /\ timestamp r = Some (isoformat first_dt)
      /\ Forall (fun r' =>
                   exists l sample_dt,
                     In l post
                     /\ sample_time tzi l = Some sample_dt
                     /\ microsecond (fields sample_dt) = 0
                     /\ t_elapsed_s r'
                        = total_seconds (sub_same_tzinfo sample_dt first_dt)
                     /\ timestamp r' = Some (isoformat sample_dt)) rest.
Proof.
  induction lines as [|line rest IH]; simpl; intros rs H.
  - inversion H. left. split; [reflexivity | constructor].
  - destruct (PyRe.search _TEMP_HUMID_PATTERN line) as [groups|] eqn:Hs.
    + right.
      apply bind_ok_inv in H. destruct H as ([base r] & Hsample & H).
      apply bind_ok_inv in H. destruct H as (rs' & Hr & H).
      inversion H; subst; clear H. cbn [fst snd] in *.
      destruct (device_sample_of_line _ _ _ _ _ _ Hs Hsample)
        as (sample_dt & Hst & Hus & Hbase & Ht & Hts).
      cbn in Hbase. subst base.
      exists [], line, rest, sample_dt, r, rs'.
      split; [reflexivity|]. split; [constructor|]. split; [exact Hst|].
      split; [exact Hus|]. split; [reflexivity|]. split.
      { rewrite Ht. unfold total_seconds, sub_same_tzinfo.
        rewrite Z.sub_diag. reflexivity. }
      split; [exact Hts|]. apply device_readings_of_lines. exact Hr.
    + assert (Hl : holds_sample line = false)
        by (unfold holds_sample; rewrite Hs; reflexivity).
      destruct (IH _ H) as [(-> & Hnone) | (pre & l & post & first_dt & r
                                            & rs' & -> & Hpre & Hrest)].
      * left. split; [reflexivity | constructor; assumption].
      * right. exists (line :: pre), l, post, first_dt, r, rs'.
        split; [reflexivity|]. split; [constructor; assumption|].
        exact Hrest.
Qed.

(** X24. The elapsed time of a reading of a device log is the number of
    whole seconds from the wall clock time of the first line of the file
    that holds a sample to the wall clock time of its own line, and its
    timestamp is that time. When no line holds a sample there is no
    reading. Else the lines in front of the first line that holds one add
    nothing, one reading has the elapsed time 0 and the timestamp of that
    line, and every reading is the reading of a line of the file: it has
    the time of the sample of that line as its timestamp, and its elapsed
    time is the seconds from the time of the first sample to it. *)
Theorem device_log_counts_whole_seconds_from_first_sample
  (path default_tz : string) (readings : list ReadingSample) :
  _parse_device_log fs path default_tz = inr readings ->
  exists f tzi,
    fs path = Some f
    /\ _detect_tzinfo (text_lines f) default_tz = inr tzi
    /\ ((readings = []
         /\ Forall (fun l => holds_sample l = false) (text_lines f))
        \/ exists pre line post first_dt,
            text_lines f = (pre ++ line :: post)%list
            /\ Forall (fun l => holds_sample l = false) pre
            /\ sample_time tzi line = Some first_dt
            /\ Exists (fun r => t_elapsed_s r = 0%float
                                /\ timestamp r = Some (isoformat first_dt))
                 readings
            /\ Forall (fun r =>
                         exists l sample_dt,
                           In l (text_lines f)
                           /\ sample_time tzi l = Some sample_dt
                           /\ timestamp r = Some (isoformat sample_dt)
                           /\ t_elapsed_s r
                              = wall_seconds_between sample_dt first_dt)
                 readings).
Proof.
  unfold _parse_device_log.
  destruct (device_log_readings fs path default_tz) as [e|parsed] eqn:E;
    simpl; [discriminate|].
  intros [= <-].
  pose proof (sort_key_perm parsed) as Hperm.
  unfold device_log_readings in E.
  destruct (fs path) as [f|]; [|discriminate].
  apply bind_ok_inv in E. destruct E as (tzi & Htz & E).
  exists f, tzi. split; [reflexivity|]. split; [exact Htz|].
  destruct (device_readings_first_line _ _ _ E)
    as [(-> & Hnone) | (pre & line & post & first_dt & r & rest & Hlines
                        & Hpre & Hst & Hus & -> & H0 & Hts & Hrest)].
  - left. split; [|exact Hnone].
    apply Permutation_nil in Hperm. exact Hperm.
  - right. exists pre, line, post, first_dt.
    split; [exact Hlines|]. split; [exact Hpre|]. split; [exact Hst|].
    split.
    + apply Exists_exists. exists r. split; [|auto].
      eapply Permutation_in; [exact Hperm | left; reflexivity].
    + eapply Permutation_Forall; [exact Hperm|]. constructor.
      * exists line, first_dt. split.
        { rewrite Hlines. apply in_or_app. right. left. reflexivity. }
        split; [exact Hst|]. split; [exact Hts|].
        unfold wall_seconds_between, sub_same_tzinfo.
        rewrite Z.sub_diag. rewrite H0. symmetry. apply float_of_int_0.
      * eapply Forall_impl; [|exact Hrest].
        intros r' (l & sample_dt & Hin & Hst' & Hm & Ht & Hs).
        exists l, sample_dt. split.
        { rewrite Hlines. apply in_or_app. right. right. exact Hin. }
        split; [exact Hst'|]. split; [exact Hs|]. rewrite Ht.
        apply total_seconds_whole; assumption.
Qed.

End DeviceElapsedFacts.

Lemma device_log_counts_whole_seconds_from_first_sample_witness :
  exists f tzi,
    Samples.fs_dst "dst.log" = Some f
    /\ Ingest._detect_tzinfo (RT := Samples.rt_berlin) (text_lines f)
         "Europe/Berlin" = inr tzi
    /\ ((Examples.dst_readings = []
         /\ Forall (fun l => Terms.holds_sample l = false) (text_lines f))
        \/ exists pre line post first_dt,
            text_lines f = (pre ++ line :: post)%list
            /\ Forall (fun l => Terms.holds_sample l = false) pre
            /\ Terms.sample_time tzi line = Some first_dt
            /\ Exists (fun r => t_elapsed_s r = 0%float
                                /\ timestamp r
                                   = Some (PyDatetime.isoformat first_dt))
                 Examples.dst_readings
            /\ Forall (fun r =>
                         exists l sample_dt,
                           In l (text_lines f)
                           /\ Terms.sample_time tzi l = Some sample_dt
                           /\ timestamp r
                              = Some (PyDatetime.isoformat sample_dt)
                           /\ t_elapsed_s r
                              = Terms.wall_seconds_between sample_dt first_dt)
                 Examples.dst_readings).
Proof.
  apply (device_log_counts_whole_seconds_from_first_sample
           (RT := Samples.rt_berlin) Samples.fs_dst "dst.log"
           "Europe/Berlin" Examples.dst_readings).
  vm_compute. reflexivity.
Defined.

(** ** From the registry import to the lookup of the ingestion *)

Section ImportThenLookup.
Import RegistryImport Storage Terms Vocabulary.
Context {RT : Runtime}.
Variable fs : filesystem.

Lemma _map_row_log_file_trimmed row normalized source number default_tz entry :
  _map_row row normalized source number default_tz = inr (Some entry) ->
  forall t, log_file_ref entry = Some t -> sql_trim t = t.
Proof.
  unfold _map_row. intros H.
  apply bind_ok_inv in H. destruct H as (h & _ & H).
  destruct (_clean_str (PyCsv.row_get row h)); [|discriminate].
  apply bind_ok_inv in H. destruct H as (ts & _ & H).
  injection H as <-. simpl. intros t Ht.
  apply (mapped_get_clean _ _ _ _ Ht).
Qed.

Lemma map_rows_log_files_trimmed rows normalized path default_tz :
  forall idx entries,
    map_rows rows normalized path idx default_tz = inr entries ->
    Forall (fun entry => forall t, log_file_ref entry = Some t ->
                                   sql_trim t = t) entries.
Proof.
  induction rows as [|row rows IH]; intros idx entries; simpl map_rows.
  - intros [= <-]. constructor.
  - intros H. apply bind_ok_inv in H. destruct H as (m & Hm & H).
    apply bind_ok_inv in H. destruct H as (rest & Hrest & H).
    injection H as <-. specialize (IH _ _ Hrest).
    destruct m as [entry|]; [|exact IH].
    constructor; [|exact IH]. eapply _map_row_log_file_trimmed; eauto.
Qed.

Lemma parsed_log_files_trimmed file_path sheet default_tz entries :
  parse_registry_file fs file_path sheet default_tz = inr entries ->
  Forall (fun entry => forall t, log_file_ref entry = Some t ->
                                 sql_trim t = t) entries.
Proof.
  unfold parse_registry_file.
  destruct (String.eqb _ ".csv").
  - unfold _parse_registry_csv.
    destruct (fs file_path) as [f|]; [|discriminate].
    destruct (PyCsv.fieldnames (csv_records f)); [|discriminate].
    intros H. apply bind_ok_inv in H. destruct H as ([] & _ & H).
    eapply map_rows_log_files_trimmed; eauto.
  - destruct (String.eqb _ ".xlsx"); [|discriminate].
    unfold _parse_registry_xlsx.
    destruct (fs file_path) as [f|]; [|discriminate].
    destruct (workbook f) as [sheets|]; [|discriminate].
    destruct (find _ sheets) as [sh|]; [|discriminate].
    destruct (map row_values_of (sheet_rows sh)) as [|headers body].
    + intros [= <-]. constructor.
    + intros H. apply bind_ok_inv in H. destruct H as ([] & _ & H).
      eapply map_rows_log_files_trimmed; eauto.
Qed.

Lemma find_exists {A} (f : A -> bool) l x :
  In x l -> f x = true -> exists y, find f l = Some y.
Proof.
  induction l as [|a l IH]; simpl; [contradiction|].
  intros [-> | Hin] Hx; [rewrite Hx; eauto|].
  destruct (f a); [eauto | apply IH; assumption].
Qed.

(** X26. The import and the ingestion fit together: after an import, the
    lookup that [ingest_logs] makes for a file name finds a registry row
    whenever that name is the log file of the last row that the imported
    file has for some run id, with or without white space around the
    name in the sheet. *)
Theorem imported_log_file_is_found_by_the_lookup (db db' : database)
  (file_path sheet default_tz : string) (n : Z)
  (entries : list RunRegistryEntry) (e : RunRegistryEntry) (name : string) :
  import_run_registry fs db file_path sheet default_tz = (inr n, db') ->
  parse_registry_file fs file_path sheet default_tz = inr entries ->
  last_with_id (reg_external_run_id e) entries = Some e ->
  log_file_ref e = Some name ->
  exists r,
    find (matches_log_file name) (run_registry db') = Some r
    /\ refers_to r name.
Proof.
  intros Himp Hparse Hlast Href.
  assert (Hin : In e entries).
  { unfold last_with_id in Hlast. apply find_some in Hlast.
    apply in_rev. exact (proj1 Hlast). }
  rewrite import_run_registry_spec, Hparse in Himp.
  destruct entries as [|e0 es]; [discriminate|].
  injection Himp as _ <-. cbn [run_registry].
  destruct (upsert_entries_lookup (e0 :: es) (run_registry db) e Hin)
    as (r0 & Hfind & Hentry).
  rewrite Hlast in Hentry. injection Hentry as Hentry.
  apply find_some in Hfind. destruct Hfind as (Hr0 & _).
  assert (Htrim : sql_trim name = name).
  { pose proof (parsed_log_files_trimmed _ _ _ _ Hparse) as Hall.
    rewrite Forall_forall in Hall. apply (Hall e Hin). exact Href. }
  assert (Hm : matches_log_file name r0 = true).
  { unfold matches_log_file. rewrite <- Hentry, Href, Htrim.
    apply String.eqb_refl. }
  destruct (find_exists _ _ _ Hr0 Hm) as (r & Hr).
  exists r. split; [exact Hr|].
  apply find_some in Hr. apply matches_refers. exact (proj2 Hr).
Qed.

End ImportThenLookup.

Lemma imported_log_file_is_found_by_the_lookup_witness :
  exists r,
    find (Storage.matches_log_file "run3.csv")
      (Storage.run_registry Examples.db_after_import) = Some r
    /\ Vocabulary.refers_to r "run3.csv".
Proof.
  apply (imported_log_file_is_found_by_the_lookup
           (RT := Samples.rt_utc_plus_1) Examples.fs_registries
           Samples.db_one_linked Examples.db_after_import
           "in/registry.csv" "test runs" "Etc/GMT-1" 3
           Examples.registry_good_entries
           (Examples.entry_of "T3" 4 "done" "run3.csv") "run3.csv").
  - vm_compute. reflexivity.
  - vm_compute. reflexivity.
  - reflexivity.
  - reflexivity.
Defined.

Lemma labels_need_the_exact_required_headers_witness :
  exists msg,
    LabelImport._parse_labels_csv Examples.fs_labels_padded_type "labels.csv"
      None = inl (LabelImportError msg).
Proof.
  apply (labels_need_the_exact_required_headers
           Examples.fs_labels_padded_type "labels.csv"
           Examples.labels_padded_event_type None).
  - reflexivity.
  - left. exists ["event_type "; "event_time_s"; "run_id"].
    split; reflexivity.
  - discriminate.
Defined.

(** ** Migrations *)

Section MigrationFacts.
Import Migrations.
Context {tables : Type}.
Variable engine :
  string -> @connection tables -> (error + unit) * @connection tables.
Variable clock : @connection tables -> string.

Local Abbreviation version_of := (fun m : dir_entry => stem (entry_name m)).
Local Abbreviation pending applied :=
  (filter (fun m : dir_entry => negb (PyList.mem (version_of m) applied))).

Lemma mem_In k xs : PyList.mem k xs = true <-> In k xs.
Proof.
  unfold PyList.mem. rewrite existsb_exists. split.
  - intros (x & Hx & E). apply String.eqb_eq in E. subst. exact Hx.
  - intros H. exists k. split; [exact H | apply String.eqb_refl].
Qed.

Lemma apply_loop_nothing_pending files applied c :
  (forall m, In m files -> PyList.mem (version_of m) applied = true) ->
  apply_loop engine clock files applied c = (inr tt, c).
Proof.
  induction files as [|m files IH]; intros H; simpl; [reflexivity|].
  rewrite (H m (or_introl eq_refl)). apply IH.
  intros m' Hm'. apply H. right. exact Hm'.
Qed.

Lemma apply_loop_records files applied : forall c c',
  scripts_keep_versions engine ->
  apply_loop engine clock files applied c = (inr tt, c') ->
  applied_versions c'
  = (applied_versions c ++ map version_of (pending applied files))%list
  /\ (NoDup (applied_versions c) -> NoDup (applied_versions c'))
  /\ (schema_migrations (current c) <> None ->
      schema_migrations (current c') <> None)
  /\ (c' = c \/ (in_transaction c' = false /\ committed c' = current c')).
Proof.
  induction files as [|m files IH]; intros c c' Hkeep; simpl.
  - intros [= <-]. rewrite app_nil_r. auto.
  - destruct (PyList.mem (version_of m) applied) eqn:M; simpl.
    + apply IH. exact Hkeep.
    + unfold executescript.
      pose proof (Hkeep (entry_text m) (commit c)) as Hk.
      destruct (engine (entry_text m) (commit c)) as [[e|u] c1];
        [destruct e; discriminate|].
      simpl in Hk.
      assert (Hc : schema_migrations (current (commit c))
                   = schema_migrations (current c)).
      { unfold commit. destruct (in_transaction c); reflexivity. }
      rewrite Hc in Hk. unfold insert_version. rewrite Hk.
      destruct (schema_migrations (current c)) as [rows|] eqn:R;
        [|discriminate].
      destruct (PyList.mem (version_of m) (map fst rows)) eqn:Dup;
        [discriminate|].
      unfold commit at 1. cbn [in_transaction current].
      intros H.
      destruct (IH _ _ Hkeep H) as (Hv & Hnd & Htab & Hclean).
      unfold applied_versions in Hv, Hnd |- *. simpl in Hv, Hnd, Htab.
      rewrite R. rewrite map_app in Hv, Hnd. simpl in Hv, Hnd.
      split; [rewrite Hv, <- app_assoc; reflexivity|].
      split.
      { intros Hn. apply Hnd. apply NoDup_app; [exact Hn | | ].
        - repeat constructor. intros [].
        - intros x Hx [<- | []].
          assert (Hcontra : PyList.mem (version_of m) (map fst rows) = true)
            by (apply mem_In; exact Hx).
          rewrite Hcontra in Dup. discriminate. }
      split; [intros _; apply Htab; discriminate|].
      right. destruct Hclean as [-> | Hclean]; [auto | exact Hclean].
Qed.

Lemma create_table_fresh (db : @content tables) :
  create_table (get_connection db)
  = get_connection
      match schema_migrations db with
      | Some _ => db
      | None => {| schema_migrations := Some []; tables_of := tables_of db |}
      end.
Proof. reflexivity. Qed.

(** What a call of [init_db] that returns has done, when the scripts leave
    the table of the versions alone. *)
Lemma init_db_ok db migrations_dir listing db1 :
  scripts_keep_versions engine ->
  init_db engine clock db migrations_dir listing = (inr tt, db1) ->
  exists entries,
    listing = Some entries
    /\ versions_of db1
       = (versions_of db
          ++ map version_of
               (pending (versions_of db)
                  (sorted_by_name (filter is_migration entries))))%list
    /\ (NoDup (versions_of db) -> NoDup (versions_of db1))
    /\ schema_migrations db1 <> None.
Proof.
  intros Hkeep. unfold init_db, apply_migrations.
  destruct listing as [entries|]; [|discriminate].
  rewrite create_table_fresh.
  set (db0 := match schema_migrations db with
              | Some _ => db
              | None => {| schema_migrations := Some [];
                           tables_of := tables_of db |}
              end).
  assert (Hv0 : applied_versions (get_connection db0) = versions_of db).
  { unfold applied_versions, versions_of, db0. simpl.
    destruct (schema_migrations db) eqn:E; simpl; [rewrite E|]; reflexivity. }
  assert (Ht0 : schema_migrations (current (get_connection db0)) <> None).
  { unfold db0. simpl. destruct (schema_migrations db) eqn:E; simpl;
      [rewrite E|]; discriminate. }
  destruct (apply_loop engine clock _ _ (get_connection db0))
    as [[e|[]] c'] eqn:L; [discriminate|].
  intros [= <-].
  destruct (apply_loop_records _ _ _ _ Hkeep L) as (Hv & Hnd & Htab & Hclean).
  rewrite Hv0 in Hv, Hnd.
  assert (Hdb1 : committed (commit c') = current c').
  { destruct Hclean as [-> | (Hf & Hc)]; [reflexivity|].
    unfold commit. rewrite Hf. exact Hc. }
  rewrite Hdb1. exists entries. split; [reflexivity|].
  split; [exact Hv|]. split; [exact Hnd | exact (Htab Ht0)].
Qed.

(** X27. A call of [init_db] that returns, on scripts that leave the
    table of the versions alone, has put on record the version (the stem
    of the file name) of every [.sql] file of the directory that was not
    on record, in the order of the file names and behind the versions that
    were there; and when no version was on record twice, none is
    afterwards. *)
Theorem migrations_are_recorded_in_name_order (db db1 : @content tables)
  (migrations_dir : string) (entries : list dir_entry) :
  scripts_keep_versions engine ->
  init_db engine clock db migrations_dir (Some entries) = (inr tt, db1) ->
  versions_of db1
  = (versions_of db
     ++ map version_of
          (pending (versions_of db)
             (sorted_by_name (filter is_migration entries))))%list
  /\ (NoDup (versions_of db) -> NoDup (versions_of db1)).
Proof.
  intros Hkeep H.
  destruct (init_db_ok _ _ _ _ Hkeep H) as (entries' & [= <-] & Hv & Hnd & _).
  auto.
Qed.

(** X28. Calling [init_db] again after a call that returned changes
    nothing, when the scripts leave the table of the versions alone: no
    script is run a second time and the database stays as it is. *)
Theorem init_db_again_changes_nothing (db db1 : @content tables)
  (migrations_dir : string) (listing : option (list dir_entry)) :
  scripts_keep_versions engine ->
  init_db engine clock db migrations_dir listing = (inr tt, db1) ->
  init_db engine clock db1 migrations_dir listing = (inr tt, db1).
Proof.
  intros Hkeep H.
  destruct (init_db_ok _ _ _ _ Hkeep H) as (entries & -> & Hv & _ & Htab).
  unfold init_db, apply_migrations. rewrite create_table_fresh.
  destruct (schema_migrations db1) as [rows|] eqn:R; [|contradiction].
  rewrite apply_loop_nothing_pending; [reflexivity|].
  intros m Hm. apply mem_In.
  change (applied_versions (get_connection db1)) with
    (match schema_migrations db1 with
     | Some rows0 => map fst rows0
     | None => []
     end).
  fold (versions_of db1). rewrite Hv. apply in_or_app.
  destruct (PyList.mem (version_of m) (versions_of db)) eqn:M.
  - left. apply mem_In. exact M.
  - right. apply in_map_iff. exists m. split; [reflexivity|].
    apply filter_In. split; [exact Hm|]. rewrite M. reflexivity.
Qed.

End MigrationFacts.

Lemma migrations_are_recorded_in_name_order_witness :
  Migrations.versions_of Examples.migrated_file
  = (Migrations.versions_of Examples.new_file
     ++ map (fun m => Migrations.stem (Migrations.entry_name m))
          (filter (fun m =>
                     negb (PyList.mem
                             (Migrations.stem (Migrations.entry_name m))
                             (Migrations.versions_of Examples.new_file)))
             (Migrations.sorted_by_name
                (filter Migrations.is_migration
                   Examples.migrations_listing))))%list
  /\ (NoDup (Migrations.versions_of Examples.new_file) ->
      NoDup (Migrations.versions_of Examples.migrated_file)).
Proof.
  apply (migrations_are_recorded_in_name_order Examples.engine_log
           Examples.clock_stopped Examples.new_file Examples.migrated_file
           "migrations" Examples.migrations_listing).
  - intros sql c. reflexivity.
  - vm_compute. reflexivity.
Defined.

Lemma init_db_again_changes_nothing_witness :
  Migrations.init_db Examples.engine_log Examples.clock_stopped
    Examples.migrated_file "migrations" (Some Examples.migrations_listing)
  = (inr tt, Examples.migrated_file).
Proof.
  apply (init_db_again_changes_nothing Examples.engine_log
           Examples.clock_stopped Examples.new_file Examples.migrated_file
           "migrations" (Some Examples.migrations_listing)).
  - intros sql c. reflexivity.
  - vm_compute. reflexivity.
Defined.

(** ** A sheet and its CSV export *)

Section SheetAndExport.
Import RegistryImport Terms.
Context {RT : Runtime}.
Variable fs : filesystem.

Lemma get_map_filter {V} (f : string -> string * V) (keep : string -> bool)
  (k : string) (l : list string) :
  (forall h, keep h = false -> fst (f h) <> k) ->
  PyList.get (map f (filter keep l)) k = PyList.get (map f l) k.
Proof.
  intros Hk. induction l as [|h l IH]; [reflexivity|].
  simpl. destruct (keep h) eqn:K; simpl.
  - destruct (f h) as [k' v]. rewrite IH. reflexivity.
  - rewrite IH. destruct (f h) as [k' v] eqn:F.
    destruct (PyList.get (map f l) k); [reflexivity|].
    destruct (String.eqb k k') eqn:E; [|reflexivity].
    apply String.eqb_eq in E. exfalso. apply (Hk h K). rewrite F. auto.
Qed.


Lemma skipn_succ_tl {A} (n : nat) : forall (l : list A),
  skipn (S n) l = tl (skipn n l).
Proof.
  induction n as [|n IH]; intros [|x l]; try reflexivity.
  change (skipn (S (S n)) (x :: l)) with (skipn (S n) l).
  change (skipn (S n) (x :: l)) with (skipn n l). apply IH.
Qed.

Lemma nth_hd_of_skipn {A} (d : A) (n : nat) : forall (l : list A),
  nth n l d = hd d (skipn n l).
Proof.
  induction n as [|n IH]; intros [|x l]; try reflexivity.
  simpl. apply IH.
Qed.

Lemma _clean_str_empty : _clean_str (Some EmptyString) = None.
Proof. reflexivity. Qed.

(** What [_map_row] reads under a header is the same from the row of the
    reader and from the row of the sheet. *)
Lemma row_agrees_from (values : list string) (k : string) :
  forall (headers : list string) (n : nat),
    let d1 := PyCsv.zip_row headers (skipn n values) in
    let d2 := map (fun hp : string * nat =>
                     (fst hp, Some (nth (snd hp) values EmptyString)))
                  (combine headers (seq n (List.length headers))) in
    (PyList.get d1 k = None <-> PyList.get d2 k = None)
    /\ _clean_str (PyCsv.row_get d1 k) = _clean_str (PyCsv.row_get d2 k).
Proof.
  induction headers as [|h hs IH]; intros n; [simpl; tauto|].
  cbn zeta. simpl combine. simpl map.
  specialize (IH (S n)). cbn zeta in IH. destruct IH as (Hn & Hc).
  rewrite skipn_succ_tl in Hn, Hc.
  rewrite (nth_hd_of_skipn EmptyString n values).
  unfold PyCsv.row_get in *.
  destruct (skipn n values) as [|v vs']; simpl tl in *; simpl hd;
    simpl PyCsv.zip_row; simpl PyList.get.
  - destruct (PyList.get (PyCsv.zip_row hs []) k) as [v1|] eqn:G1;
      destruct (PyList.get (map _ (combine hs _)) k) as [v2|] eqn:G2.
    + split; [split; discriminate | exact Hc].
    + exfalso. destruct Hn as (_ & Hn). specialize (Hn eq_refl). discriminate.
    + exfalso. destruct Hn as (Hn & _). specialize (Hn eq_refl). discriminate.
    + destruct (String.eqb k h); [|tauto].
      split; [split; discriminate | reflexivity].
  - destruct (PyList.get (PyCsv.zip_row hs vs') k) as [v1|] eqn:G1;
      destruct (PyList.get (map _ (combine hs _)) k) as [v2|] eqn:G2.
    + split; [split; discriminate | exact Hc].
    + exfalso. destruct Hn as (_ & Hn). specialize (Hn eq_refl). discriminate.
    + exfalso. destruct Hn as (Hn & _). specialize (Hn eq_refl). discriminate.
    + destruct (String.eqb k h); [|tauto].
      split; [split; discriminate | reflexivity].
Qed.

Lemma row_agrees (headers values : list string) (k : string) :
  _clean_str (PyCsv.row_get (row_dict_of headers values) k)
  = _clean_str (PyCsv.row_get (PyCsv.zip_row headers values) k).
Proof.
  symmetry. apply (row_agrees_from values k headers 0).
Qed.


Lemma normalized_without_empty_headers (names : list string) (k : string) :
  k <> EmptyString ->
  PyList.get (map (fun h => (_normalize_header h, h))
                (filter (fun h => negb (PyStr.is_empty h)) names)) k
  = PyList.get (map (fun h => (_normalize_header h, h)) names) k.
Proof.
  intros Hk. apply get_map_filter.
  intros [|c h]; [|discriminate]. intros _ E. apply Hk. symmetry. exact E.
Qed.

Lemma mapped_items_agree (headers values : list string)
  (norm1 norm2 : PyList.dict string) :
  (forall k, k <> EmptyString -> PyList.get norm2 k = PyList.get norm1 k) ->
  mapped_items (row_dict_of headers values) norm2
  = mapped_items (PyCsv.zip_row headers values) norm1.
Proof.
  intros H. unfold mapped_items. apply map_ext_in.
  intros [source_name target_name] Hin. cbn [fst snd]. f_equal.
  assert (Hk : source_name <> EmptyString).
  { intros ->. unfold _COLUMN_MAP in Hin. simpl in Hin.
    repeat (destruct Hin as [Hin | Hin]; [discriminate|]). exact Hin. }
  rewrite (H _ Hk).
  destruct (PyList.get norm1 source_name); [apply row_agrees | reflexivity].
Qed.

Lemma _map_row_agrees (headers values : list string)
  (norm1 norm2 : PyList.dict string) (p1 p2 : string) (idx : Z)
  (default_tz : string) :
  (forall k, k <> EmptyString -> PyList.get norm2 k = PyList.get norm1 k) ->
  _map_row (row_dict_of headers values) norm2 p2 idx default_tz
  = (m <- _map_row (PyCsv.zip_row headers values) norm1 p1 idx default_tz ;;
     ret (option_map (from_file (PyPath.name p2)) m)).
Proof.
  intros H. unfold _map_row, header_item.
  rewrite (H "runid") by discriminate.
  destruct (PyList.get norm1 "runid") as [h|]; [|reflexivity].
  cbn [bind ret]. rewrite row_agrees.
  destruct (_clean_str (PyCsv.row_get (PyCsv.zip_row headers values) h));
    [|reflexivity].
  rewrite (mapped_items_agree _ _ _ _ H).
  destruct (_normalize_timestamp _ default_tz); reflexivity.
Qed.

Lemma map_rows_agree (headers : list string)
  (norm1 norm2 : PyList.dict string) (p1 p2 default_tz : string) :
  (forall k, k <> EmptyString -> PyList.get norm2 k = PyList.get norm1 k) ->
  forall (body : list (list string)) (idx : Z),
    map_rows (map (row_dict_of headers) body) norm2 p2 idx default_tz
    = (entries <- map_rows (map (PyCsv.zip_row headers) body) norm1 p1 idx
                    default_tz ;;
       ret (map (from_file (PyPath.name p2)) entries)).
Proof.
  intros H. induction body as [|values body IH]; intros idx; [reflexivity|].
  simpl map. simpl map_rows.
  rewrite (_map_row_agrees _ _ _ _ p1 p2 _ _ H), IH.
  destruct (_map_row (PyCsv.zip_row headers values) norm1 p1 idx default_tz)
    as [e|[entry|]]; cbn [bind ret option_map]; [reflexivity| |].
  - destruct (map_rows _ norm1 p1 (idx + 1) default_tz); reflexivity.
  - destruct (map_rows _ norm1 p1 (idx + 1) default_tz); reflexivity.
Qed.

Lemma _validate_required_headers_agrees (norm1 norm2 : PyList.dict string) :
  (forall k, k <> EmptyString -> PyList.get norm2 k = PyList.get norm1 k) ->
  _validate_required_headers norm2 = _validate_required_headers norm1.
Proof.
  intros H. unfold _validate_required_headers, required_headers.
  cbn [filter]. unfold PyList.contains. rewrite !H by discriminate.
  reflexivity.
Qed.

Lemma no_blank_records (body : list (list string)) :
  Forall (fun r => r <> []) body ->
  filter (fun r => negb (PyCsv.is_blank_record r)) body = body.
Proof.
  induction 1 as [|r body Hr _ IH]; [reflexivity|].
  simpl. destruct r; [contradiction|]. simpl. rewrite IH. reflexivity.
Qed.

(** X29. A sheet of a workbook and its CSV export are read alike: when
    the rows of the sheet hold the records of the CSV file and no record
    behind the header is blank, [_parse_registry_xlsx] raises the exception
    that [_parse_registry_csv] raises, or returns its entries with the base
    name of the workbook as their source file.  Short rows, surplus values,
    headers that occur twice and headers that are empty make no
    difference. *)
Theorem sheet_and_its_export_give_the_same_entries
  (csv_path xlsx_path sheet_name_arg default_tz : string)
  (exported book : file) (sheets : list sheet) (sh : sheet)
  (headers : list string) (body : list (list string)) :
  fs csv_path = Some exported ->
  csv_records exported = headers :: body ->
  fs xlsx_path = Some book ->
  workbook book = Some sheets ->
  picked_sheet sheets sheet_name_arg = Some sh ->
  row_values sh = headers :: body ->
  Forall (fun r => r <> []) body ->
  _parse_registry_xlsx fs xlsx_path sheet_name_arg default_tz
  = (entries <- _parse_registry_csv fs csv_path default_tz ;;
     ret (map (from_file (PyPath.name xlsx_path)) entries)).
Proof.
  intros Hc Hrec Hx Hbook Hpick Hrows Hbody.
  unfold _parse_registry_xlsx, _parse_registry_csv.
  rewrite Hc, Hx, Hbook, Hrec. unfold picked_sheet in Hpick. rewrite Hpick.
  unfold row_values in Hrows. rewrite Hrows.
  cbn [PyCsv.fieldnames PyCsv.rows]. rewrite (no_blank_records _ Hbody).
  rewrite (_validate_required_headers_agrees _ _
             (normalized_without_empty_headers headers)).
  destruct (_validate_required_headers _) as [e|[]]; [reflexivity|].
  cbn [bind]. apply map_rows_agree. apply normalized_without_empty_headers.
Qed.

End SheetAndExport.

Lemma sheet_and_its_export_give_the_same_entries_witness :
  RegistryImport._parse_registry_xlsx (RT := Samples.rt_utc_plus_1)
    Examples.fs_workbook_and_export "in/reg.xlsx" "test runs" "Etc/GMT-1"
  = (entries <- RegistryImport._parse_registry_csv
                  (RT := Samples.rt_utc_plus_1)
                  Examples.fs_workbook_and_export "in/reg.csv" "Etc/GMT-1" ;;
     ret (map (Terms.from_file (PyPath.name "in/reg.xlsx")) entries)).
Proof.
  apply (sheet_and_its_export_give_the_same_entries
           (RT := Samples.rt_utc_plus_1) Examples.fs_workbook_and_export
           "in/reg.csv" "in/reg.xlsx" "test runs" "Etc/GMT-1"
           Examples.workbook_export Examples.workbook_file
           [{| sheet_name := "Test_Runs";
               sheet_rows :=
                 Xlsx.rows_of_sheet Examples.worksheet_xml
                   (Xlsx._load_shared_strings
                      (Some Examples.shared_strings_xml)) |}]
           {| sheet_name := "Test_Runs";
              sheet_rows :=
                Xlsx.rows_of_sheet Examples.worksheet_xml
                  (Xlsx._load_shared_strings
                     (Some Examples.shared_strings_xml)) |}
           ["RunID"; "Test Status"; "Log File"]
           [["T9"; "done"; " run9.csv"]]).
  - reflexivity.
  - reflexivity.
  - reflexivity.
  - reflexivity.
  - vm_compute. reflexivity.
  - vm_compute. reflexivity.
  - repeat constructor. discriminate.
Defined.

(** An empty row is counted in a sheet and skipped in a CSV file: the
    numbers of the rows behind it differ. *)
Lemma empty_row_is_counted_in_a_sheet_only :
  (entries <- RegistryImport._parse_registry_xlsx
                (RT := Samples.rt_utc_plus_1) Examples.fs_empty_row
                "in/reg.xlsx" "test runs" "Etc/GMT-1" ;;
   ret (map source_row_number entries)) = inr [3]
  /\ (entries <- RegistryImport._parse_registry_csv
                   (RT := Samples.rt_utc_plus_1) Examples.fs_empty_row
                   "in/reg.csv" "Etc/GMT-1" ;;
      ret (map source_row_number entries)) = inr [2].
Proof. split; vm_compute; reflexivity. Qed.
